(** * Cocktail advisor: retrieval and intent pipeline

    A shallow embedding of the retrieval-and-intent core of the cocktail
    advisor (app/utils/data_processor.py, app/core/memory.py,
    app/core/rag.py, app/core/vectordb.py, app/api/routes.py) and the
    properties its specification states about it.

    Modelling conventions.
    - Python [str] values are [string]s; the character functions
      ([lower], [strip], the regular-expression classes) are those of the
      ASCII range: characters above 127 are caseless and are not blanks.
    - A pandas DataFrame is the list of its rows, in row order.
    - A Python [set] of strings is a [gset string].
    - The regular expressions of the program are written as abstract
      syntax and run by a backtracking matcher with the semantics of
      Python's [re] module (ordered alternation, greedy and lazy
      repetition, leftmost match, one capturing group).
    - A NumPy floating-point scalar is a value of a binary format of
      IEEE 754, counted in units of the smallest positive number of the
      format; a sum or a quotient is the exact result rounded to
      nearest, ties to even.
    - What is not code of the program is a parameter: the text
      generator, the sentence encoder and the nearest-neighbour index,
      the random sampler, and of pandas the merge of two frames and the
      compilation of the pattern given to [Series.str.contains].
      [DataProcessor.merge] is the merge as pandas performs it on the
      frames of the corpus.
    - A call that may raise returns a [res]; the clock is a counter. *)

From Stdlib Require Import Ascii String List Bool Arith ZArith Lia DecimalString.
From Stdlib Require Import Sorting.Sorted.
From Stdlib Require Floats.SpecFloat.
From stdpp Require Import base gmap sets strings.
Import ListNotations.

Local Open Scope list_scope.
#[local] Set Warnings "-clear-no-such-hyp".

Abbreviation s2l := list_ascii_of_string.
Abbreviation l2s := string_of_list_ascii.

(* ===================================================================== *)
(** * Python string primitives *)
(* ===================================================================== *)

Module Py.

Definition code (a : ascii) : nat := nat_of_ascii a.

(** [str.isspace] on one ASCII character: TAB..CR, FS..US and space. *)
Definition is_space (a : ascii) : bool :=
  let n := code a in
  ((9 <=? n) && (n <=? 13)) || ((28 <=? n) && (n <=? 32)).

Definition is_digit (a : ascii) : bool :=
  let n := code a in (48 <=? n) && (n <=? 57).

Definition is_upper (a : ascii) : bool :=
  let n := code a in (65 <=? n) && (n <=? 90).

Definition lower_char (a : ascii) : ascii :=
  if is_upper a then ascii_of_nat (code a + 32) else a.

Definition lower_l (s : list ascii) : list ascii := map lower_char s.

(** [s.lower()] *)
Definition lower (s : string) : string := l2s (lower_l (s2l s)).

Fixpoint lstrip_l (s : list ascii) : list ascii :=
  match s with
  | a :: s' => if is_space a then lstrip_l s' else s
  | [] => []
  end.

Fixpoint rstrip_l (s : list ascii) : list ascii :=
  match s with
  | [] => []
  | a :: s' =>
      match rstrip_l s' with
      | [] => if is_space a then [] else [a]
      | t => a :: t
      end
  end.

Definition strip_l (s : list ascii) : list ascii := rstrip_l (lstrip_l s).

(** [s.strip()] *)
Definition strip (s : string) : string := l2s (strip_l (s2l s)).

Fixpoint prefix_l (p s : list ascii) : bool :=
  match p, s with
  | [], _ => true
  | a :: p', b :: s' => Ascii.eqb a b && prefix_l p' s'
  | _ :: _, [] => false
  end.

Fixpoint infix_l (p s : list ascii) : bool :=
  prefix_l p s ||
  match s with
  | [] => false
  | _ :: s' => infix_l p s'
  end.

(** [p in s] for two strings: [p] occurs in [s] as a contiguous block. *)
Definition str_in (p s : string) : bool := infix_l (s2l p) (s2l s).

(** [sep.join(parts)] *)
Fixpoint join (sep : string) (parts : list string) : string :=
  match parts with
  | [] => EmptyString
  | [p] => p
  | p :: rest => p +:+ sep +:+ join sep rest
  end.

(** Truthiness of a string: non-empty. *)
Definition nonempty (s : string) : bool :=
  match s with EmptyString => false | _ => true end.

(** [l[-n:]] for a list at least as long as it is asked for, and the
    whole list otherwise. *)
Definition last_n {A} (n : nat) (l : list A) : list A :=
  skipn (length l - n) l.

(** [str(n)] for a natural number. *)
Definition str_of_nat (n : nat) : string :=
  NilEmpty.string_of_uint (Nat.to_uint n).

(** [int(s)] on a string of decimal digits. The interpreter's limit on
    the length of such a string is not modelled. *)
Definition int_of_digits (s : list ascii) : nat :=
  fold_left (fun acc a => 10 * acc + (code a - 48)) s 0.

(** [l[k:]] for a signed index [k]: a negative [k] counts from the end
    and stops at the head of the list. *)
Definition slice_from {A} (k : Z) (l : list A) : list A :=
  if (0 <=? k)%Z then skipn (Z.to_nat k) l
  else skipn (length l - Z.to_nat (- k)) l.

End Py.

(* ===================================================================== *)
(** * NumPy floating-point scalars *)
(* ===================================================================== *)

Module Fp.

(** A binary floating-point format of IEEE 754: [prec] is the number of
    bits of the significand, the implicit one included, and [emax] the
    exponent of the infinities. *)
Record format : Type := mkFormat { prec : Z; emax : Z }.

Definition binary32 : format := {| prec := 24; emax := 128 |}.
Definition binary64 : format := {| prec := 53; emax := 1024 |}.

(** A value of a format. The finite ones are whole multiples of the
    smallest positive number of the format, [2 ^ emin]: [Fin s n] is
    [n] of these units, negated when [s] holds, so [Fin true 0] is the
    negative zero. Not every multiple is a number of the format; the
    operations return only those that are. *)
Inductive float : Type :=
| NaN
| Inf (negative : bool)
| Fin (negative : bool) (n : Z).

Section Arithmetic.
Variable fmt : format.
Local Open Scope Z_scope.

Definition emin : Z := 3 - emax fmt - prec fmt.

(** The number one, in units. *)
Definition ones : Z := 2 ^ (- emin).

(** [2 ^ emax] in units: the least magnitude that is no longer finite. *)
Definition top : Z := 2 ^ (emax fmt - emin).

(** The integer nearest to [a / b]; of two equally near, the even one. *)
Definition rne (a b : Z) : Z :=
  let q := a / b in
  match 2 * (a mod b) ?= b with
  | Lt => q
  | Gt => q + 1
  | Eq => if Z.even q then q else q + 1
  end.

(** The number with [prec] significant bits nearest to [a / b] units,
    ties to even, in units: the bits of the quotient beyond the first
    [prec] are rounded away. Below [2 ^ prec] units every integer is a
    number of the format (the subnormal numbers and the first binade). *)
Definition nearest (a b : Z) : Z :=
  let e := Z.max 0 (Z.log2 (a / b) + 1 - prec fmt) in
  rne a (b * 2 ^ e) * 2 ^ e.

(** Rounding to nearest of the magnitude [a / b] units, with overflow
    to infinity. *)
Definition round (negative : bool) (a b : Z) : float :=
  let n := nearest a b in
  if top <=? n then Inf negative else Fin negative n.

Definition signed (negative : bool) (n : Z) : Z := if negative then - n else n.

(** [x + y]: the exact sum, rounded. *)
Definition add (x y : float) : float :=
  match x, y with
  | NaN, _ | _, NaN => NaN
  | Inf s, Inf s' => if Bool.eqb s s' then x else NaN
  | Inf _, _ => x
  | _, Inf _ => y
  | Fin s a, Fin s' b =>
      let z := signed s a + signed s' b in
      if z =? 0 then Fin (s && s') 0 else round (z <? 0) (Z.abs z) 1
  end.

(** [x / y]: the exact quotient, rounded. NumPy scalars divide by zero
    without raising: the result is an infinity, or NaN for [0 / 0]. *)
Definition div (x y : float) : float :=
  match x, y with
  | NaN, _ | _, NaN => NaN
  | Inf _, Inf _ => NaN
  | Inf s, Fin s' _ => Inf (xorb s s')
  | Fin s _, Inf s' => Fin (xorb s s') 0
  | Fin s a, Fin s' b =>
      if b =? 0 then (if a =? 0 then NaN else Inf (xorb s s'))
      else round (xorb s s') (a * ones) b
  end.

Definition zero : float := Fin false 0.
Definition one : float := Fin false ones.

(** [x <= y]; NaN compares with nothing, the two zeros are equal. *)
Definition leb (x y : float) : bool :=
  match x, y with
  | NaN, _ | _, NaN => false
  | Inf true, _ => true
  | _, Inf false => true
  | Inf false, _ => false
  | _, Inf true => false
  | Fin s a, Fin s' b => signed s a <=? signed s' b
  end.

(** [x < y] *)
Definition ltb (x y : float) : bool := leb x y && negb (leb y x).

(** [float(1.0 / (1.0 + d))] for a distance [d] of the index. The sum
    and the quotient are NumPy scalar operations, each rounded in the
    format of its result: binary32, the type of the distance, since
    NumPy 2, and binary64 before. The conversion to a Python float
    changes no value. *)
Definition score (d : float) : float := div one (add one d).

(** The value that the Standard Library's specification of IEEE 754
    writes with a sign, a significand and an exponent. *)
Definition of_spec (x : SpecFloat.spec_float) : float :=
  match x with
  | SpecFloat.S754_zero s => Fin s 0
  | SpecFloat.S754_infinity s => Inf s
  | SpecFloat.S754_nan => NaN
  | SpecFloat.S754_finite s m e => Fin s (Z.pos m * 2 ^ (e - emin))
  end.

End Arithmetic.

Definition eqb (x y : float) : bool :=
  match x, y with
  | NaN, NaN => true
  | Inf s, Inf s' => Bool.eqb s s'
  | Fin s a, Fin s' b => Bool.eqb s s' && (a =? b)%Z
  | _, _ => false
  end.

End Fp.

(* ===================================================================== *)
(** * Regular expressions with Python's matching discipline *)
(* ===================================================================== *)

Module Re.

(** Abstract syntax of the patterns the program uses. Every repeated
    atom in them is a character class, so repetition is over classes. *)
Inductive regex : Type :=
| Eps
| Cls (p : ascii -> bool)
| Seq (r1 r2 : regex)
| Alt (r1 r2 : regex)
| Star (greedy : bool) (p : ascii -> bool)
| Grp (r : regex).

(** A match in progress: the unread input and the text of group 1. *)
Definition outcome : Type := (list ascii * option (list ascii))%type.
Definition cont : Type := list ascii -> option (list ascii) -> option outcome.

Definition or_else (x y : option outcome) : option outcome :=
  match x with Some _ => x | None => y end.

(** Backtracking matcher, anchored at the head of [s]. The first
    alternative that lets the continuation succeed wins. *)
Fixpoint run (r : regex) (s : list ascii) (g : option (list ascii))
         (k : cont) {struct r} : option outcome :=
  match r with
  | Eps => k s g
  | Cls p =>
      match s with
      | a :: s' => if p a then k s' g else None
      | [] => None
      end
  | Seq r1 r2 => run r1 s g (fun s' g' => run r2 s' g' k)
  | Alt r1 r2 => or_else (run r1 s g k) (run r2 s g k)
  | Star greedy p =>
      (fix iter (s : list ascii) : option outcome :=
         match s with
         | a :: s' =>
             if p a then
               if greedy then or_else (iter s') (k s g)
               else or_else (k s g) (iter s')
             else k s g
         | [] => k s g
         end) s
  | Grp r1 =>
      run r1 s g
          (fun s' _ => k s' (Some (firstn (length s - length s') s)))
  end.

(** [pattern.match(s)]: unread input and group 1, if the head matches. *)
Definition match_here (r : regex) (s : list ascii) : option outcome :=
  run r s None (fun s' g => Some (s', g)).

(** [re.search(r, s)]: the leftmost match, as (unread input, group 1). *)
Fixpoint search_l (r : regex) (s : list ascii) : option outcome :=
  match match_here r s with
  | Some m => Some m
  | None =>
      match s with
      | [] => None
      | _ :: s' => search_l r s'
      end
  end.

Definition search (r : regex) (s : string) : option outcome :=
  search_l r (s2l s).

Definition found (r : regex) (s : string) : bool :=
  match search r s with Some _ => true | None => false end.

(** Text of group 1 of a match ([match.group(1)]). *)
Definition group1 (m : outcome) : string :=
  match snd m with Some g => l2s g | None => EmptyString end.

(** [re.findall(r, s)] for a pattern with one group: group 1 of every
    match, left to right, matches not overlapping. [skip] counts the
    characters still covered by the previous match. *)
Fixpoint findall_l (r : regex) (s : list ascii) (skip : nat) : list string :=
  match skip with
  | S n =>
      match s with
      | _ :: s' => findall_l r s' n
      | [] => []
      end
  | O =>
      match match_here r s with
      | Some m =>
          group1 m ::
          match s with
          | _ :: s' => findall_l r s' (pred (length s - length (fst m)))
          | [] => []
          end
      | None =>
          match s with
          | _ :: s' => findall_l r s' 0
          | [] => []
          end
      end
  end.

Definition findall (r : regex) (s : string) : list string :=
  findall_l r (s2l s) 0.

(** [re.split(r, s)] for a pattern without groups whose matches are
    never empty: the pieces between the matches. [cur] holds the
    current piece, reversed. *)
Fixpoint split_l (r : regex) (s : list ascii) (skip : nat)
         (cur : list ascii) : list (list ascii) :=
  match skip with
  | S n =>
      match s with
      | _ :: s' => split_l r s' n cur
      | [] => [rev cur]
      end
  | O =>
      match s with
      | [] => [rev cur]
      | a :: s' =>
          match match_here r s with
          | Some m =>
              match length s - length (fst m) with
              | O => split_l r s' 0 (a :: cur)
              | S n => rev cur :: split_l r s' n []
              end
          | None => split_l r s' 0 (a :: cur)
          end
      end
  end.

Definition split (r : regex) (s : string) : list string :=
  map l2s (split_l r (s2l s) 0 []).

(** [re.sub(r, '', s)] for a pattern whose matches are never empty:
    every match, left to right, is deleted. *)
Fixpoint delete_all_l (r : regex) (s : list ascii) (skip : nat) : list ascii :=
  match skip with
  | S n =>
      match s with
      | _ :: s' => delete_all_l r s' n
      | [] => []
      end
  | O =>
      match s with
      | [] => []
      | a :: s' =>
          match match_here r s with
          | Some m =>
              match length s - length (fst m) with
              | O => a :: delete_all_l r s' 0
              | S n => delete_all_l r s' n
              end
          | None => a :: delete_all_l r s' 0
          end
      end
  end.

(** [re.sub('^' + r, '', s)]: a pattern anchored with [^] can only
    match at the head of the string; what it matches there is deleted. *)
Definition delete_prefix_l (r : regex) (s : list ascii) : list ascii :=
  match match_here r s with
  | Some m => fst m
  | None => s
  end.

(** ** Pattern combinators *)

Definition chr (a : ascii) : regex := Cls (Ascii.eqb a).
(** A literal character under [re.IGNORECASE]. *)
Definition chr_i (a : ascii) : regex :=
  Cls (fun b => Ascii.eqb (Py.lower_char a) (Py.lower_char b)).

Fixpoint lit_l (w : list ascii) : regex :=
  match w with
  | [] => Eps
  | a :: w' => Seq (chr a) (lit_l w')
  end.
Fixpoint lit_i_l (w : list ascii) : regex :=
  match w with
  | [] => Eps
  | a :: w' => Seq (chr_i a) (lit_i_l w')
  end.

(** A literal word; [ci] is the [re.IGNORECASE] flag. *)
Definition lit (ci : bool) (w : string) : regex :=
  if ci then lit_i_l (s2l w) else lit_l (s2l w).

Fixpoint seqs (rs : list regex) : regex :=
  match rs with
  | [] => Eps
  | [r] => r
  | r :: rs' => Seq r (seqs rs')
  end.

Fixpoint alts (rs : list regex) : regex :=
  match rs with
  | [] => Cls (fun _ => false)
  | [r] => r
  | r :: rs' => Alt r (alts rs')
  end.

(** [(?:w1|w2|...)] over literal words. *)
Definition words (ci : bool) (ws : list string) : regex :=
  alts (map (lit ci) ws).

(** [r?] *)
Definition opt (r : regex) : regex := Alt r Eps.
(** [c+] and [c+?] over a class. *)
Definition plus (p : ascii -> bool) : regex := Seq (Cls p) (Star true p).
Definition plus_lazy (p : ascii -> bool) : regex := Seq (Cls p) (Star false p).

Definition one_of (cs : string) (a : ascii) : bool :=
  existsb (Ascii.eqb a) (s2l cs).
Definition none_of (cs : string) (a : ascii) : bool := negb (one_of cs a).

Definition newline : ascii := ascii_of_nat 10.
(** [.] without [re.DOTALL]: any character but the line feed. *)
Definition dot (a : ascii) : bool := negb (Ascii.eqb a newline).

End Re.

(* ===================================================================== *)
(** * Results of code that may raise *)
(* ===================================================================== *)

(** A Python call either returns a value or raises. *)
Inductive res (A : Type) : Type :=
| Ret (a : A)
| Raise.
Arguments Ret {A} a.
Arguments Raise {A}.

Definition res_bind {A B} (x : res A) (f : A -> res B) : res B :=
  match x with
  | Ret a => f a
  | Raise => Raise
  end.

(* ===================================================================== *)
(** * app/utils/data_processor.py *)
(* ===================================================================== *)

Module DataProcessor.

(** One row of [cocktails_df] after [_clean_data]. *)
Record Row : Type := mkRow {
  name : string;
  ingredients : string;
  garnish : string;
  preparation : string;
  glass : string;
  is_alcoholic : bool;
  ingredients_list : list string
}.

#[global] Instance Row_eq_dec : EqDecision Row.
Proof. solve_decision. Defined.

Definition DataFrame : Type := list Row.

(** [[,;\n]] *)
Definition delimiter_re : Re.regex :=
  Re.Cls (fun a => Re.one_of ",;" a || Ascii.eqb a Re.newline).

(** [\d+\s*(?:oz|ml|...|wedges?)\s+(?:of\s+)?] under [re.IGNORECASE];
    the leading [^] is in the way the pattern is applied. *)
Definition measure_re : Re.regex :=
  Re.seqs
    [ Re.plus Py.is_digit;
      Re.Star true Py.is_space;
      Re.alts
        (map (Re.lit true)
             ["oz"; "ml"; "cl"; "dash"; "dashes"; "teaspoon"; "tablespoon";
              "tsp"; "tbsp"; "shot"; "shots"; "part"; "parts"; "pinch";
              "drops"; "splash"]
         ++ [ Re.Seq (Re.lit true "sprig") (Re.opt (Re.lit true "s"));
              Re.Seq (Re.lit true "slice") (Re.opt (Re.lit true "s"));
              Re.Seq (Re.lit true "wedge") (Re.opt (Re.lit true "s")) ]);
      Re.plus Py.is_space;
      Re.opt (Re.Seq (Re.lit true "of") (Re.plus Py.is_space)) ].

(** [\d+[/\d\s.]*\s+(?:of\s+)?], case-sensitive. *)
Definition quantity_re : Re.regex :=
  Re.seqs
    [ Re.plus Py.is_digit;
      Re.Star true
        (fun a => Re.one_of "/." a || Py.is_digit a || Py.is_space a);
      Re.plus Py.is_space;
      Re.opt (Re.Seq (Re.lit false "of") (Re.plus Py.is_space)) ].

(** [\([^)]*\)] *)
Definition parens_re : Re.regex :=
  Re.seqs [ Re.chr "("; Re.Star true (Re.none_of ")"); Re.chr ")" ].

(** The body of the loop of [_extract_ingredients] for one piece of the
    split text: the cleaned token, if one is left. *)
Definition clean_ingredient (piece : list ascii) : option (list ascii) :=
  let ingredient := Py.strip_l piece in
  match ingredient with
  | [] => None
  | _ =>
      let ingredient := Re.delete_prefix_l measure_re ingredient in
      let ingredient := Re.delete_prefix_l quantity_re ingredient in
      let ingredient := Re.delete_all_l parens_re ingredient 0 in
      let ingredient := Py.strip_l ingredient in
      match ingredient with
      | [] => None
      | _ => Some (Py.lower_l ingredient)
      end
  end.

Definition tokens_of (o : option (list ascii)) : list string :=
  match o with
  | Some t => [l2s t]
  | None => []
  end.

Definition _extract_ingredients (ingredients_text : string) : list string :=
  if Py.nonempty ingredients_text then
    flat_map (fun piece => tokens_of (clean_ingredient piece))
             (Re.split_l delimiter_re (s2l ingredients_text) 0 [])
  else [].

(** [non-alcoholic|non alcoholic|alcohol-free|alcohol free|virgin],
    searched with [case=False]. *)
Definition non_alcoholic_re : Re.regex :=
  Re.words true
    ["non-alcoholic"; "non alcoholic"; "alcohol-free"; "alcohol free";
     "virgin"].

(** One line of the CSV file, missing values filled with the empty
    string. *)
Record RawRow : Type := mkRawRow {
  raw_name : string;
  raw_ingredients : string;
  raw_garnish : string;
  raw_preparation : string;
  raw_glass : string
}.

(** [_clean_data]: the two derived columns of every row. *)
Definition clean_row (r : RawRow) : Row :=
  {| name := raw_name r;
     ingredients := raw_ingredients r;
     garnish := raw_garnish r;
     preparation := raw_preparation r;
     glass := raw_glass r;
     is_alcoholic :=
       negb (Re.found non_alcoholic_re (Py.lower (raw_ingredients r)));
     ingredients_list := _extract_ingredients (raw_ingredients r) |}.

Definition _clean_data (rows : list RawRow) : DataFrame := map clean_row rows.

Definition get_cocktails_containing (cocktails_df : DataFrame)
           (ingredient : string) : DataFrame :=
  let ingredient := Py.lower ingredient in
  List.filter (fun row =>
            existsb (fun ing => Py.str_in ingredient ing)
                    (ingredients_list row))
         cocktails_df.

Definition get_non_alcoholic_cocktails (cocktails_df : DataFrame) : DataFrame :=
  List.filter (fun row => negb (is_alcoholic row)) cocktails_df.

(** [result.iloc[0]] if the frame is not empty, [None] otherwise. *)
Definition first_row (result : DataFrame) : option Row := head result.

Section ByName.
(** [re.compile(pat, re.IGNORECASE)], which [Series.str.contains]
    calls on its argument (its [regex] parameter defaults to [True]);
    [None] stands for [re.error]. *)
Variable re_compile : string -> option Re.regex.

Definition get_cocktail_by_name (cocktails_df : DataFrame)
           (name_arg : string) : res (option Row) :=
  let name_arg := Py.lower name_arg in
  let result :=
    List.filter (fun row => bool_decide (Py.lower (name row) = name_arg))
           cocktails_df in
  match result with
  | [] =>
      (* Try fuzzy matching *)
      match re_compile name_arg with
      | Some pat =>
          Ret (first_row
                 (List.filter (fun row => Re.found pat (Py.lower (name row)))
                         cocktails_df))
      | None => Raise
      end
  | _ => Ret (first_row result)
  end.
End ByName.

(** Characters with a meaning of their own in a pattern. *)
Definition is_special (a : ascii) : bool := Re.one_of ".^$*+?{}[]\|()" a.

(** A name without special characters is a pattern that matches itself. *)
Definition plain (s : string) : bool := forallb (fun a => negb (is_special a)) (s2l s).

(** The pattern language restricted to literal characters and [.]: what
    [re.compile(pat, re.IGNORECASE)] returns on such a pattern. Other
    patterns are outside this fragment. *)
Fixpoint compile_l (pat : list ascii) : option Re.regex :=
  match pat with
  | [] => Some Re.Eps
  | a :: pat' =>
      match compile_l pat' with
      | Some r =>
          if Ascii.eqb a "." then Some (Re.Seq (Re.Cls Re.dot) r)
          else if is_special a then None
          else Some (Re.Seq (Re.chr_i a) r)
      | None => None
      end
  end.

Definition compile_basic (pat : string) : option Re.regex := compile_l (s2l pat).

(** [left.merge(right, how="inner")] of pandas on two frames with the
    columns of the corpus. Called without [on], it joins on every
    column the frames share, [ingredients_list] among them. To match
    the rows pandas hashes the values of the key columns, and a value
    of [ingredients_list] is a Python list, which has no hash: as soon
    as both frames have a row the call ends in [TypeError]. With an
    empty frame there is nothing to match and the join is empty. *)
Definition merge (left right : DataFrame) : res DataFrame :=
  match left, right with
  | _ :: _, _ :: _ => Raise
  | _, _ => Ret []
  end.

(** [df.head(n)] for a signed [n]: the first [n] rows, or all rows but
    the last [-n]. *)
Definition head_rows (n : Z) (df : DataFrame) : DataFrame :=
  if (0 <=? n)%Z then firstn (Z.to_nat n) df
  else firstn (length df - Z.to_nat (- n)) df.

(** [list(set(all_ingredients))]: the tokens of all rows, each once, in
    some order. *)
Definition get_all_ingredients (cocktails_df : DataFrame) : list string :=
  elements (list_to_set (flat_map ingredients_list cocktails_df) : gset string).

End DataProcessor.

(* ===================================================================== *)
(** * app/core/memory.py *)
(* ===================================================================== *)

Module Memory.

(** One message of the conversation history; the timestamp is the
    number of the clock reading that produced it. *)
Record Entry : Type := mkEntry {
  role : string;
  content : string;
  timestamp : nat
}.

(** What [_save_memory] writes. *)
Record Saved : Type := mkSaved {
  saved_ingredients : gset string;
  saved_cocktails : gset string;
  saved_history : list Entry
}.

(** The [UserMemory] object, with the two pieces of the world it acts
    on: the user's memory file and the clock. *)
Record UserMemory : Type := mkUserMemory {
  favorite_ingredients : gset string;
  favorite_cocktails : gset string;
  conversation_history : list Entry;
  user_memory_file : option Saved;
  clock : nat
}.

(** [_save_memory] writes the three fields to the user's file. The
    program catches an error of the write and goes on; such an error is
    not modelled, the write always takes place. *)
Definition _save_memory (self : UserMemory) : UserMemory :=
  {| favorite_ingredients := favorite_ingredients self;
     favorite_cocktails := favorite_cocktails self;
     conversation_history := conversation_history self;
     user_memory_file :=
       Some {| saved_ingredients := favorite_ingredients self;
               saved_cocktails := favorite_cocktails self;
               saved_history := conversation_history self |};
     clock := clock self |}.

Definition set_favorite_ingredients (self : UserMemory) (s : gset string) : UserMemory :=
  {| favorite_ingredients := s;
     favorite_cocktails := favorite_cocktails self;
     conversation_history := conversation_history self;
     user_memory_file := user_memory_file self;
     clock := clock self |}.

Definition set_favorite_cocktails (self : UserMemory) (s : gset string) : UserMemory :=
  {| favorite_ingredients := favorite_ingredients self;
     favorite_cocktails := s;
     conversation_history := conversation_history self;
     user_memory_file := user_memory_file self;
     clock := clock self |}.

Definition set_conversation_history (self : UserMemory) (h : list Entry) : UserMemory :=
  {| favorite_ingredients := favorite_ingredients self;
     favorite_cocktails := favorite_cocktails self;
     conversation_history := h;
     user_memory_file := user_memory_file self;
     clock := clock self |}.

(** [datetime.now()]: the reading, and the clock moved on. *)
Definition now (self : UserMemory) : nat * UserMemory :=
  (clock self,
   {| favorite_ingredients := favorite_ingredients self;
      favorite_cocktails := favorite_cocktails self;
      conversation_history := conversation_history self;
      user_memory_file := user_memory_file self;
      clock := S (clock self) |}).

Definition add_favorite_ingredient (self : UserMemory) (ingredient : string) : UserMemory :=
  let ingredient := Py.strip (Py.lower ingredient) in
  _save_memory
    (set_favorite_ingredients self ({[ ingredient ]} ∪ favorite_ingredients self)).

Definition remove_favorite_ingredient (self : UserMemory) (ingredient : string)
  : bool * UserMemory :=
  let ingredient := Py.strip (Py.lower ingredient) in
  if bool_decide (ingredient ∈ favorite_ingredients self) then
    (true,
     _save_memory
       (set_favorite_ingredients self (favorite_ingredients self ∖ {[ ingredient ]})))
  else (false, self).

Definition add_favorite_cocktail (self : UserMemory) (cocktail : string) : UserMemory :=
  let cocktail := Py.strip cocktail in
  _save_memory
    (set_favorite_cocktails self ({[ cocktail ]} ∪ favorite_cocktails self)).

Definition remove_favorite_cocktail (self : UserMemory) (cocktail : string)
  : bool * UserMemory :=
  let cocktail := Py.strip cocktail in
  if bool_decide (cocktail ∈ favorite_cocktails self) then
    (true,
     _save_memory
       (set_favorite_cocktails self (favorite_cocktails self ∖ {[ cocktail ]})))
  else (false, self).

Definition add_to_conversation_history (self : UserMemory) (role content : string)
  : UserMemory :=
  let '(t, self) := now self in
  let history :=
    conversation_history self
      ++ [ {| role := role; content := content; timestamp := t |} ] in
  (* Keep only the last 50 messages *)
  let history :=
    if 50 <? length history then Py.last_n 50 history else history in
  _save_memory (set_conversation_history self history).

(** [list(self.favorite_ingredients)]: the elements, in some order. *)
Definition get_favorite_ingredients (self : UserMemory) : list string :=
  elements (favorite_ingredients self).

Definition get_favorite_cocktails (self : UserMemory) : list string :=
  elements (favorite_cocktails self).

(** [(?: in my (?:drinks|cocktails))?] *)
Definition in_my_drinks : Re.regex :=
  Re.opt (Re.Seq (Re.lit true " in my ") (Re.words true ["drinks"; "cocktails"])).

(** [(.+?)] *)
Definition captured : Re.regex := Re.Grp (Re.plus_lazy Re.dot).

(** [[.!]] *)
Definition stop : Re.regex := Re.Cls (Re.one_of ".!").

(** The five patterns of [detect_favorite_ingredients], all applied
    with [re.IGNORECASE]. *)
Definition ingredient_patterns : list Re.regex :=
  [ Re.seqs [ Re.lit true "I "; Re.opt (Re.lit true "really "); Re.lit true "like";
              Re.opt (Re.lit true " to use"); Re.lit true " ";
              captured; in_my_drinks; stop ];
    Re.seqs [ Re.lit true "I "; Re.opt (Re.lit true "really "); Re.lit true "love";
              Re.opt (Re.lit true " to use"); Re.lit true " ";
              captured; in_my_drinks; stop ];
    Re.seqs [ Re.lit true "My favorite "; Re.words true ["ingredient"; "ingredients"];
              Re.lit true " "; Re.words true ["is"; "are"]; Re.lit true " ";
              captured; stop ];
    Re.seqs [ Re.lit true "I prefer "; Re.opt (Re.lit true "to use ");
              captured; in_my_drinks; stop ];
    Re.seqs [ Re.lit true "I enjoy "; Re.opt (Re.lit true "using ");
              captured; in_my_drinks; stop ] ].

(** [(?: cocktail)?] *)
Definition cocktail_word : Re.regex := Re.opt (Re.lit true " cocktail").

(** The five patterns of [detect_favorite_cocktails]. *)
Definition cocktail_patterns : list Re.regex :=
  [ Re.seqs [ Re.lit true "I "; Re.opt (Re.lit true "really "); Re.lit true "like";
              Re.opt (Re.lit true " to drink"); Re.lit true " ";
              Re.opt (Re.lit true "the "); captured; cocktail_word; stop ];
    Re.seqs [ Re.lit true "I "; Re.opt (Re.lit true "really "); Re.lit true "love";
              Re.opt (Re.lit true " to drink"); Re.lit true " ";
              Re.opt (Re.lit true "the "); captured; cocktail_word; stop ];
    Re.seqs [ Re.lit true "My favorite "; Re.words true ["cocktail"; "drink"];
              Re.lit true " is "; Re.opt (Re.lit true "the "); captured; stop ];
    Re.seqs [ Re.lit true "I prefer "; Re.opt (Re.lit true "to drink ");
              Re.opt (Re.lit true "the "); captured; cocktail_word; stop ];
    Re.seqs [ Re.lit true "I enjoy "; Re.opt (Re.lit true "drinking ");
              Re.opt (Re.lit true "the "); captured; cocktail_word; stop ] ].

(** [,|\sand\s] *)
Definition list_sep_re : Re.regex :=
  Re.Alt (Re.chr ",")
         (Re.seqs [ Re.Cls Py.is_space; Re.lit false "and"; Re.Cls Py.is_space ]).

(** [[f(x.strip()) for x in re.split(r',|\sand\s', text) if x.strip()]] *)
Definition split_items (f : string -> string) (text : string) : list string :=
  map (fun x => f (Py.strip x))
      (List.filter (fun x => Py.nonempty (Py.strip x)) (Re.split list_sep_re text)).

Definition detect_favorite_ingredients (message : string) : list string :=
  flat_map (fun pattern =>
              flat_map (split_items Py.lower) (Re.findall pattern message))
           ingredient_patterns.

Definition detect_favorite_cocktails (message : string) : list string :=
  flat_map (fun pattern =>
              flat_map (split_items (fun x => x)) (Re.findall pattern message))
           cocktail_patterns.

(** The dictionary returned by [process_user_message]. *)
Record Detected : Type := mkDetected {
  new_favorite_ingredients : list string;
  new_favorite_cocktails : list string
}.

(** One pass of the loop over the detected ingredients: the memory and
    the new favorites found so far. *)
Definition note_ingredient (acc : UserMemory * list string) (ingredient : string)
  : UserMemory * list string :=
  let '(self, new) := acc in
  if bool_decide (ingredient ∈ favorite_ingredients self) then acc
  else (add_favorite_ingredient self ingredient, new ++ [ingredient]).

Definition note_cocktail (acc : UserMemory * list string) (cocktail : string)
  : UserMemory * list string :=
  let '(self, new) := acc in
  if bool_decide (cocktail ∈ favorite_cocktails self) then acc
  else (add_favorite_cocktail self cocktail, new ++ [cocktail]).

Definition process_user_message (self : UserMemory) (message : string)
  : Detected * UserMemory :=
  let detected_ingredients := detect_favorite_ingredients message in
  let '(self, new_ingredients) :=
    fold_left note_ingredient detected_ingredients (self, []) in
  let detected_cocktails := detect_favorite_cocktails message in
  let '(self, new_cocktails) :=
    fold_left note_cocktail detected_cocktails (self, []) in
  let self := add_to_conversation_history self "user" message in
  ({| new_favorite_ingredients := new_ingredients;
      new_favorite_cocktails := new_cocktails |}, self).

(** A profile seen for the first time: nothing stored, no file yet. *)
Definition fresh : UserMemory :=
  {| favorite_ingredients := ∅;
     favorite_cocktails := ∅;
     conversation_history := [];
     user_memory_file := None;
     clock := 0 |}.

Definition get_recent_conversation (self : UserMemory) (limit : Z) : list Entry :=
  match conversation_history self with
  | [] => []
  | _ => Py.slice_from (- limit) (conversation_history self)
  end.

(** [_load_memory], on a file that holds what [_save_memory] wrote: the
    three fields are read back from it. Without a file nothing changes. *)
Definition _load_memory (self : UserMemory) : UserMemory :=
  match user_memory_file self with
  | Some data =>
      {| favorite_ingredients := saved_ingredients data;
         favorite_cocktails := saved_cocktails data;
         conversation_history := saved_history data;
         user_memory_file := user_memory_file self;
         clock := clock self |}
  | None => self
  end.

(** [UserMemory(user_id=...)]: the object a request builds, given the
    user's memory file and the clock. *)
Definition new_memory (file : option Saved) (time : nat) : UserMemory :=
  _load_memory
    {| favorite_ingredients := ∅;
       favorite_cocktails := ∅;
       conversation_history := [];
       user_memory_file := file;
       clock := time |}.

End Memory.

(* ===================================================================== *)
(** * app/core/vectordb.py *)
(* ===================================================================== *)

Module VectorDB.

(** One entry of [cocktail_data], as [get_cocktails_for_embedding]
    builds it. *)
Record Cocktail : Type := mkCocktail {
  id : nat;
  name : string;
  ingredients : string;
  garnish : string;
  preparation : string;
  glass : string;
  is_alcoholic : bool;
  content : string
}.

Definition nl : string := String Re.newline EmptyString.

Definition cocktail_of_row (i : nat) (row : DataProcessor.Row) : Cocktail :=
  {| id := i;
     name := DataProcessor.name row;
     ingredients := Py.join ", " (DataProcessor.ingredients_list row);
     garnish := DataProcessor.garnish row;
     preparation := DataProcessor.preparation row;
     glass := DataProcessor.glass row;
     is_alcoholic := DataProcessor.is_alcoholic row;
     content :=
       "Cocktail: " +:+ DataProcessor.name row +:+ nl
       +:+ "Ingredients: " +:+ DataProcessor.ingredients row +:+ nl
       +:+ "Garnish: " +:+ DataProcessor.garnish row +:+ nl
       +:+ "Preparation: " +:+ DataProcessor.preparation row +:+ nl
       +:+ "Glass: " +:+ DataProcessor.glass row +:+ nl |}.

Fixpoint cocktails_from (i : nat) (df : DataProcessor.DataFrame) : list Cocktail :=
  match df with
  | [] => []
  | row :: df' => cocktail_of_row i row :: cocktails_from (S i) df'
  end.

(** [CocktailDataProcessor.get_cocktails_for_embedding] *)
Definition get_cocktails_for_embedding (df : DataProcessor.DataFrame) : list Cocktail :=
  cocktails_from 0 df.

(** [l[i]] for a Python list and a signed index: a negative index
    counts from the end; [None] stands for [IndexError]. *)
Definition py_index {A} (l : list A) (i : Z) : option A :=
  if (0 <=? i)%Z then nth_error l (Z.to_nat i)
  else if (- Z.of_nat (length l) <=? i)%Z
       then nth_error l (Z.to_nat (Z.of_nat (length l) + i))
       else None.

Section Search.
(** The numbers of the index, the distances and the scores computed
    from them, with the conversion of the one into the other. In the
    program they are the numbers of [Fp.float] and the conversion is
    [Fp.score]. *)
Variable F : Type.
(** [float(1.0 / (1.0 + d))] *)
Variable similarity : F -> F.
(** The encoder followed by [cocktail_index.search]: for one query
    and [top_k], the pairs [(distances[0][i], indices[0][i])]. *)
Variable index_search : string -> nat -> res (list (F * Z)).
Variable cocktail_data : list Cocktail.

(** A copy of an entry of [cocktail_data] with its ['score']. *)
Record Scored : Type := mkScored {
  cocktail : Cocktail;
  score : F
}.

Fixpoint collect (hits : list (F * Z)) : res (list Scored) :=
  match hits with
  | [] => Ret []
  | (d, idx) :: hits' =>
      if (idx <? Z.of_nat (length cocktail_data))%Z then
        match py_index cocktail_data idx with
        | Some c =>
            res_bind (collect hits')
                     (fun rest => Ret ({| cocktail := c; score := similarity d |} :: rest))
        | None => Raise
        end
      else collect hits'
  end.

Definition search_cocktails (query : string) (top_k : nat) : res (list Scored) :=
  res_bind (index_search query top_k) collect.

Definition get_cocktails_with_ingredients (ingredients : list string) (top_k : nat)
  : res (list Scored) :=
  let query := "Cocktail with ingredients: " +:+ Py.join ", " ingredients in
  search_cocktails query top_k.

(** The frame of the [CocktailDataProcessor] that
    [get_similar_cocktails] builds anew from the same file. *)
Variable re_compile : string -> option Re.regex.
Variable cocktails_df : DataProcessor.DataFrame.

Definition get_similar_cocktails (cocktail_name : string) (top_k : nat)
  : res (list Scored) :=
  res_bind (DataProcessor.get_cocktail_by_name re_compile cocktails_df cocktail_name)
    (fun cocktail =>
       match cocktail with
       | None => Ret []
       | Some row =>
           let query :=
             "Cocktail with ingredients: "
             +:+ Py.join ", " (DataProcessor.ingredients_list row) in
           search_cocktails query top_k
       end).
End Search.

Arguments cocktail {F} _.
Arguments score {F} _.

Section IngredientSearch.
Variable F : Type.
Variable similarity : F -> F.
(** The encoder followed by [ingredient_index.search]. *)
Variable ingredient_search : string -> nat -> res (list (F * Z)).
Variable ingredient_data : list string.

Fixpoint collect_ingredients (hits : list (F * Z)) : res (list (string * F)) :=
  match hits with
  | [] => Ret []
  | (d, idx) :: hits' =>
      if (idx <? Z.of_nat (length ingredient_data))%Z then
        match py_index ingredient_data idx with
        | Some ingredient =>
            res_bind (collect_ingredients hits')
                     (fun rest => Ret ((ingredient, similarity d) :: rest))
        | None => Raise
        end
      else collect_ingredients hits'
  end.

Definition search_ingredients (query : string) (top_k : nat)
  : res (list (string * F)) :=
  res_bind (ingredient_search query top_k) collect_ingredients.
End IngredientSearch.

End VectorDB.

(* ===================================================================== *)
(** * app/core/rag.py *)
(* ===================================================================== *)

Module Rag.

Import Memory.

Definition nl : string := VectorDB.nl.
Definition dq : string := String (ascii_of_nat 34) EmptyString.

(** ** Intent classification *)

(** [(?:with|containing|that (?:has|have))] *)
Definition containing_words : Re.regex :=
  Re.alts [ Re.lit false "with"; Re.lit false "containing";
            Re.Seq (Re.lit false "that ") (Re.words false ["has"; "have"]) ].

(** [(?:a|an)] *)
Definition article (ci : bool) : Re.regex := Re.words ci ["a"; "an"].

(** [(.+)] *)
Definition rest_of_line : Re.regex := Re.Grp (Re.plus Re.dot).

(** [cocktails?] *)
Definition cocktails_word : Re.regex :=
  Re.Seq (Re.lit false "cocktail") (Re.opt (Re.lit false "s")).

Definition ingredient_patterns : list Re.regex :=
  [ Re.seqs [ cocktails_word; Re.lit false " "; containing_words;
              Re.lit false " "; rest_of_line ];
    Re.seqs [ Re.words false ["list"; "show"; "tell me"; "what are"];
              Re.lit false " ";
              Re.opt (Re.words false ["some"; "the"; "all"]);
              Re.lit false " "; cocktails_word; Re.lit false " ";
              containing_words; Re.lit false " "; rest_of_line ];
    Re.seqs [ Re.lit false "what "; Re.words false ["cocktails"; "drinks"];
              Re.lit false " ";
              Re.words false ["can I make"; "have"; "contain"];
              Re.lit false " "; Re.words false ["with"; "using"];
              Re.lit false " "; rest_of_line ] ].

Definition cocktail_patterns : list Re.regex :=
  [ Re.seqs [ Re.words false ["how"; "tell me how"]; Re.lit false " to make ";
              article false; Re.lit false " "; rest_of_line ];
    Re.seqs [ Re.words false ["what is"; "what's"]; Re.lit false " ";
              article false; Re.lit false " "; rest_of_line ];
    Re.seqs [ Re.words false ["recipe"; "ingredients"]; Re.lit false " for ";
              article false; Re.lit false " "; rest_of_line ] ].

Definition recommendation_patterns : list Re.regex :=
  [ Re.seqs [ Re.lit false "recommend "; Re.words false ["a"; "some"];
              Re.lit false " "; cocktails_word ];
    Re.seqs [ Re.words false ["suggest"; "give me"]; Re.lit false " ";
              Re.words false ["a"; "some"]; Re.lit false " "; cocktails_word ];
    Re.seqs [ Re.lit false "what cocktail should I ";
              Re.words false ["make"; "try"; "drink"] ];
    Re.seqs [ Re.lit false "similar to "; rest_of_line ];
    Re.seqs [ Re.lit false "like "; article false; Re.lit false " ";
              rest_of_line ] ].

Definition preference_patterns : list Re.regex :=
  [ Re.seqs [ Re.words false ["my"; "I"]; Re.lit false " ";
              Re.words false ["like"; "love"; "prefer"; "favorite"; "enjoy"] ];
    Re.seqs [ Re.words false ["remember"; "save"; "store"]; Re.lit false " ";
              Re.words false ["this"; "these"; "my"]; Re.lit false " ";
              Re.words false ["preference"; "ingredient"; "cocktail"] ];
    Re.seqs [ Re.lit false "what are my ";
              Re.words false ["favorite"; "preferred"]; Re.lit false " ";
              Re.words false ["ingredients"; "cocktails"] ] ].

(** [for pattern in patterns: if re.search(pattern, s): return ...] *)
Definition any_match (patterns : list Re.regex) (s : string) : bool :=
  existsb (fun pattern => Re.found pattern s) patterns.

Definition identify_query_type (query : string) : string :=
  (* Convert query to lowercase for case-insensitive matching *)
  let query_lower := Py.lower query in
  if any_match ingredient_patterns query_lower then "ingredient_query"
  else if any_match cocktail_patterns query_lower then "cocktail_query"
  else if any_match recommendation_patterns query_lower then "recommendation"
  else if any_match preference_patterns query_lower then "preference"
  else "general".

(** ** Entity extraction *)

(** [([^?.,!]+)] *)
Definition clause : Re.regex := Re.Grp (Re.plus (Re.none_of "?.,!")).

(** The patterns of [extract_ingredients_from_query], applied with
    [re.IGNORECASE]. *)
Definition ingredient_extractors : list Re.regex :=
  [ Re.Seq (Re.lit true "with ") clause;
    Re.Seq (Re.lit true "containing ") clause;
    Re.seqs [ Re.lit true "that "; Re.words true ["has"; "have"];
              Re.lit true " "; clause ];
    Re.Seq (Re.lit true "using ") clause ].

(** The patterns of [extract_cocktail_from_query]. *)
Definition cocktail_extractors : list Re.regex :=
  [ Re.seqs [ Re.lit true "how to make "; article true; Re.lit true " "; clause ];
    Re.seqs [ Re.words true ["what is"; "what's"]; Re.lit true " ";
              article true; Re.lit true " "; clause ];
    Re.seqs [ Re.lit true "recipe for "; article true; Re.lit true " "; clause ];
    Re.Seq (Re.lit true "similar to ") clause;
    Re.seqs [ Re.lit true "like "; article true; Re.lit true " "; clause ] ].

(** The match of the first pattern of the list that is found in [s]. *)
Fixpoint first_search (patterns : list Re.regex) (s : string) : option Re.outcome :=
  match patterns with
  | [] => None
  | pattern :: rest =>
      match Re.search pattern s with
      | Some m => Some m
      | None => first_search rest s
      end
  end.

Definition extract_ingredients_from_query (query : string) : list string :=
  match first_search ingredient_extractors query with
  | Some m => Memory.split_items Py.lower (Re.group1 m)
  | None => []
  end.

Definition extract_cocktail_from_query (query : string) : option string :=
  match first_search cocktail_extractors query with
  | Some m => Some (Py.strip (Re.group1 m))
  | None => None
  end.

(** [(\d+)\s+cocktails] under [re.IGNORECASE]. *)
Definition limit_re : Re.regex :=
  Re.seqs [ Re.Grp (Re.plus Py.is_digit); Re.plus Py.is_space;
            Re.lit true "cocktails" ].

Definition query_limit (query : string) : nat :=
  match Re.search limit_re query with
  | Some m => Py.int_of_digits (s2l (Re.group1 m))
  | None => 5
  end.

Definition is_non_alcoholic (query : string) : bool :=
  Py.str_in "non-alcoholic" (Py.lower query)
  || Py.str_in "non alcoholic" (Py.lower query).

(** ** Computations on a user's memory that may raise *)

Definition M (A : Type) : Type := UserMemory -> res (A * UserMemory).

Definition ret {A} (a : A) : M A := fun m => Ret (a, m).

Definition bind {A B} (x : M A) (f : A -> M B) : M B :=
  fun m =>
    match x m with
    | Ret (a, m') => f a m'
    | Raise => Raise
    end.

(** A call that does not touch the memory. *)
Definition call {A} (x : res A) : M A :=
  fun m =>
    match x with
    | Ret a => Ret (a, m)
    | Raise => Raise
    end.

(** A method of the memory object that returns nothing. *)
Definition update (f : UserMemory -> UserMemory) : M unit :=
  fun m => Ret (tt, f m).

(** A method of the memory object with a result. *)
Definition method {A} (f : UserMemory -> A * UserMemory) : M A :=
  fun m => Ret (f m).

Definition read {A} (f : UserMemory -> A) : M A :=
  fun m => Ret (f m, m).

Declare Scope rag_scope.
Delimit Scope rag_scope with rag.
Notation "'exec' x <~ c ;; k" := (bind c (fun x => k))
  (at level 10, x name, c at level 99, k at level 200) : rag_scope.
Notation "'also' c ;; k" := (bind c (fun _ => k))
  (at level 10, c at level 99, k at level 200) : rag_scope.

Section System.
(** The vector database of the system. *)
Variable F : Type.
Variable similarity : F -> F.
Variable index_search : string -> nat -> res (list (F * Z)).
Variable cocktail_data : list VectorDB.Cocktail.
(** The data processor of the system. *)
Variable re_compile : string -> option Re.regex.
Variable cocktails_df : DataProcessor.DataFrame.
(** [left.merge(right, how="inner")] of pandas, on two frames with the
    columns of [cocktails_df]. *)
Variable merge : DataProcessor.DataFrame -> DataProcessor.DataFrame
                 -> res DataProcessor.DataFrame.
(** [cocktails_df.sample(n)]: [n] rows drawn at random; raises when
    the frame has fewer. *)
Variable sample : nat -> DataProcessor.DataFrame -> res DataProcessor.DataFrame.
(** [LLMManager.generate_response(user_input, system_prompt)] *)
Variable llm_generate_response : string -> string -> res string.

Abbreviation Scored := (VectorDB.Scored F).

Definition bartender : string :=
  "You are a knowledgeable bartender assistant. ".

(** Asks the generator, records its answer in the history, returns it. *)
Definition answer (query system_prompt : string) : M string :=
  (exec response <~ call (llm_generate_response query system_prompt) ;;
   also update (fun m => add_to_conversation_history m "assistant" response) ;;
   ret response)%rag.

(** The frames matching each ingredient, filtered when the query asks
    for non-alcoholic cocktails. *)
Definition relevant_cocktails (query : string) (ingredients : list string)
  : list DataProcessor.DataFrame :=
  map (fun ingredient =>
         let matching_cocktails :=
           DataProcessor.get_cocktails_containing cocktails_df ingredient in
         if is_non_alcoholic query
         then List.filter (fun row => negb (DataProcessor.is_alcoholic row))
                     matching_cocktails
         else matching_cocktails)
      ingredients.

(** [result_df] of [process_ingredient_query]: the intersection of the
    matching frames when there are several. *)
Definition merge_all (rest : list DataProcessor.DataFrame)
           (first : DataProcessor.DataFrame) : res DataProcessor.DataFrame :=
  fold_left (fun result_df df => res_bind result_df (fun acc => merge acc df))
            rest (Ret first).

Definition intersect_all (frames : list DataProcessor.DataFrame)
  : res (option DataProcessor.DataFrame) :=
  match frames with
  | [] => Ret None
  | [df] => Ret (Some df)
  | df :: rest => res_bind (merge_all rest df) (fun result_df => Ret (Some result_df))
  end.

Definition result_df (query : string) : res (option DataProcessor.DataFrame) :=
  intersect_all (relevant_cocktails query (extract_ingredients_from_query query)).

Definition bullet_names (names : list string) : string :=
  fold_left (fun context name => context +:+ "- " +:+ name +:+ nl) names EmptyString.

Definition process_ingredient_query (query : string) : M string :=
  let ingredients := extract_ingredients_from_query query in
  match ingredients with
  | [] =>
      ret ("I couldn't identify which ingredients you're asking about. "
           +:+ "Could you specify which ingredients you're interested in?")
  | _ =>
      let limit := query_limit query in
      (exec result_df <~ call (result_df query) ;;
      match result_df with
      | Some (row :: rows) =>
          let result := row :: rows in
          let cocktail_names := firstn limit (map DataProcessor.name result) in
          let ingredients_str := Py.join ", " ingredients in
          let context :=
            nl +:+ "Found " +:+ Py.str_of_nat (length result)
            +:+ " cocktails containing " +:+ ingredients_str +:+ "." +:+ nl
            +:+ "Here are "
            +:+ Py.str_of_nat (Nat.min limit (length cocktail_names))
            +:+ " of them:" +:+ nl +:+ nl
            +:+ bullet_names cocktail_names in
          let system_prompt :=
            bartender +:+ "Provide helpful, conversational "
            +:+ "responses about cocktails. Use the context provided to "
            +:+ "answer the user's question." +:+ nl +:+ nl
            +:+ "Context:" +:+ nl +:+ context in
          answer query system_prompt
      | _ =>
          ret ("I couldn't find any cocktails containing "
               +:+ Py.join ", " ingredients
               +:+ ". Would you like to try different ingredients?")
      end)%rag
  end.

Definition process_cocktail_query (query : string) : M string :=
  match extract_cocktail_from_query query with
  | Some cocktail_name =>
      if Py.nonempty cocktail_name then
        (exec cocktail <~ call (DataProcessor.get_cocktail_by_name
                             re_compile cocktails_df cocktail_name) ;;
         match cocktail with
         | Some row =>
             let context :=
               nl +:+ "Cocktail: " +:+ DataProcessor.name row +:+ nl
               +:+ "Ingredients: " +:+ DataProcessor.ingredients row +:+ nl
               +:+ "Preparation: " +:+ DataProcessor.preparation row +:+ nl
               +:+ "Glass: " +:+ DataProcessor.glass row +:+ nl
               +:+ "Garnish: " +:+ DataProcessor.garnish row +:+ nl in
             let system_prompt :=
               bartender +:+ "Provide helpful, conversational "
               +:+ "responses about cocktails. Use the context provided to "
               +:+ "answer the user's question." +:+ nl +:+ nl
               +:+ "Context:" +:+ nl +:+ context in
             answer query system_prompt
         | None =>
             ret ("I couldn't find information about " +:+ cocktail_name
                  +:+ ". Could you check the spelling or try a different cocktail?")
         end)%rag
      else
        ret ("I couldn't identify which cocktail you're asking about. "
             +:+ "Could you specify the name of the cocktail?")
  | None =>
      ret ("I couldn't identify which cocktail you're asking about. "
           +:+ "Could you specify the name of the cocktail?")
  end.

(** [- name: ingredients] for every cocktail of the list. *)
Definition bullet_scored (cs : list Scored) : string :=
  fold_left
    (fun context c =>
       context +:+ "- " +:+ VectorDB.name (VectorDB.cocktail c) +:+ ": "
       +:+ VectorDB.ingredients (VectorDB.cocktail c) +:+ nl)
    cs EmptyString.

Definition bullet_rows (rows : list DataProcessor.Row) : string :=
  fold_left
    (fun context c =>
       context +:+ "- " +:+ DataProcessor.name c +:+ ": "
       +:+ DataProcessor.ingredients c +:+ nl)
    rows EmptyString.

Definition mentions_favorites (query : string) : bool :=
  Py.str_in "favorite" (Py.lower query)
  || Py.str_in "favourites" (Py.lower query)
  || Py.str_in "prefer" (Py.lower query).

(** The second and third branches of [process_recommendation_query]. *)
Definition recommend_similar_or_popular (query : string)
           (cocktail_name : option string) : M string :=
  match cocktail_name with
  | Some (String a rest) =>
      let cocktail_name := String a rest in
      (exec similar_cocktails <~
         call (VectorDB.get_similar_cocktails
                 F similarity index_search cocktail_data
                 re_compile cocktails_df cocktail_name 5) ;;
       match similar_cocktails with
       | [] =>
           ret ("I couldn't find " +:+ cocktail_name
                +:+ " or any similar cocktails. Could you check the "
                +:+ "spelling or try a different cocktail?")
       | _ =>
           let context :=
             nl +:+ "Based on the cocktail " +:+ dq +:+ cocktail_name +:+ dq
             +:+ ", here are some similar cocktails you might enjoy:"
             +:+ nl +:+ nl
             +:+ bullet_scored
                   (List.filter
                      (fun c =>
                         negb (bool_decide
                                 (Py.lower (VectorDB.name (VectorDB.cocktail c))
                                  = Py.lower cocktail_name)))
                      (firstn 5 similar_cocktails)) in
           let system_prompt :=
             bartender +:+ "Provide helpful, conversational recommendations "
             +:+ "for cocktails similar to what the user requested. Use the "
             +:+ "context provided to inform your recommendations."
             +:+ nl +:+ nl +:+ "Context:" +:+ nl +:+ context in
           answer query system_prompt
       end)%rag
  | _ =>
      (* General recommendation: random popular cocktails *)
      (exec popular_cocktails <~ call (sample 5 cocktails_df) ;;
       let context :=
         nl +:+ "Here are some popular cocktail recommendations:" +:+ nl +:+ nl
         +:+ bullet_rows popular_cocktails in
       let system_prompt :=
         bartender +:+ "Provide helpful, conversational recommendations "
         +:+ "for cocktails. Use the context provided to inform your "
         +:+ "recommendations." +:+ nl +:+ nl +:+ "Context:" +:+ nl +:+ context in
       answer query system_prompt)%rag
  end.

Definition process_recommendation_query (query : string) : M string :=
  let cocktail_name := extract_cocktail_from_query query in
  if mentions_favorites query then
    (exec favorite_ingredients <~ read get_favorite_ingredients ;;
     match favorite_ingredients with
     | [] =>
         ret ("I don't have any information about your favorite ingredients "
              +:+ "yet. Would you like to tell me what ingredients you enjoy?")
     | _ =>
         exec similar_cocktails <~
           call (VectorDB.get_cocktails_with_ingredients
                   F similarity index_search cocktail_data
                   favorite_ingredients 5) ;;
         let context :=
           nl +:+ "Based on your favorite ingredients ("
           +:+ Py.join ", " favorite_ingredients +:+ "), "
           +:+ "here are some cocktails you might enjoy:" +:+ nl +:+ nl
           +:+ bullet_scored (firstn 5 similar_cocktails) in
         let system_prompt :=
           bartender +:+ "Provide helpful, conversational recommendations "
           +:+ "based on the user's preferences. Use the context provided to "
           +:+ "personalize your recommendations."
           +:+ nl +:+ nl +:+ "Context:" +:+ nl +:+ context in
         answer query system_prompt
     end)%rag
  else recommend_similar_or_popular query cocktail_name.

Definition describe_cocktail (context : string) (c : Scored) : string :=
  let cocktail := VectorDB.cocktail c in
  context
  +:+ "Cocktail: " +:+ VectorDB.name cocktail +:+ nl
  +:+ "Ingredients: " +:+ VectorDB.ingredients cocktail +:+ nl
  +:+ "Preparation: " +:+ VectorDB.preparation cocktail +:+ nl
  +:+ (if Py.nonempty (VectorDB.garnish cocktail)
       then "Garnish: " +:+ VectorDB.garnish cocktail +:+ nl else EmptyString)
  +:+ nl.

(** The context [process_general_query] hands to the generator. *)
Definition general_context (relevant_cocktails : list Scored)
           (favorite_ingredients : list string) : string :=
  fold_left describe_cocktail relevant_cocktails
    ("Here's some information that might help with your question:" +:+ nl +:+ nl)
  +:+ match favorite_ingredients with
      | [] => EmptyString
      | _ => "Your favorite ingredients: "
             +:+ Py.join ", " favorite_ingredients +:+ nl
      end.

Definition general_prompt (context : string) : string :=
  bartender +:+ "Provide helpful, conversational responses about cocktails. "
  +:+ "If the user's query is not specifically about cocktails, still try to "
  +:+ "be helpful but gently steer the "
  +:+ "conversation back to cocktails when appropriate."
  +:+ nl +:+ nl +:+ "Context:" +:+ nl +:+ context.

Definition process_general_query (query : string) : M string :=
  (exec relevant_cocktails <~
     call (VectorDB.search_cocktails F similarity index_search cocktail_data
                                     query 3) ;;
   exec favorite_ingredients <~ read get_favorite_ingredients ;;
   let context := general_context relevant_cocktails favorite_ingredients in
   exec response <~ call (llm_generate_response query (general_prompt context)) ;;
   (* Process the message to detect and save preferences *)
   also method (fun m => process_user_message m query) ;;
   also update (fun m => add_to_conversation_history m "assistant" response) ;;
   ret response)%rag.

Definition asks_to_recall (query : string) : bool :=
  Py.str_in "what are my" (Py.lower query)
  || Py.str_in "tell me my" (Py.lower query).

(** The context of the recall branch of [process_preference_query]. *)
Definition recall_context (favorite_ingredients favorite_cocktails : list string)
  : string :=
  "Here are your preferences:" +:+ nl
  +:+ match favorite_ingredients with
      | [] => nl +:+ "You haven't told me about any favorite ingredients yet."
      | _ => nl +:+ "Favorite ingredients: " +:+ Py.join ", " favorite_ingredients
      end
  +:+ match favorite_cocktails with
      | [] => nl +:+ "You haven't told me about any favorite cocktails yet."
      | _ => nl +:+ "Favorite cocktails: " +:+ Py.join ", " favorite_cocktails
      end.

(** The context of the branch that reports saved preferences. *)
Definition updated_context (preference_result : Detected) : string :=
  "I've updated your preferences:" +:+ nl
  +:+ match new_favorite_ingredients preference_result with
      | [] => EmptyString
      | l => nl +:+ "Added favorite ingredients: " +:+ Py.join ", " l
      end
  +:+ match new_favorite_cocktails preference_result with
      | [] => EmptyString
      | l => nl +:+ "Added favorite cocktails: " +:+ Py.join ", " l
      end.

Definition updated_prompt (context : string) : string :=
  bartender +:+ "Acknowledge that you've saved the user's preferences "
  +:+ "and provide a friendly response. Use the context provided to "
  +:+ "personalize your response." +:+ nl +:+ nl +:+ "Context:" +:+ nl +:+ context.

Definition process_preference_query (query : string) : M string :=
  if asks_to_recall query then
    (exec favorite_ingredients <~ read get_favorite_ingredients ;;
     exec favorite_cocktails <~ read get_favorite_cocktails ;;
     let context := recall_context favorite_ingredients favorite_cocktails in
     let system_prompt :=
       bartender +:+ "Provide helpful, conversational responses about "
       +:+ "the user's preferences. Use the context provided to personalize "
       +:+ "your response." +:+ nl +:+ nl +:+ "Context:" +:+ nl +:+ context in
     answer query system_prompt)%rag
  else
    (* Process the message to detect and save preferences *)
    (exec preference_result <~ method (fun m => process_user_message m query) ;;
     match new_favorite_ingredients preference_result,
           new_favorite_cocktails preference_result with
     | [], [] =>
         (* If no clear preference was detected *)
         process_general_query query
     | _, _ =>
         answer query (updated_prompt (updated_context preference_result))
     end)%rag.

Definition generate_response (query : string) : M string :=
  (* First, detect any preferences in the query and update memory *)
  (also method (fun m => process_user_message m query) ;;
   let query_type := identify_query_type query in
   if String.eqb query_type "ingredient_query" then process_ingredient_query query
   else if String.eqb query_type "cocktail_query" then process_cocktail_query query
   else if String.eqb query_type "recommendation" then process_recommendation_query query
   else if String.eqb query_type "preference" then process_preference_query query
   else process_general_query query)%rag.

End System.

End Rag.

(* ===================================================================== *)
(** * app/api/routes.py *)
(* ===================================================================== *)

Module Routes.

Import Memory.
Import (notations) Rag.
Local Open Scope rag_scope.

Record DetectedPreferences : Type := mkDetectedPreferences {
  pref_ingredients : list string;
  pref_cocktails : list string
}.

Record ChatResponse : Type := mkChatResponse {
  response : string;
  detected_preferences : DetectedPreferences
}.

(** [x in l] for a Python list of strings. *)
Definition list_mem (x : string) (l : list string) : bool :=
  existsb (String.eqb x) l.

Section Chat.
Variable F : Type.
Variable similarity : F -> F.
Variable index_search : string -> nat -> res (list (F * Z)).
Variable cocktail_data : list VectorDB.Cocktail.
Variable re_compile : string -> option Re.regex.
Variable cocktails_df : DataProcessor.DataFrame.
Variable merge : DataProcessor.DataFrame -> DataProcessor.DataFrame
                 -> res DataProcessor.DataFrame.
Variable sample : nat -> DataProcessor.DataFrame -> res DataProcessor.DataFrame.
Variable llm_generate_response : string -> string -> res string.

(** The [/chat] endpoint, on the memory object [get_user_memory]
    loaded for the user of the request. *)
Definition chat (message : string) : Rag.M ChatResponse :=
  (exec response <~ Rag.generate_response F similarity index_search cocktail_data
                 re_compile cocktails_df merge sample llm_generate_response message ;;
   (* Check for new ingredients that were detected *)
   exec all_ingredients <~ Rag.read get_favorite_ingredients ;;
   let detected_ingredients := detect_favorite_ingredients message in
   (* Check for new cocktails that were detected *)
   exec all_cocktails <~ Rag.read get_favorite_cocktails ;;
   let detected_cocktails := detect_favorite_cocktails message in
   Rag.ret
     {| response := response;
        detected_preferences :=
          {| pref_ingredients :=
               List.filter (fun ingredient => list_mem ingredient all_ingredients)
                      detected_ingredients;
             pref_cocktails :=
               List.filter (fun cocktail => list_mem cocktail all_cocktails)
                      detected_cocktails |} |})%rag.
End Chat.

(** [get_user_memory(user_id)]: every request builds its memory object
    anew from the file the last request left. *)
Definition get_user_memory (world : UserMemory) : UserMemory :=
  new_memory (user_memory_file world) (clock world).

Record CocktailQuery : Type := mkCocktailQuery {
  ingredient : string;
  limit : Z;
  alcoholic_only : bool
}.

(** [POST /cocktails/by-ingredient] *)
Definition get_cocktails_by_ingredient (cocktails_df : DataProcessor.DataFrame)
           (query : CocktailQuery) : list DataProcessor.Row :=
  let matching_cocktails :=
    DataProcessor.get_cocktails_containing cocktails_df (ingredient query) in
  let matching_cocktails :=
    if negb (alcoholic_only query) then matching_cocktails
    else List.filter DataProcessor.is_alcoholic matching_cocktails in
  DataProcessor.head_rows (limit query) matching_cocktails.

Record PreferenceUpdate : Type := mkPreferenceUpdate {
  update_user_id : string;
  update_ingredients : option (list string);
  update_cocktails : option (list string)
}.

Record PreferenceResponse : Type := mkPreferenceResponse {
  user_id : string;
  response_ingredients : list string;
  response_cocktails : list string
}.

(** [for x in xs: f(x)] when [xs] is not [None]. *)
Definition for_each (f : UserMemory -> string -> UserMemory)
           (xs : option (list string)) (user_memory : UserMemory) : UserMemory :=
  match xs with
  | Some l => fold_left f l user_memory
  | None => user_memory
  end.

Definition preference_response (id : string) (user_memory : UserMemory)
  : PreferenceResponse :=
  {| user_id := id;
     response_ingredients := get_favorite_ingredients user_memory;
     response_cocktails := get_favorite_cocktails user_memory |}.

(** [GET /preferences/{user_id}] *)
Definition get_user_preferences (id : string) (world : UserMemory)
  : PreferenceResponse * UserMemory :=
  let user_memory := get_user_memory world in
  (preference_response id user_memory, user_memory).

(** [POST /preferences/update] *)
Definition update_user_preferences (update : PreferenceUpdate) (world : UserMemory)
  : PreferenceResponse * UserMemory :=
  let user_memory := get_user_memory world in
  let user_memory :=
    for_each add_favorite_ingredient (update_ingredients update) user_memory in
  let user_memory :=
    for_each add_favorite_cocktail (update_cocktails update) user_memory in
  (preference_response (update_user_id update) user_memory, user_memory).

(** [POST /preferences/remove] *)
Definition remove_user_preferences (update : PreferenceUpdate) (world : UserMemory)
  : PreferenceResponse * UserMemory :=
  let user_memory := get_user_memory world in
  let user_memory :=
    for_each (fun m x => snd (remove_favorite_ingredient m x))
             (update_ingredients update) user_memory in
  let user_memory :=
    for_each (fun m x => snd (remove_favorite_cocktail m x))
             (update_cocktails update) user_memory in
  (preference_response (update_user_id update) user_memory, user_memory).

End Routes.

(* ===================================================================== *)
(** * app/core/llm.py *)
(* ===================================================================== *)

Module Llm.

Inductive Message : Type :=
| SystemMessage (content : string)
| HumanMessage (content : string)
| AIMessage (content : string).

(** One entry of [chat_history] as a message, by its role. *)
Definition message_of (entry : string * string) : list Message :=
  let '(role, content) := entry in
  if String.eqb role "user" then [HumanMessage content]
  else if String.eqb role "assistant" then [AIMessage content]
  else [].

Section Manager.
(** [self.llm.invoke(messages).content] *)
Variable invoke : list Message -> res string.

Definition generate_response (user_input system_prompt : string)
           (chat_history : option (list (string * string))) : res string :=
  let messages := [SystemMessage system_prompt] in
  (* Add chat history if provided *)
  let messages :=
    match chat_history with
    | Some history => messages ++ flat_map message_of history
    | None => messages
    end in
  (* Add the current user input *)
  let messages := messages ++ [HumanMessage user_input] in
  invoke messages.
End Manager.

End Llm.

(* ===================================================================== *)
(** * Vocabulary of the properties *)
(* ===================================================================== *)

Section Vocabulary.
Import DataProcessor.
Import Memory.

(** ** Texts *)

(** [p] occurs in [s]: some text, then [p], then some text. *)
Definition substring (p s : string) : Prop :=
  exists pre post, s = pre +:+ p +:+ post.

(** A text is trimmed when neither end is a blank. *)
Definition headed (s : list ascii) : Prop :=
  match s with
  | a :: _ => Py.is_space a = false
  | [] => True
  end.

(** [rest] is what is left of [s] after reading some of it. *)
Definition suffix_of (rest s : list ascii) : Prop := exists pre, s = pre ++ rest.

(** A continuation that only reads on. *)
Definition reads_on (k : Re.cont) : Prop :=
  forall s g m, k s g = Some m -> suffix_of (fst m) s.

Definition is_close (a : ascii) : bool := Ascii.eqb ")" a.

Definition is_open (a : ascii) : bool := Ascii.eqb "(" a.

(** The text after the first closing parenthesis. *)
Fixpoint after_close (s : list ascii) : option (list ascii) :=
  match s with
  | [] => None
  | a :: s' => if is_close a then Some s' else after_close s'
  end.

(** Some opening parenthesis has a closing one after it. *)
Fixpoint has_note (s : list ascii) : bool :=
  match s with
  | [] => false
  | a :: s' => (is_open a && existsb is_close s') || has_note s'
  end.

Definition is_delim (a : ascii) : bool :=
  Re.one_of ",;" a || Ascii.eqb a Re.newline.

(** A text without delimiters. *)
Definition undelimited (s : list ascii) : Prop :=
  forall c, In c s -> is_delim c = false.

(** What every token the loop produces looks like. *)
Record token_shape (t : list ascii) : Prop := {
  shape_nonempty : t <> [];
  shape_trimmed : Py.strip_l t = t;
  shape_lower : Py.lower_l t = t;
  shape_no_note : has_note t = false
}.

Definition starts_with_digit (t : string) : bool :=
  match t with
  | String a _ => Py.is_digit a
  | EmptyString => false
  end.

(** Neither quantity pattern matches at the head of [t]: there is no
    prefix left to strip. *)
Definition quantity_free (t : string) : bool :=
  match Re.match_here measure_re (s2l t), Re.match_here quantity_re (s2l t) with
  | None, None => true
  | _, _ => false
  end.

(** ** Corpus and classifier as the specification words them *)

(** The lookup as the specification words it: the first record whose
    name equals the query, letter case ignored; if there is none, the
    first record whose name contains it. *)
Definition by_name (cocktails_df : DataFrame) (name_arg : string) : option Row :=
  match find (fun row => bool_decide (Py.lower (name row) = Py.lower name_arg))
             cocktails_df with
  | Some row => Some row
  | None =>
      find (fun row => Py.str_in (Py.lower name_arg) (Py.lower (name row)))
           cocktails_df
  end.

(** The classifier as the specification words it: one ordered list of
    rules, each a pattern with its category; the category of the first
    rule that matches, or the default. *)
Definition rule_list : list (Re.regex * string) :=
  map (fun p => (p, "ingredient_query")) Rag.ingredient_patterns
  ++ map (fun p => (p, "cocktail_query")) Rag.cocktail_patterns
  ++ map (fun p => (p, "recommendation")) Rag.recommendation_patterns
  ++ map (fun p => (p, "preference")) Rag.preference_patterns.

Definition first_matching_rule (rules : list (Re.regex * string))
           (default s : string) : string :=
  match find (fun rule => Re.found (fst rule) s) rules with
  | Some rule => snd rule
  | None => default
  end.

(** The third recommendation rule:
    [what cocktail should I (?:make|try|drink)]. *)
Definition should_I_rule : Re.regex :=
  Re.seqs [ Re.lit false "what cocktail should I ";
            Re.words false ["make"; "try"; "drink"] ].

(** ** Memories and computations on them *)

(** A sequence of appends, each a role and a content. *)
Definition appends (self : UserMemory) (msgs : list (string * string)) : UserMemory :=
  fold_left (fun m rc => add_to_conversation_history m (fst rc) (snd rc)) msgs self.

(** The entries these appends create when the clock shows [t] at the
    first of them. *)
Fixpoint stamped (t : nat) (msgs : list (string * string)) : list Entry :=
  match msgs with
  | [] => []
  | rc :: rest =>
      {| role := fst rc; content := snd rc; timestamp := t |}
        :: stamped (S t) rest
  end.

(** The favorites of [m'] include those of [m]. *)
Definition grows (m m' : UserMemory) : Prop :=
  favorite_ingredients m ⊆ favorite_ingredients m'
  /\ favorite_cocktails m ⊆ favorite_cocktails m'.

(** A computation that never takes a favorite away. *)
Definition keeps {A} (x : Rag.M A) : Prop :=
  forall m a m', x m = Ret (a, m') -> grows m m'.

(** The memory after step (1) of a request. *)
Definition after_step_1 (m : UserMemory) (query : string) : UserMemory :=
  snd (process_user_message m query).

(** The hits of the index that pass the guard of [collect], in the
    order of the index. *)
Definition in_range {F : Type} (cocktail_data : list VectorDB.Cocktail)
           (hits : list (F * Z)) : list (F * Z) :=
  List.filter (fun hit => (snd hit <? Z.of_nat (length cocktail_data))%Z) hits.

End Vocabulary.

Section Dispatch.
Variable F : Type.
Variable similarity : F -> F.
Variable index_search : string -> nat -> res (list (F * Z)).
Variable cocktail_data : list VectorDB.Cocktail.
Variable re_compile : string -> option Re.regex.
Variable cocktails_df : DataProcessor.DataFrame.
Variable merge : DataProcessor.DataFrame -> DataProcessor.DataFrame
                 -> res DataProcessor.DataFrame.
Variable sample : nat -> DataProcessor.DataFrame -> res DataProcessor.DataFrame.
Variable llm_generate_response : string -> string -> res string.

(** The dispatch of [generate_response], after its first step. *)
Definition dispatch (query : string) : Rag.M string :=
  let query_type := Rag.identify_query_type query in
  if String.eqb query_type "ingredient_query"
  then Rag.process_ingredient_query cocktails_df merge llm_generate_response query
  else if String.eqb query_type "cocktail_query"
  then Rag.process_cocktail_query re_compile cocktails_df
                                  llm_generate_response query
  else if String.eqb query_type "recommendation"
  then Rag.process_recommendation_query
         F similarity index_search cocktail_data re_compile cocktails_df
         sample llm_generate_response query
  else if String.eqb query_type "preference"
  then Rag.process_preference_query F similarity index_search cocktail_data
                                    llm_generate_response query
  else Rag.process_general_query F similarity index_search cocktail_data
                                 llm_generate_response query.
End Dispatch.

(* ===================================================================== *)
(** * Sample data *)
(* ===================================================================== *)

Section Samples.
Import DataProcessor.
Import Memory.

Definition lemonade : DataProcessor.Row :=
  DataProcessor.clean_row
    {| DataProcessor.raw_name := "Lemonade";
       DataProcessor.raw_ingredients := "2 oz Lemon juice, Sugar, Water";
       DataProcessor.raw_garnish := EmptyString;
       DataProcessor.raw_preparation := "Stir.";
       DataProcessor.raw_glass := "Highball" |}.

(** A corpus of one alcoholic cocktail with lemon and mint. *)
Definition mojito : Row :=
  clean_row
    {| raw_name := "Mojito";
       raw_ingredients := "2 oz White rum, 1 oz Lemon juice, 6 Mint leaves, Soda";
       raw_garnish := "Mint sprig";
       raw_preparation := "Muddle, shake, top with soda.";
       raw_glass := "Highball" |}.

Definition virgin_mojito : Row :=
  clean_row
    {| raw_name := "Virgin Mojito";
       raw_ingredients := "1 oz Lemon juice, 6 Mint leaves, Soda";
       raw_garnish := "Mint sprig";
       raw_preparation := "Muddle, top with soda.";
       raw_glass := "Highball" |}.

(** A profile whose only favorite ingredient is gin. *)
Definition gin_lover : UserMemory := add_favorite_ingredient fresh "gin".

(** Sixty appends to a new profile: messages 10 to 59 remain. *)
Definition sixty : list (string * string) :=
  map (fun n => ("user", Py.str_of_nat n)) (seq 0 60).

(** Collaborators for worked requests: an index without entries, a
    sampler that returns the frame it is given, and a generator that
    answers with the instructions it received, which shows what the
    orchestrator asked of it. *)

Definition no_hits (query : string) (top_k : nat) : res (list (nat * Z)) := Ret [].

Definition whole_frame (n : nat) (df : DataProcessor.DataFrame)
  : res DataProcessor.DataFrame := Ret df.

Definition echo (user_input system_prompt : string) : res string := Ret system_prompt.

Definition demo_generate_response : string -> Rag.M string :=
  Rag.generate_response nat (fun d => d) no_hits [] DataProcessor.compile_basic
                        [mojito] DataProcessor.merge whole_frame echo.

Definition demo_chat : string -> Rag.M Routes.ChatResponse :=
  Routes.chat nat (fun d => d) no_hits [] DataProcessor.compile_basic
              [mojito] DataProcessor.merge whole_frame echo.

End Samples.

(* ===================================================================== *)
(** * Vocabulary of the further properties *)
(* ===================================================================== *)

(** The keywords that mark a record as non-alcoholic. *)
Definition non_alcoholic_keywords : list string :=
  ["non-alcoholic"; "non alcoholic"; "alcohol-free"; "alcohol free"; "virgin"].

(** The pattern is found somewhere in the text. *)
Definition found_l (r : Re.regex) (s : list ascii) : bool :=
  match Re.search_l r s with Some _ => true | None => false end.

(** The characters that end a statement of preference: [[.!]]. *)
Definition sentence_mark (a : ascii) : bool := Re.one_of ".!" a.

(** The history is within its bound. *)
Definition bounded (m : Memory.UserMemory) : Prop :=
  length (Memory.conversation_history m) <= 50.

(** A computation that maintains a property of the memory. *)
Definition maintains {A} (P : Memory.UserMemory -> Prop) (x : Rag.M A) : Prop :=
  forall m a m', P m -> x m = Ret (a, m') -> P m'.

(** No match of [r] starts anywhere in [s], whatever follows it. *)
Definition blocked (s : list ascii) (r : Re.regex) : Prop :=
  forall s' g k, suffix_of s' s -> Re.run r s' g k = None.

(** Two memories with the same history and the same clock. *)
Definition same_log (m1 m2 : Memory.UserMemory) : Prop :=
  Memory.conversation_history m1 = Memory.conversation_history m2
  /\ Memory.clock m1 = Memory.clock m2.

(** The loop that [search_cocktails] and [search_ingredients] share:
    every hit below the length of [data] is looked up and turned into a
    result by [make]; the others are passed over. *)
Fixpoint gather {F A B : Type} (data : list A) (make : A -> F -> B)
         (hits : list (F * Z)) : res (list B) :=
  match hits with
  | [] => Ret []
  | (d, idx) :: hits' =>
      if (idx <? Z.of_nat (length data))%Z then
        match VectorDB.py_index data idx with
        | Some a => res_bind (gather data make hits') (fun rest => Ret (make a d :: rest))
        | None => Raise
        end
      else gather data make hits'
  end.

(** What a search over [data] makes of the hits of its index: an error
    when some position lies before the head of [data] counted from its
    end; otherwise one result for every hit below the length of [data],
    in the order of the index. *)
Definition follows_index {F A B : Type} (data : list A) (make : A -> F -> B)
           (hits : list (F * Z)) (outcome : res (list B)) : Prop :=
  match outcome with
  | Ret results =>
      (forall hit, In hit hits -> (- Z.of_nat (length data) <= snd hit)%Z)
      /\ Forall2 (fun hit result =>
                    exists a, VectorDB.py_index data (snd hit) = Some a
                              /\ result = make a (fst hit))
                 (List.filter (fun hit => (snd hit <? Z.of_nat (length data))%Z) hits)
                 results
  | Raise =>
      exists hit, In hit hits /\ (snd hit < - Z.of_nat (length data))%Z
  end.

(** A record answers a by-ingredient query: some token of it contains
    the ingredient, and it is alcoholic when only such are asked for. *)
Definition answers_query (query : Routes.CocktailQuery) (row : DataProcessor.Row)
  : bool :=
  existsb (fun ing => Py.str_in (Py.lower (Routes.ingredient query)) ing)
          (DataProcessor.ingredients_list row)
  && (negb (Routes.alcoholic_only query) || DataProcessor.is_alcoholic row).

(** The form in which favorite ingredients are stored. *)
Definition stored_ingredient (x : string) : string := Py.strip (Py.lower x).

(** The items of an optional list of a preference update. *)
Definition items (xs : option (list string)) : list string := default [] xs.

(* ===================================================================== *)
(** * Vocabulary of the scores *)
(* ===================================================================== *)

(** The score of a distance of [v] units, in units. *)
Definition units_score (fmt : Fp.format) (v : Z) : Z :=
  let y := Fp.nearest fmt (Fp.ones fmt + v) 1 in
  if (Fp.top fmt <=? y)%Z then 0%Z
  else Fp.nearest fmt (Fp.ones fmt * Fp.ones fmt) y.

(** The score as the Standard Library's specification of IEEE 754
    computes it, with its own addition and division. *)
Definition library_score (fmt : Fp.format) (d : SpecFloat.spec_float)
  : SpecFloat.spec_float :=
  let one := SpecFloat.SFone (Fp.prec fmt) (Fp.emax fmt) in
  SpecFloat.SFdiv (Fp.prec fmt) (Fp.emax fmt) one
                  (SpecFloat.SFadd (Fp.prec fmt) (Fp.emax fmt) one d).

(** The two ways of computing the score agree on [d]. *)
Definition agree (fmt : Fp.format) (d : SpecFloat.spec_float) : bool :=
  Fp.eqb (Fp.of_spec fmt (library_score fmt d)) (Fp.score fmt (Fp.of_spec fmt d)).

(** Numbers of binary64: zeros, infinities, NaN, subnormal numbers,
    [2 ^ -60], numbers around [2 ^ -53] and around one, large numbers,
    the largest number of binary32 and of binary64, negative numbers. *)
Definition binary64_samples : list SpecFloat.spec_float :=
  [ SpecFloat.S754_zero false; SpecFloat.S754_zero true;
    SpecFloat.S754_infinity false; SpecFloat.S754_infinity true;
    SpecFloat.S754_nan;
    SpecFloat.S754_finite false 1 (-1074);
    SpecFloat.S754_finite false 3 (-1074);
    SpecFloat.S754_finite false 4503599627370496 (-1074);
    SpecFloat.S754_finite false 4503599627370496 (-112);
    SpecFloat.S754_finite false 4503599627370496 (-105);
    SpecFloat.S754_finite false 4503599627370497 (-105);
    SpecFloat.S754_finite false 6755399441055744 (-105);
    SpecFloat.S754_finite false 4503599627370496 (-104);
    SpecFloat.S754_finite false 7205759403792794 (-56);
    SpecFloat.S754_finite false 4503599627370496 (-53);
    SpecFloat.S754_finite false 4503599627370496 (-52);
    SpecFloat.S754_finite false 6004799503160661 (-52);
    SpecFloat.S754_finite false 9007199254740991 (-52);
    SpecFloat.S754_finite false 4503599627370496 (-51);
    SpecFloat.S754_finite false 6755399441055744 (-51);
    SpecFloat.S754_finite false 5404319552844595 (-50);
    SpecFloat.S754_finite false 9007199254740991 0;
    SpecFloat.S754_finite false 9007198717870080 75;
    SpecFloat.S754_finite false 4503599627370497 500;
    SpecFloat.S754_finite false 9007199254740991 970;
    SpecFloat.S754_finite false 4503599627370496 971;
    SpecFloat.S754_finite false 9007199254740991 971;
    SpecFloat.S754_finite true 1 (-1074);
    SpecFloat.S754_finite true 4503599627370496 (-53);
    SpecFloat.S754_finite true 9007199254740991 (-53);
    SpecFloat.S754_finite true 4503599627370496 (-52);
    SpecFloat.S754_finite true 4503599627370497 (-52);
    SpecFloat.S754_finite true 4503599627370496 (-51);
    SpecFloat.S754_finite true 6755399441055744 (-51);
    SpecFloat.S754_finite true 9007199254740991 971 ].

(** Numbers of binary32 of the same kinds. *)
Definition binary32_samples : list SpecFloat.spec_float :=
  [ SpecFloat.S754_zero false; SpecFloat.S754_zero true;
    SpecFloat.S754_infinity false; SpecFloat.S754_infinity true;
    SpecFloat.S754_nan;
    SpecFloat.S754_finite false 1 (-149);
    SpecFloat.S754_finite false 8388608 (-149);
    SpecFloat.S754_finite false 8388608 (-83);
    SpecFloat.S754_finite false 8388608 (-47);
    SpecFloat.S754_finite false 8388609 (-47);
    SpecFloat.S754_finite false 12582912 (-47);
    SpecFloat.S754_finite false 8388608 (-46);
    SpecFloat.S754_finite false 13421773 (-27);
    SpecFloat.S754_finite false 8388608 (-24);
    SpecFloat.S754_finite false 8388608 (-23);
    SpecFloat.S754_finite false 11184811 (-23);
    SpecFloat.S754_finite false 16777215 (-23);
    SpecFloat.S754_finite false 12582912 (-22);
    SpecFloat.S754_finite false 16777215 0;
    SpecFloat.S754_finite false 8388609 60;
    SpecFloat.S754_finite false 16777215 103;
    SpecFloat.S754_finite false 8388608 104;
    SpecFloat.S754_finite false 16777215 104;
    SpecFloat.S754_finite true 1 (-149);
    SpecFloat.S754_finite true 8388608 (-24);
    SpecFloat.S754_finite true 16777215 (-24);
    SpecFloat.S754_finite true 8388608 (-23);
    SpecFloat.S754_finite true 8388609 (-23);
    SpecFloat.S754_finite true 8388608 (-22);
    SpecFloat.S754_finite true 16777215 104 ].

(** [2 ^ -60], a number of both formats. *)
Definition tiny (fmt : Fp.format) : Fp.float :=
  Fp.of_spec fmt (SpecFloat.S754_finite false 1 (-60)).

(** An index of two entries that returns the distances 0 and
    [2 ^ -60]. *)
Definition near_hits (fmt : Fp.format) (query : string) (top_k : nat)
  : res (list (Fp.float * Z)) :=
  Ret [ (Fp.zero, 0%Z); (tiny fmt, 1%Z) ].

(** An index that returns the distances 0, 1 and infinity. *)
Definition far_hits (fmt : Fp.format) (query : string) (top_k : nat)
  : res (list (Fp.float * Z)) :=
  Ret [ (Fp.zero, 1%Z); (Fp.one fmt, 0%Z); (Fp.Inf false, 1%Z) ].

(* ===================================================================== *)
(** * The model at work *)
(* ===================================================================== *)

Example search_leftmost :
  option_map Re.group1
    (Re.search (Re.Seq (Re.lit true "With ") (Re.Grp (Re.plus (Re.none_of "?.,!"))))
               "cocktails with lemon and mint, with ice")
  = Some "lemon and mint".
Proof. reflexivity. Qed.

Example extract_ingredients_example :
  DataProcessor._extract_ingredients
    "2 oz White Rum, 1/2 oz of Lime juice; 6 Mint leaves (fresh), 2 dashes Bitters"
  = ["white rum"; "oz of lime juice"; "mint leaves"; "bitters"].
Proof. vm_compute. reflexivity. Qed.

Example detect_gin_and_tonic :
  Memory.detect_favorite_ingredients "I really love gin and tonic water."
  = ["gin"; "tonic water"].
Proof. vm_compute. reflexivity. Qed.

Example detect_cocktail_mojito :
  Memory.detect_favorite_cocktails "My favorite cocktail is the Mojito!"
  = ["Mojito"].
Proof. vm_compute. reflexivity. Qed.

(* ===================================================================== *)
(** * Facts about the string primitives *)
(* ===================================================================== *)

Section StringFacts.

Lemma s2l_app (a b : string) : s2l (a +:+ b) = s2l a ++ s2l b.
Proof. induction a as [|c a IH]; simpl; [reflexivity | now rewrite IH]. Qed.

Lemma l2s_s2l (s : string) : l2s (s2l s) = s.
Proof. apply string_of_list_ascii_of_string. Qed.

Lemma s2l_l2s (l : list ascii) : s2l (l2s l) = l.
Proof. apply list_ascii_of_string_of_list_ascii. Qed.

Lemma s2l_inj (a b : string) : s2l a = s2l b -> a = b.
Proof. intros H. rewrite <- (l2s_s2l a), <- (l2s_s2l b). now rewrite H. Qed.

Lemma prefix_l_spec (p s : list ascii) :
  Py.prefix_l p s = true <-> exists post, s = p ++ post.
Proof.
  revert s. induction p as [|a p IH]; intros s; simpl.
  - split; [intros _; now exists s | reflexivity].
  - destruct s as [|b s].
    + split; [discriminate | intros [post H]; discriminate].
    + rewrite andb_true_iff, Ascii.eqb_eq, IH. split.
      * intros [-> [post ->]]. now exists post.
      * intros [post H]. injection H as -> ->. split; [reflexivity | now exists post].
Qed.

Lemma infix_l_spec (p s : list ascii) :
  Py.infix_l p s = true <-> exists pre post, s = pre ++ p ++ post.
Proof.
  induction s as [|b s IH]; simpl.
  - rewrite orb_false_r, prefix_l_spec. split.
    + intros [post H]. now exists [], post.
    + intros [pre [post H]]. destruct pre; [now exists post | discriminate].
  - rewrite orb_true_iff, prefix_l_spec, IH. split.
    + intros [[post H] | [pre [post H]]].
      * now exists [], post.
      * exists (b :: pre), post. simpl. now rewrite H.
    + intros [pre [post H]]. destruct pre as [|c pre].
      * left. now exists post.
      * right. injection H as -> ->. now exists pre, post.
Qed.

Lemma str_in_spec (p s : string) : Py.str_in p s = true <-> substring p s.
Proof.
  unfold Py.str_in, substring. rewrite infix_l_spec. split.
  - intros [pre [post H]]. exists (l2s pre), (l2s post).
    apply s2l_inj. now rewrite !s2l_app, !s2l_l2s.
  - intros [pre [post ->]]. exists (s2l pre), (s2l post).
    now rewrite !s2l_app.
Qed.

Lemma lower_char_idem (a : ascii) :
  Py.lower_char (Py.lower_char a) = Py.lower_char a.
Proof. destruct a as [[] [] [] [] [] [] [] []]; reflexivity. Qed.

Lemma is_space_lower_char (a : ascii) :
  Py.is_space (Py.lower_char a) = Py.is_space a.
Proof. destruct a as [[] [] [] [] [] [] [] []]; reflexivity. Qed.

Lemma lower_l_idem (s : list ascii) : Py.lower_l (Py.lower_l s) = Py.lower_l s.
Proof.
  unfold Py.lower_l. rewrite map_map. apply map_ext. apply lower_char_idem.
Qed.

Lemma lower_idem (s : string) : Py.lower (Py.lower s) = Py.lower s.
Proof. unfold Py.lower. now rewrite s2l_l2s, lower_l_idem. Qed.

Lemma lstrip_lower (s : list ascii) :
  Py.lstrip_l (Py.lower_l s) = Py.lower_l (Py.lstrip_l s).
Proof.
  induction s as [|a s IH]; simpl; [reflexivity |].
  rewrite is_space_lower_char. now destruct (Py.is_space a).
Qed.

Lemma rstrip_lower (s : list ascii) :
  Py.rstrip_l (Py.lower_l s) = Py.lower_l (Py.rstrip_l s).
Proof.
  induction s as [|a s IH]; simpl; [reflexivity |].
  fold (Py.lower_l s). rewrite IH, is_space_lower_char.
  destruct (Py.rstrip_l s); simpl; [now destruct (Py.is_space a) | reflexivity].
Qed.

Lemma strip_lower_l (s : list ascii) :
  Py.strip_l (Py.lower_l s) = Py.lower_l (Py.strip_l s).
Proof. unfold Py.strip_l. now rewrite lstrip_lower, rstrip_lower. Qed.

Lemma lstrip_headed (s : list ascii) : headed (Py.lstrip_l s).
Proof.
  induction s as [|a s IH]; simpl; [exact I |].
  destruct (Py.is_space a) eqn:E; [exact IH | exact E].
Qed.

Lemma lstrip_fixed (s : list ascii) : headed s -> Py.lstrip_l s = s.
Proof. destruct s as [|a s]; simpl; [reflexivity | now intros ->]. Qed.

Lemma rstrip_headed (s : list ascii) : headed s -> headed (Py.rstrip_l s).
Proof.
  destruct s as [|a s]; simpl; [trivial |]. intros H.
  destruct (Py.rstrip_l s); [rewrite H |]; exact H.
Qed.

Lemma rstrip_cons (a : ascii) (s : list ascii) :
  Py.rstrip_l (a :: s) =
  match Py.rstrip_l s with
  | [] => if Py.is_space a then [] else [a]
  | t => a :: t
  end.
Proof. reflexivity. Qed.

Lemma rstrip_idem (s : list ascii) : Py.rstrip_l (Py.rstrip_l s) = Py.rstrip_l s.
Proof.
  induction s as [|a s IH]; [reflexivity |].
  rewrite rstrip_cons. destruct (Py.rstrip_l s) as [|b t] eqn:E.
  - destruct (Py.is_space a) eqn:Ea; simpl; [reflexivity | now rewrite Ea].
  - rewrite rstrip_cons, IH. reflexivity.
Qed.

Lemma strip_l_idem (s : list ascii) : Py.strip_l (Py.strip_l s) = Py.strip_l s.
Proof.
  unfold Py.strip_l.
  rewrite (lstrip_fixed (Py.rstrip_l (Py.lstrip_l s))).
  - apply rstrip_idem.
  - apply rstrip_headed, lstrip_headed.
Qed.

Lemma strip_idem (s : string) : Py.strip (Py.strip s) = Py.strip s.
Proof. unfold Py.strip. now rewrite s2l_l2s, strip_l_idem. Qed.

Lemma strip_lower (s : string) : Py.strip (Py.lower s) = Py.lower (Py.strip s).
Proof. unfold Py.strip, Py.lower. now rewrite !s2l_l2s, strip_lower_l. Qed.

(** The form in which a favorite ingredient is stored. *)
Lemma normal_form_fixed (x : string) :
  Py.strip (Py.lower (Py.lower (Py.strip x))) = Py.lower (Py.strip x).
Proof. now rewrite lower_idem, strip_lower, strip_idem. Qed.

End StringFacts.

(* ===================================================================== *)
(** * CorpusStore: ingredient containment *)
(* ===================================================================== *)

(** C5. For every ingredient [i] and record [r], [r] is in the result of
    [get_cocktails_containing] iff it is a record of the corpus and some
    token of its ingredient list contains the lowercased [i] as a
    substring; the test is containment of text, not equality of tokens. *)
Theorem C5_containing_iff_substring
        (cocktails_df : DataProcessor.DataFrame) (i : string) (r : DataProcessor.Row) :
  In r (DataProcessor.get_cocktails_containing cocktails_df i) <->
  In r cocktails_df /\
  exists token, In token (DataProcessor.ingredients_list r) /\
                substring (Py.lower i) token.
Proof.
  unfold DataProcessor.get_cocktails_containing.
  rewrite filter_In, existsb_exists.
  split; intros [Hr [token [Ht Hs]]]; (split; [exact Hr |]);
    exists token; (split; [exact Ht |]); now apply str_in_spec.
Qed.

(** The result keeps the order of the corpus. *)
Lemma containing_is_filter (cocktails_df : DataProcessor.DataFrame) (i : string) :
  exists keep, DataProcessor.get_cocktails_containing cocktails_df i
               = List.filter keep cocktails_df.
Proof. eexists. reflexivity. Qed.

(** "lemon" finds the record whose token is "lemon juice", and in any
    letter case. *)
Example containing_lemon :
  DataProcessor.get_cocktails_containing [lemonade] "LEMON" = [lemonade]
  /\ DataProcessor.ingredients_list lemonade = ["lemon juice"; "sugar"; "water"].
Proof. split; vm_compute; reflexivity. Qed.

(* ===================================================================== *)
(** * UserProfile: the bounded conversation log *)
(* ===================================================================== *)

Section History.
Import Memory.

Lemma last_n_short {A} (n : nat) (l : list A) : length l <= n -> Py.last_n n l = l.
Proof.
  intros H. unfold Py.last_n. replace (length l - n) with 0 by lia. reflexivity.
Qed.

Lemma last_n_length {A} (n : nat) (l : list A) : length (Py.last_n n l) <= n.
Proof. unfold Py.last_n. rewrite length_skipn. lia. Qed.

Lemma last_n_app {A} (n : nat) (l l' : list A) :
  Py.last_n n (Py.last_n n l ++ l') = Py.last_n n (l ++ l').
Proof.
  unfold Py.last_n.
  rewrite !length_app, length_skipn, !skipn_app, length_skipn, skipn_skipn.
  f_equal; f_equal; lia.
Qed.

Lemma add_history (self : UserMemory) (r c : string) :
  conversation_history (add_to_conversation_history self r c)
  = (let h := conversation_history self
              ++ [ {| role := r; content := c; timestamp := clock self |} ] in
     if 50 <? length h then Py.last_n 50 h else h).
Proof. reflexivity. Qed.

Lemma add_history_last (self : UserMemory) (r c : string) :
  conversation_history (add_to_conversation_history self r c)
  = Py.last_n 50 (conversation_history self
                  ++ [ {| role := r; content := c; timestamp := clock self |} ]).
Proof.
  rewrite add_history. cbv zeta.
  destruct (Nat.ltb_spec 50
              (length (conversation_history self
                       ++ [ {| role := r; content := c; timestamp := clock self |} ])))
    as [H|H]; [reflexivity |].
  symmetry. now apply last_n_short.
Qed.

Lemma add_clock (self : UserMemory) (r c : string) :
  clock (add_to_conversation_history self r c) = S (clock self).
Proof. reflexivity. Qed.

Lemma appends_history (msgs : list (string * string)) (self : UserMemory) :
  length (conversation_history self) <= 50 ->
  conversation_history (appends self msgs)
  = Py.last_n 50 (conversation_history self ++ stamped (clock self) msgs).
Proof.
  revert self. induction msgs as [|rc msgs IH]; intros self H.
  - simpl. rewrite app_nil_r. symmetry. now apply last_n_short.
  - change (appends self (rc :: msgs))
      with (appends (add_to_conversation_history self (fst rc) (snd rc)) msgs).
    rewrite IH.
    + rewrite add_history_last, add_clock, last_n_app, <- app_assoc. reflexivity.
    + rewrite add_history_last. apply last_n_length.
Qed.
End History.

(** C6. After every finite sequence of appends to a conversation history
    (which starts empty and, by this very theorem, is never longer than
    50), the history has at most 50 entries and they are exactly the most
    recently appended ones, in the order they were appended. *)
Theorem C6_history_bounded_most_recent
        (self : Memory.UserMemory) (msgs : list (string * string)) :
  length (Memory.conversation_history self) <= 50 ->
  length (Memory.conversation_history (appends self msgs)) <= 50
  /\ Memory.conversation_history (appends self msgs)
     = Py.last_n 50 (Memory.conversation_history self
                     ++ stamped (Memory.clock self) msgs).
Proof.
  intros H. rewrite (appends_history msgs self H). split; [apply last_n_length | reflexivity].
Qed.

Lemma C6_history_witness :
  length (Memory.conversation_history Memory.fresh) <= 50
  /\ length (Memory.conversation_history (appends Memory.fresh sixty)) <= 50
  /\ Memory.conversation_history (appends Memory.fresh sixty)
     = Py.last_n 50 (Memory.conversation_history Memory.fresh
                     ++ stamped (Memory.clock Memory.fresh) sixty).
Proof.
  split; [simpl; lia |].
  apply (C6_history_bounded_most_recent Memory.fresh sixty). simpl. lia.
Defined.

Example sixty_appends_keep_fifty :
  map Memory.content (Memory.conversation_history (appends Memory.fresh sixty))
  = map Py.str_of_nat (seq 10 50).
Proof. vm_compute. reflexivity. Qed.

(* ===================================================================== *)
(** * PreferenceTracker: favorites *)
(* ===================================================================== *)

Section Preferences.
Import Memory.

(** Detected ingredients are in the form in which favorites are stored. *)
Lemma split_items_lower_normal (text i : string) :
  In i (split_items Py.lower text) -> Py.strip (Py.lower i) = i.
Proof.
  unfold split_items. rewrite in_map_iff. intros [x [<- _]].
  apply normal_form_fixed.
Qed.

Lemma detected_ingredient_normal (message i : string) :
  In i (detect_favorite_ingredients message) -> Py.strip (Py.lower i) = i.
Proof.
  unfold detect_favorite_ingredients. rewrite in_flat_map.
  intros [pattern [_ H]]. rewrite in_flat_map in H.
  destruct H as [text [_ H]]. now apply split_items_lower_normal in H.
Qed.

Lemma detected_cocktail_normal (message c : string) :
  In c (detect_favorite_cocktails message) -> Py.strip c = c.
Proof.
  unfold detect_favorite_cocktails. rewrite in_flat_map.
  intros [pattern [_ H]]. rewrite in_flat_map in H.
  destruct H as [text [_ H]]. unfold split_items in H.
  rewrite in_map_iff in H. destruct H as [x [<- _]]. apply strip_idem.
Qed.

(** *** The loop over the detected ingredients *)

Lemma note_ingredients_known (l new : list string) (self : UserMemory) :
  (forall i, In i l -> i ∈ favorite_ingredients self) ->
  fold_left note_ingredient l (self, new) = (self, new).
Proof.
  induction l as [|a l IH]; intros H; [reflexivity |]. simpl.
  rewrite bool_decide_eq_true_2 by (apply H; now left).
  apply IH. intros i Hi. apply H. now right.
Qed.

Lemma note_cocktails_known (l new : list string) (self : UserMemory) :
  (forall c, In c l -> c ∈ favorite_cocktails self) ->
  fold_left note_cocktail l (self, new) = (self, new).
Proof.
  induction l as [|a l IH]; intros H; [reflexivity |]. simpl.
  rewrite bool_decide_eq_true_2 by (apply H; now left).
  apply IH. intros i Hi. apply H. now right.
Qed.

(** What a pass of either loop leaves alone, and what it only adds to. *)
Lemma note_ingredients_grow (l : list string) (acc : UserMemory * list string) :
  favorite_ingredients (fst acc)
    ⊆ favorite_ingredients (fst (fold_left note_ingredient l acc))
  /\ favorite_cocktails (fst (fold_left note_ingredient l acc))
     = favorite_cocktails (fst acc)
  /\ conversation_history (fst (fold_left note_ingredient l acc))
     = conversation_history (fst acc)
  /\ clock (fst (fold_left note_ingredient l acc)) = clock (fst acc).
Proof.
  revert acc. induction l as [|a l IH]; intros acc.
  - simpl. repeat split; reflexivity.
  - cbn [fold_left]. destruct (IH (note_ingredient acc a)) as (H1 & H2 & H3 & H4).
    rewrite H2, H3, H4. clear IH H2 H3 H4. destruct acc as [self new].
    set (rest := fold_left note_ingredient l) in *. unfold note_ingredient in *.
    destruct (bool_decide (a ∈ favorite_ingredients self)); simpl in *;
      repeat split; try reflexivity; set_solver.
Qed.

Lemma note_cocktails_grow (l : list string) (acc : UserMemory * list string) :
  favorite_cocktails (fst acc)
    ⊆ favorite_cocktails (fst (fold_left note_cocktail l acc))
  /\ favorite_ingredients (fst (fold_left note_cocktail l acc))
     = favorite_ingredients (fst acc)
  /\ conversation_history (fst (fold_left note_cocktail l acc))
     = conversation_history (fst acc)
  /\ clock (fst (fold_left note_cocktail l acc)) = clock (fst acc).
Proof.
  revert acc. induction l as [|a l IH]; intros acc.
  - simpl. repeat split; reflexivity.
  - cbn [fold_left]. destruct (IH (note_cocktail acc a)) as (H1 & H2 & H3 & H4).
    rewrite H2, H3, H4. clear IH H2 H3 H4. destruct acc as [self new].
    set (rest := fold_left note_cocktail l) in *. unfold note_cocktail in *.
    destruct (bool_decide (a ∈ favorite_cocktails self)); simpl in *;
      repeat split; try reflexivity; set_solver.
Qed.

Lemma note_ingredients_cover (l : list string) (acc : UserMemory * list string) :
  (forall i, In i l -> Py.strip (Py.lower i) = i) ->
  forall i, In i l ->
            i ∈ favorite_ingredients (fst (fold_left note_ingredient l acc)).
Proof.
  revert acc. induction l as [|a l IH]; intros [self new] Hn i Hi; [destruct Hi |].
  simpl. destruct Hi as [-> | Hi].
  - apply (proj1 (note_ingredients_grow l _)).
    unfold note_ingredient.
    destruct (bool_decide (i ∈ favorite_ingredients self)) eqn:E; simpl.
    + now apply bool_decide_eq_true_1 in E.
    + rewrite (Hn i) by now left. set_solver.
  - apply IH; [| exact Hi]. intros j Hj. apply Hn. now right.
Qed.

Lemma note_cocktails_cover (l : list string) (acc : UserMemory * list string) :
  (forall c, In c l -> Py.strip c = c) ->
  forall c, In c l ->
            c ∈ favorite_cocktails (fst (fold_left note_cocktail l acc)).
Proof.
  revert acc. induction l as [|a l IH]; intros [self new] Hn i Hi; [destruct Hi |].
  simpl. destruct Hi as [-> | Hi].
  - apply (proj1 (note_cocktails_grow l _)).
    unfold note_cocktail.
    destruct (bool_decide (i ∈ favorite_cocktails self)) eqn:E; simpl.
    + now apply bool_decide_eq_true_1 in E.
    + rewrite (Hn i) by now left. set_solver.
  - apply IH; [| exact Hi]. intros j Hj. apply Hn. now right.
Qed.

(** *** [process_user_message] *)

(** The favorites after a message, in terms of the two loops. *)
Lemma process_favorites (self : UserMemory) (message : string) :
  let after_ingredients :=
    fold_left note_ingredient (detect_favorite_ingredients message) (self, []) in
  let after_cocktails :=
    fold_left note_cocktail (detect_favorite_cocktails message)
              (fst after_ingredients, []) in
  favorite_ingredients (snd (process_user_message self message))
  = favorite_ingredients (fst after_ingredients)
  /\ favorite_cocktails (snd (process_user_message self message))
     = favorite_cocktails (fst after_cocktails)
  /\ new_favorite_ingredients (fst (process_user_message self message))
     = snd after_ingredients
  /\ new_favorite_cocktails (fst (process_user_message self message))
     = snd after_cocktails.
Proof.
  cbv zeta. unfold process_user_message.
  destruct (fold_left note_ingredient _ _) as [m1 n1] eqn:E1.
  pose proof (note_cocktails_grow (detect_favorite_cocktails message) (m1, []))
    as (_ & H2 & _).
  destruct (fold_left note_cocktail _ _) as [m2 n2] eqn:E2.
  simpl in *. repeat split; try reflexivity. exact H2.
Qed.

(** A message only adds to the favorites ... *)
Lemma process_grows (self : UserMemory) (message : string) :
  favorite_ingredients self
    ⊆ favorite_ingredients (snd (process_user_message self message))
  /\ favorite_cocktails self
     ⊆ favorite_cocktails (snd (process_user_message self message)).
Proof.
  destruct (process_favorites self message) as (H1 & H2 & _). rewrite H1, H2.
  pose proof (note_ingredients_grow (detect_favorite_ingredients message) (self, []))
    as (G1 & G2 & _).
  pose proof (note_cocktails_grow (detect_favorite_cocktails message)
                (fst (fold_left note_ingredient
                                (detect_favorite_ingredients message) (self, [])), []))
    as (G3 & _).
  simpl in *. split; [exact G1 |]. rewrite <- G2. exact G3.
Qed.

(** ... and afterwards everything it mentions is a favorite. *)
Lemma process_covers (self : UserMemory) (message : string) :
  (forall i, In i (detect_favorite_ingredients message) ->
             i ∈ favorite_ingredients (snd (process_user_message self message)))
  /\ (forall c, In c (detect_favorite_cocktails message) ->
                c ∈ favorite_cocktails (snd (process_user_message self message))).
Proof.
  destruct (process_favorites self message) as (H1 & H2 & _). rewrite H1, H2.
  split; intros x Hx.
  - apply note_ingredients_cover; [| exact Hx].
    intros i Hi. now apply detected_ingredient_normal in Hi.
  - apply note_cocktails_cover; [| exact Hx].
    intros c Hc. now apply detected_cocktail_normal in Hc.
Qed.

(** A message that mentions only favorites reports nothing new. *)
Lemma process_known (self : UserMemory) (message : string) :
  (forall i, In i (detect_favorite_ingredients message) ->
             i ∈ favorite_ingredients self) ->
  new_favorite_ingredients (fst (process_user_message self message)) = []
  /\ favorite_ingredients (snd (process_user_message self message))
     = favorite_ingredients self.
Proof.
  intros H. destruct (process_favorites self message) as (H1 & _ & H3 & _).
  rewrite H1, H3, (note_ingredients_known _ _ _ H). split; reflexivity.
Qed.

Lemma process_known_cocktails (self : UserMemory) (message : string) :
  (forall i, In i (detect_favorite_ingredients message) ->
             i ∈ favorite_ingredients self) ->
  (forall c, In c (detect_favorite_cocktails message) ->
             c ∈ favorite_cocktails self) ->
  fst (process_user_message self message)
  = {| new_favorite_ingredients := []; new_favorite_cocktails := [] |}.
Proof.
  intros Hi Hc. unfold process_user_message.
  rewrite (note_ingredients_known _ _ _ Hi), (note_cocktails_known _ _ _ Hc).
  reflexivity.
Qed.

End Preferences.

Section FavoriteIngredients.
Import Memory.

Lemma add_ingredient_favorites (self : UserMemory) (x : string) :
  favorite_ingredients (add_favorite_ingredient self x)
  = {[ Py.strip (Py.lower x) ]} ∪ favorite_ingredients self.
Proof. reflexivity. Qed.

Lemma remove_ingredient_favorites (self : UserMemory) (x : string) :
  favorite_ingredients (snd (remove_favorite_ingredient self x))
  = favorite_ingredients self ∖ {[ Py.strip (Py.lower x) ]}.
Proof.
  unfold remove_favorite_ingredient.
  destruct (bool_decide (Py.strip (Py.lower x) ∈ favorite_ingredients self)) eqn:E.
  - reflexivity.
  - apply bool_decide_eq_false_1 in E. simpl. set_solver.
Qed.

(** Adding is idempotent on normal forms. *)
Lemma add_ingredient_twice (self : UserMemory) (x y : string) :
  Py.strip (Py.lower x) = Py.strip (Py.lower y) ->
  favorite_ingredients (add_favorite_ingredient (add_favorite_ingredient self x) y)
  = favorite_ingredients (add_favorite_ingredient self x).
Proof. intros H. rewrite !add_ingredient_favorites, H. set_solver. Qed.

End FavoriteIngredients.

(** C7, as stated, fails: adding an ingredient that already is a favorite
    and then removing it does not restore the set; the ingredient is
    gone. *)
Lemma C7_add_remove_counterexample :
  Memory.favorite_ingredients
    (snd (Memory.remove_favorite_ingredient
            (Memory.add_favorite_ingredient gin_lover "gin") "gin"))
  <> Memory.favorite_ingredients gin_lover.
Proof.
  intros H.
  assert (Hin : "gin" ∈ Memory.favorite_ingredients gin_lover).
  { unfold gin_lover. rewrite add_ingredient_favorites. set_solver. }
  rewrite <- H, remove_ingredient_favorites in Hin.
  change (Py.strip (Py.lower "gin")) with "gin" in Hin. set_solver.
Qed.

(** C7 (amended). Processing a message all of whose detected ingredients
    already are favorites reports no new ingredient and leaves the
    favorite ingredients unchanged; adding an item that is not yet a
    favorite (in its lowercased, trimmed form) and then removing it
    restores the prior set exactly; and on a new profile, adding "Gin "
    and then "gin" leaves exactly the one favorite "gin". *)
Theorem C7_favorites_idempotent
        (self : Memory.UserMemory) (message x : string) :
  (forall i, In i (Memory.detect_favorite_ingredients message) ->
             i ∈ Memory.favorite_ingredients self) ->
  Py.strip (Py.lower x) ∉ Memory.favorite_ingredients self ->
  (Memory.new_favorite_ingredients (fst (Memory.process_user_message self message)) = []
   /\ Memory.favorite_ingredients (snd (Memory.process_user_message self message))
      = Memory.favorite_ingredients self)
  /\ Memory.favorite_ingredients
       (snd (Memory.remove_favorite_ingredient
               (Memory.add_favorite_ingredient self x) x))
     = Memory.favorite_ingredients self
  /\ Memory.favorite_ingredients
       (Memory.add_favorite_ingredient
          (Memory.add_favorite_ingredient Memory.fresh "Gin ") "gin")
     = {[ "gin" ]}.
Proof.
  intros Hknown Hnew. split; [now apply process_known |]. split.
  - rewrite remove_ingredient_favorites, add_ingredient_favorites. set_solver.
  - rewrite !add_ingredient_favorites.
    change (Py.strip (Py.lower "Gin ")) with "gin".
    change (Py.strip (Py.lower "gin")) with "gin".
    simpl. set_solver.
Qed.

Lemma C7_favorites_witness :
  (forall i, In i (Memory.detect_favorite_ingredients "I love gin.") ->
             i ∈ Memory.favorite_ingredients gin_lover)
  /\ (Py.strip (Py.lower " Rum") ∉ Memory.favorite_ingredients gin_lover)
  /\ Memory.new_favorite_ingredients
       (fst (Memory.process_user_message gin_lover "I love gin.")) = []
  /\ Memory.favorite_ingredients
       (snd (Memory.remove_favorite_ingredient
               (Memory.add_favorite_ingredient gin_lover " Rum") " Rum"))
     = Memory.favorite_ingredients gin_lover.
Proof.
  assert (H1 : forall i, In i (Memory.detect_favorite_ingredients "I love gin.") ->
                         i ∈ Memory.favorite_ingredients gin_lover).
  { change (Memory.detect_favorite_ingredients "I love gin.") with ["gin"].
    intros i [<- | []]. vm_compute. reflexivity. }
  assert (H2 : Py.strip (Py.lower " Rum") ∉ Memory.favorite_ingredients gin_lover).
  { change (Py.strip (Py.lower " Rum")) with "rum". vm_compute. discriminate. }
  pose proof (C7_favorites_idempotent gin_lover "I love gin." " Rum" H1 H2) as (Ha & Hb & _).
  split; [exact H1 |]. split; [exact H2 |]. split; [exact (proj1 Ha) | exact Hb].
Defined.

(* ===================================================================== *)
(** * IntentClassifier *)
(* ===================================================================== *)

Section Intent.

Lemma identify_depends_on_lower (q q' : string) :
  Py.lower q = Py.lower q' ->
  Rag.identify_query_type q = Rag.identify_query_type q'.
Proof. unfold Rag.identify_query_type. now intros ->. Qed.

(** The classifier always answers with one of the five categories. *)
Lemma identify_total (query : string) :
  In (Rag.identify_query_type query)
     ["ingredient_query"; "cocktail_query"; "recommendation"; "preference"; "general"].
Proof.
  unfold Rag.identify_query_type.
  repeat match goal with
         | |- context [if ?b then _ else _] => destruct b
         end; simpl; tauto.
Qed.

(** A literal word, letter case respected, matches at the head of a
    text exactly when it is a prefix of the text. *)
Lemma run_lit (w s : list ascii) (g : option (list ascii)) (k : Re.cont) :
  Re.run (Re.lit_l w) s g k
  = if Py.prefix_l w s then k (skipn (length w) s) g else None.
Proof.
  revert s. induction w as [|a w IH]; intros s; [reflexivity |].
  destruct s as [|b s]; [reflexivity |]. simpl.
  destruct (Ascii.eqb a b); [apply IH | reflexivity].
Qed.

(** No lowercased text holds a capital I. *)
Lemma lower_char_not_I (a : ascii) : Py.lower_char a <> "I"%char.
Proof. destruct a as [[] [] [] [] [] [] [] []]; discriminate. Qed.

Lemma lower_without_I (s : list ascii) : ~ In "I"%char (Py.lower_l s).
Proof.
  unfold Py.lower_l. rewrite in_map_iff. intros [a [H _]].
  exact (lower_char_not_I a H).
Qed.

(** A text without a capital I has no place where the rule matches. *)
Lemma should_I_needs_I (s : list ascii) :
  ~ In "I"%char s -> Re.search_l should_I_rule s = None.
Proof.
  assert (Hhere : forall t, ~ In "I"%char t -> Re.match_here should_I_rule t = None).
  { intros t Ht. unfold Re.match_here, should_I_rule. cbn [Re.seqs Re.run].
    change (Re.lit false "what cocktail should I ")
      with (Re.lit_l (s2l "what cocktail should I ")).
    rewrite run_lit.
    destruct (Py.prefix_l (s2l "what cocktail should I ") t) eqn:E; [| reflexivity].
    apply prefix_l_spec in E. destruct E as [post ->].
    exfalso. apply Ht. apply in_or_app. left. vm_compute. tauto. }
  induction s as [|a s IH]; intros H; cbn [Re.search_l]; rewrite (Hhere _ H).
  - reflexivity.
  - apply IH. intros Hs. apply H. now right.
Qed.

End Intent.

(** C3 (the code departs from it). The classifier lowercases the query
    "for case-insensitive matching" and then tests its rules as they are
    spelled. The recommendation rule [what cocktail should I
    (?:make|try|drink)] is spelled with a capital I, so it matches no
    lowercased query at all. The query "what cocktail should I make
    tonight" is matched by that rule as it is typed, and by no rule
    before it, and is classified [general]; likewise "I love gin.",
    which the first preference rule matches as typed. *)
Theorem C3_capital_I_rules_never_fire :
  In should_I_rule Rag.recommendation_patterns
  /\ (forall query, Re.found should_I_rule (Py.lower query) = false)
  /\ Re.found should_I_rule "what cocktail should I make tonight" = true
  /\ first_matching_rule rule_list "general" "what cocktail should I make tonight"
     = "recommendation"
  /\ Rag.identify_query_type "what cocktail should I make tonight" = "general"
  /\ first_matching_rule rule_list "general" "I love gin." = "preference"
  /\ Rag.identify_query_type "I love gin." = "general".
Proof.
  split; [right; right; left; reflexivity |]. split.
  - intros query. unfold Re.found, Re.search, Py.lower. rewrite s2l_l2s.
    now rewrite (should_I_needs_I _ (lower_without_I (s2l query))).
  - repeat split; vm_compute; reflexivity.
Qed.

Example classify_examples :
  Rag.identify_query_type "Cocktails with lemon and mint" = "ingredient_query"
  /\ Rag.identify_query_type "What is a Negroni?" = "cocktail_query"
  /\ Rag.identify_query_type "Recommend some cocktails" = "recommendation"
  /\ Rag.identify_query_type "What are MY favorite ingredients?" = "preference"
  /\ Rag.identify_query_type "hello there" = "general".
Proof. repeat split; vm_compute; reflexivity. Qed.

(* ===================================================================== *)
(** * ResponseOrchestrator: the ingredient branch *)
(* ===================================================================== *)

Section IngredientBranch.
Import DataProcessor.

(** Once a merge has raised, the remaining frames are not looked at. *)
Lemma merge_all_raise (rest : list DataFrame) :
  fold_left (fun result_df df => res_bind result_df (fun acc => merge acc df))
            rest Raise = Raise.
Proof. induction rest as [|df rest IH]; [reflexivity | exact IH]. Qed.

(** The frames of two ingredients that each occur in some record cannot
    be intersected: the first merge raises. *)
Lemma intersect_all_raise (r1 r2 : Row) (rows1 rows2 : DataFrame)
      (frames : list DataFrame) :
  Rag.intersect_all merge ((r1 :: rows1) :: (r2 :: rows2) :: frames) = Raise.
Proof.
  unfold Rag.intersect_all, Rag.merge_all. cbn [fold_left res_bind merge].
  now rewrite merge_all_raise.
Qed.

End IngredientBranch.

(** C1 (the code departs from it). The query "cocktails with lemon and
    mint" has intent [ingredient_query] and entities lemon and mint. On
    a corpus where the Lemonade and the Mojito contain lemon and the
    Mojito contains mint, the records containing both are the Mojito
    alone; but the branch intersects the two frames with a merge on all
    their columns, the list-valued one among them, and the request ends
    in an error instead of a result. *)
Theorem C1_intersection_raises :
  let query := "cocktails with lemon and mint" in
  Rag.identify_query_type query = "ingredient_query"
  /\ Rag.extract_ingredients_from_query query = ["lemon"; "mint"]
  /\ DataProcessor.get_cocktails_containing [lemonade; mojito] "lemon"
     = [lemonade; mojito]
  /\ DataProcessor.get_cocktails_containing [lemonade; mojito] "mint" = [mojito]
  /\ (forall r,
        In r [mojito] <->
        forall i, In i (Rag.extract_ingredients_from_query query) ->
                  In r (DataProcessor.get_cocktails_containing [lemonade; mojito] i))
  /\ Rag.result_df [lemonade; mojito] DataProcessor.merge query = Raise
  /\ Rag.generate_response nat (fun d => d) no_hits [] DataProcessor.compile_basic
                           [lemonade; mojito] DataProcessor.merge whole_frame echo
                           query Memory.fresh
     = Raise.
Proof.
  cbv zeta.
  assert (Hl : DataProcessor.get_cocktails_containing [lemonade; mojito] "lemon"
               = [lemonade; mojito]) by (vm_compute; reflexivity).
  assert (Hm : DataProcessor.get_cocktails_containing [lemonade; mojito] "mint"
               = [mojito]) by (vm_compute; reflexivity).
  assert (He : Rag.extract_ingredients_from_query "cocktails with lemon and mint"
               = ["lemon"; "mint"]) by (vm_compute; reflexivity).
  assert (Hr : Rag.result_df [lemonade; mojito] DataProcessor.merge
                             "cocktails with lemon and mint" = Raise).
  { unfold Rag.result_df, Rag.relevant_cocktails. rewrite He. cbn [map].
    change (Rag.is_non_alcoholic "cocktails with lemon and mint") with false.
    cbv iota. rewrite Hl, Hm. apply intersect_all_raise. }
  split; [vm_compute; reflexivity |]. split; [exact He |].
  split; [exact Hl |]. split; [exact Hm |]. split; [| split; [exact Hr |]].
  - intros r. rewrite He. split.
    + intros [<- | []] i [<- | [<- | []]]; [rewrite Hl | rewrite Hm]; simpl; tauto.
    + intros H. specialize (H "mint" (or_intror (or_introl eq_refl))).
      now rewrite Hm in H.
  - unfold Rag.generate_response, Rag.bind, Rag.method.
    destruct (Memory.process_user_message _ _) as [detected m1]. cbv zeta.
    change (Rag.identify_query_type "cocktails with lemon and mint")
      with "ingredient_query".
    change (String.eqb "ingredient_query" "ingredient_query") with true.
    cbv iota. unfold Rag.process_ingredient_query. rewrite He.
    unfold Rag.bind, Rag.call. now rewrite Hr.
Qed.

(** The second ingredient need not be the last: every request that
    names two ingredients found in the corpus ends in the same way. *)
Example three_ingredients_raise :
  Rag.extract_ingredients_from_query "Cocktails with rum and lemon and mint"
  = ["rum"; "lemon"; "mint"]
  /\ Rag.result_df [lemonade; mojito] DataProcessor.merge
                   "Cocktails with rum and lemon and mint"
     = Raise.
Proof. split; vm_compute; reflexivity. Qed.

(* ===================================================================== *)
(** * CorpusStore: lookup by name *)
(* ===================================================================== *)

Section LiteralPatterns.

(** A literal word under [re.IGNORECASE] matches at the head of a text
    exactly when the lowercased word is a prefix of the lowercased
    text. *)
Lemma run_lit_i (w s : list ascii) (g : option (list ascii)) (k : Re.cont) :
  Re.run (Re.lit_i_l w) s g k
  = if Py.prefix_l (Py.lower_l w) (Py.lower_l s)
    then k (skipn (length w) s) g else None.
Proof.
  revert s. induction w as [|a w IH]; intros s; [reflexivity |].
  destruct s as [|b s]; [reflexivity |]. simpl.
  destruct (Ascii.eqb (Py.lower_char a) (Py.lower_char b)); [apply IH | reflexivity].
Qed.

Lemma search_lit_i (w s : list ascii) :
  match Re.search_l (Re.lit_i_l w) s with Some _ => true | None => false end
  = Py.infix_l (Py.lower_l w) (Py.lower_l s).
Proof.
  induction s as [|b s IH].
  - simpl. unfold Re.match_here. rewrite run_lit_i.
    simpl. destruct (Py.prefix_l (Py.lower_l w) []); reflexivity.
  - cbn [Re.search_l]. unfold Re.match_here. rewrite run_lit_i.
    change (Py.infix_l (Py.lower_l w) (Py.lower_l (b :: s)))
      with (Py.prefix_l (Py.lower_l w) (Py.lower_l (b :: s))
            || Py.infix_l (Py.lower_l w) (Py.lower_l s)).
    destruct (Py.prefix_l (Py.lower_l w) (Py.lower_l (b :: s)));
      [reflexivity | exact IH].
Qed.

Lemma found_lit_i (w s : string) :
  Re.found (Re.lit true w) s = Py.str_in (Py.lower w) (Py.lower s).
Proof.
  unfold Re.found, Re.search, Re.lit, Py.str_in, Py.lower.
  rewrite !s2l_l2s. apply search_lit_i.
Qed.

Lemma is_special_lower_char (a : ascii) :
  DataProcessor.is_special (Py.lower_char a) = DataProcessor.is_special a.
Proof. destruct a as [[] [] [] [] [] [] [] []]; reflexivity. Qed.

Lemma plain_lower (w : string) :
  DataProcessor.plain w = true -> DataProcessor.plain (Py.lower w) = true.
Proof.
  unfold DataProcessor.plain, Py.lower, Py.lower_l. rewrite s2l_l2s.
  rewrite !forallb_forall. intros H a Ha. rewrite in_map_iff in Ha.
  destruct Ha as [b [<- Hb]]. rewrite is_special_lower_char. now apply H.
Qed.

(** On a plain word the basic pattern compiler yields the literal. *)
Lemma compile_basic_plain (w : string) :
  DataProcessor.plain w = true ->
  DataProcessor.compile_basic w = Some (Re.lit true w).
Proof.
  unfold DataProcessor.plain, DataProcessor.compile_basic, Re.lit.
  induction (s2l w) as [|a l IH]; [reflexivity |].
  simpl. rewrite andb_true_iff, negb_true_iff. intros [Ha Hl].
  rewrite (IH Hl), Ha.
  destruct (Ascii.eqb a ".") eqn:E; [| reflexivity].
  apply Ascii.eqb_eq in E. subst a. discriminate.
Qed.

Lemma find_ext {A} (f g : A -> bool) (l : list A) :
  (forall x, f x = g x) -> find f l = find g l.
Proof.
  intros H. induction l as [|a l IH]; simpl; [reflexivity |].
  rewrite H, IH. reflexivity.
Qed.

Lemma head_filter {A} (f : A -> bool) (l : list A) :
  head (List.filter f l) = find f l.
Proof.
  induction l as [|a l IH]; simpl; [reflexivity |].
  destruct (f a); [reflexivity | exact IH].
Qed.

End LiteralPatterns.

Section ByNameSpec.
Import DataProcessor.

Variable re_compile : string -> option Re.regex.
Hypothesis re_compile_plain :
  forall w, plain w = true -> re_compile w = Some (Re.lit true w).

Lemma get_cocktail_by_name_plain (cocktails_df : DataFrame) (name_arg : string) :
  plain name_arg = true ->
  get_cocktail_by_name re_compile cocktails_df name_arg
  = Ret (by_name cocktails_df name_arg).
Proof.
  intros Hplain. unfold get_cocktail_by_name, by_name, first_row.
  rewrite <- head_filter.
  destruct (List.filter _ cocktails_df) as [|row rows] eqn:E.
  - rewrite (re_compile_plain _ (plain_lower _ Hplain)).
    cbv beta iota. rewrite head_filter. f_equal. apply find_ext.
    intros row. rewrite found_lit_i. now rewrite !lower_idem.
  - reflexivity.
Qed.

End ByNameSpec.

(** C4, as stated, fails: the fallback hands the name to
    [Series.str.contains], which reads it as a regular expression. The
    name "M.jito" is not contained in "Mojito" and yet finds it. *)
Lemma C4_pattern_counterexample :
  DataProcessor.get_cocktail_by_name DataProcessor.compile_basic [mojito] "M.jito"
  = Ret (Some mojito)
  /\ by_name [mojito] "M.jito" = None
  /\ Py.str_in (Py.lower "M.jito") (Py.lower (DataProcessor.name mojito)) = false.
Proof. repeat split; vm_compute; reflexivity. Qed.

(** C4 (amended). For every name without regular-expression special
    characters, the lookup first searches for a record whose name equals
    it, letter case ignored; only if there is none does it fall back to
    the records whose name contains it, letter case ignored; and it
    returns the first match in corpus order. On the corpus of "Virgin
    Mojito" and "Mojito", the lookup of "mojito" returns "Mojito". *)
Theorem C4_by_name_exact_then_substring
        (re_compile : string -> option Re.regex)
        (cocktails_df : DataProcessor.DataFrame) (name_arg : string) :
  (forall w, DataProcessor.plain w = true -> re_compile w = Some (Re.lit true w)) ->
  DataProcessor.plain name_arg = true ->
  DataProcessor.get_cocktail_by_name re_compile cocktails_df name_arg
  = Ret (by_name cocktails_df name_arg)
  /\ DataProcessor.get_cocktail_by_name re_compile [virgin_mojito; mojito] "mojito"
     = Ret (Some mojito).
Proof.
  intros Hc Hp. split.
  - now apply get_cocktail_by_name_plain.
  - rewrite (get_cocktail_by_name_plain re_compile Hc) by reflexivity.
    vm_compute. reflexivity.
Qed.

Lemma C4_by_name_witness :
  DataProcessor.plain "Virgin" = true
  /\ DataProcessor.get_cocktail_by_name
       DataProcessor.compile_basic [mojito; virgin_mojito] "Virgin"
     = Ret (by_name [mojito; virgin_mojito] "Virgin")
  /\ by_name [mojito; virgin_mojito] "Virgin" = Some virgin_mojito.
Proof.
  split; [reflexivity |]. split; [| vm_compute; reflexivity].
  exact (proj1 (C4_by_name_exact_then_substring
                  DataProcessor.compile_basic [mojito; virgin_mojito] "Virgin"
                  compile_basic_plain eq_refl)).
Defined.

(* ===================================================================== *)
(** * Facts about the matcher *)
(* ===================================================================== *)

Section MatcherFacts.

Lemma suffix_of_refl (s : list ascii) : suffix_of s s.
Proof. now exists []. Qed.

Lemma suffix_of_cons (a : ascii) (rest s : list ascii) :
  suffix_of rest s -> suffix_of rest (a :: s).
Proof. intros [pre ->]. now exists (a :: pre). Qed.

Lemma suffix_of_trans (r s t : list ascii) :
  suffix_of r s -> suffix_of s t -> suffix_of r t.
Proof. intros [p ->] [q ->]. exists (q ++ p). now rewrite app_assoc. Qed.

Lemma suffix_of_In (rest s : list ascii) (c : ascii) :
  suffix_of rest s -> In c rest -> In c s.
Proof. intros [pre ->] H. apply in_or_app. now right. Qed.

Lemma suffix_of_length (rest s : list ascii) :
  suffix_of rest s -> length rest <= length s.
Proof. intros [pre ->]. rewrite length_app. lia. Qed.

Lemma suffix_of_skipn (rest s : list ascii) :
  suffix_of rest s -> skipn (length s - length rest) s = rest.
Proof.
  intros [pre ->]. rewrite length_app.
  replace (length pre + length rest - length rest) with (length pre + 0) by lia.
  rewrite skipn_app, Nat.add_0_r, skipn_all.
  replace (length pre - length pre) with 0 by lia. reflexivity.
Qed.

Lemma or_else_Some (x y : option Re.outcome) (m : Re.outcome) :
  Re.or_else x y = Some m -> x = Some m \/ y = Some m.
Proof. destruct x; simpl; intros H; [left | right]; exact H. Qed.

(** The matcher reads its input from left to right: what it leaves
    unread is a suffix of what it was given. *)
Lemma run_suffix (r : Re.regex) :
  forall (k : Re.cont), reads_on k ->
  forall s g m, Re.run r s g k = Some m -> suffix_of (fst m) s.
Proof.
  induction r as [| p | r1 IH1 r2 IH2 | r1 IH1 r2 IH2 | greedy p | r1 IH1];
    intros k Hk s g m H; simpl in H.
  - now apply Hk in H.
  - destruct s as [|a s]; [discriminate |].
    destruct (p a); [| discriminate].
    apply suffix_of_cons. now apply Hk in H.
  - apply (IH1 (fun s' g' => Re.run r2 s' g' k)) in H; [exact H |].
    intros s' g' m' H'. now apply (IH2 k Hk) in H'.
  - apply or_else_Some in H. destruct H as [H | H];
      [now apply (IH1 k Hk) in H | now apply (IH2 k Hk) in H].
  - induction s as [|a s IHs]; [now apply Hk in H |].
    destruct (p a); [| now apply Hk in H].
    destruct greedy; apply or_else_Some in H; destruct H as [H | H];
      try (now apply Hk in H); apply suffix_of_cons; now apply IHs.
  - apply (IH1 (fun s' _ => k s' (Some (firstn (length s - length s') s)))) in H;
      [exact H |].
    intros s' g' m' H'. now apply Hk in H'.
Qed.

Lemma match_here_suffix (r : Re.regex) (s : list ascii) (m : Re.outcome) :
  Re.match_here r s = Some m -> suffix_of (fst m) s.
Proof.
  apply run_suffix. intros s' g' m' H. injection H as <-. apply suffix_of_refl.
Qed.

Lemma delete_prefix_suffix (r : Re.regex) (s : list ascii) :
  suffix_of (Re.delete_prefix_l r s) s.
Proof.
  unfold Re.delete_prefix_l. destruct (Re.match_here r s) as [m|] eqn:E.
  - now apply match_here_suffix in E.
  - apply suffix_of_refl.
Qed.

Lemma delete_all_cons (r : Re.regex) (a : ascii) (s : list ascii) :
  Re.delete_all_l r (a :: s) 0
  = match Re.match_here r (a :: s) with
    | Some m =>
        match length (a :: s) - length (fst m) with
        | O => a :: Re.delete_all_l r s 0
        | S n => Re.delete_all_l r s n
        end
    | None => a :: Re.delete_all_l r s 0
    end.
Proof. reflexivity. Qed.

(** Deleting matches only removes characters. *)
Lemma delete_all_In (r : Re.regex) (s : list ascii) (c : ascii) :
  forall n, In c (Re.delete_all_l r s n) -> In c s.
Proof.
  induction s as [|a s IH]; intros n H.
  - destruct n; exact H.
  - destruct n as [|n]; [rewrite delete_all_cons in H | simpl in H].
    + destruct (Re.match_here r (a :: s)) as [m|].
      * destruct (length (a :: s) - length (fst m)).
        -- destruct H as [<- | H]; [now left | right; now apply IH in H].
        -- right. now apply IH in H.
      * destruct H as [<- | H]; [now left | right; now apply IH in H].
    + right. now apply IH in H.
Qed.

(** Skipping [n] characters is resuming [n] characters further. *)
Lemma delete_all_skip (r : Re.regex) (n : nat) :
  forall s, n <= length s ->
            Re.delete_all_l r s n = Re.delete_all_l r (skipn n s) 0.
Proof.
  induction n as [|n IH]; intros s Hn; [reflexivity |].
  destruct s as [|a s]; [simpl in Hn; lia |].
  simpl. apply IH. simpl in Hn. lia.
Qed.

(** One step of the deletion, at a position where the pattern matches
    a non-empty text, and at one where it does not match. *)
Lemma delete_all_match (r : Re.regex) (a : ascii) (s rest : list ascii)
      (g : option (list ascii)) :
  Re.match_here r (a :: s) = Some (rest, g) -> suffix_of rest s ->
  Re.delete_all_l r (a :: s) 0 = Re.delete_all_l r rest 0.
Proof.
  intros H Hs. rewrite delete_all_cons, H. cbn [fst].
  pose proof (suffix_of_length _ _ Hs) as Hl.
  replace (length (a :: s) - length rest) with (S (length s - length rest))
    by (simpl; lia).
  rewrite delete_all_skip by lia. now rewrite suffix_of_skipn.
Qed.

Lemma delete_all_no_match (r : Re.regex) (a : ascii) (s : list ascii) :
  Re.match_here r (a :: s) = None ->
  Re.delete_all_l r (a :: s) 0 = a :: Re.delete_all_l r s 0.
Proof. intros H. rewrite delete_all_cons. now rewrite H. Qed.

(** The equations of the matcher. *)
Lemma run_seq (r1 r2 : Re.regex) (s : list ascii) (g : option (list ascii))
      (k : Re.cont) :
  Re.run (Re.Seq r1 r2) s g k = Re.run r1 s g (fun s' g' => Re.run r2 s' g' k).
Proof. reflexivity. Qed.

Lemma run_chr_cons (c a : ascii) (s : list ascii) (g : option (list ascii))
      (k : Re.cont) :
  Re.run (Re.chr c) (a :: s) g k = if Ascii.eqb c a then k s g else None.
Proof. reflexivity. Qed.

Lemma run_cls_cons (p : ascii -> bool) (a : ascii) (s : list ascii)
      (g : option (list ascii)) (k : Re.cont) :
  Re.run (Re.Cls p) (a :: s) g k = if p a then k s g else None.
Proof. reflexivity. Qed.

Lemma run_star_cons (p : ascii -> bool) (a : ascii) (s : list ascii)
      (g : option (list ascii)) (k : Re.cont) :
  Re.run (Re.Star true p) (a :: s) g k
  = if p a then Re.or_else (Re.run (Re.Star true p) s g k) (k (a :: s) g)
    else k (a :: s) g.
Proof. reflexivity. Qed.

Lemma or_else_None_r (x : option Re.outcome) : Re.or_else x None = x.
Proof. now destruct x. Qed.

(** A pattern that starts with one or more characters of a class does
    not match a text that starts outside the class. *)
Lemma run_plus_head (p : ascii -> bool) (r : Re.regex) (a : ascii)
      (s : list ascii) (g : option (list ascii)) (k : Re.cont) :
  p a = false -> Re.run (Re.Seq (Re.plus p) r) (a :: s) g k = None.
Proof. intros H. simpl. now rewrite H. Qed.

End MatcherFacts.

(* ===================================================================== *)
(** * CorpusStore: normalization of ingredient tokens *)
(* ===================================================================== *)

Section Normalization.
Import DataProcessor.

(** ** Parenthetical notes *)

Lemma after_close_suffix (s rest : list ascii) :
  after_close s = Some rest -> suffix_of rest s.
Proof.
  induction s as [|a s IH]; simpl; [discriminate |].
  destruct (is_close a).
  - intros H. injection H as <-. apply suffix_of_cons, suffix_of_refl.
  - intros H. apply suffix_of_cons. now apply IH.
Qed.

Lemma after_close_None (s : list ascii) :
  after_close s = None <-> existsb is_close s = false.
Proof.
  induction s as [|a s IH]; simpl; [tauto |].
  destruct (is_close a); simpl; [split; discriminate | exact IH].
Qed.

(** The greedy run over [[^)]*] followed by [\)] stops at the first
    closing parenthesis. *)
Lemma none_of_close (a : ascii) : Re.none_of ")" a = negb (is_close a).
Proof.
  unfold Re.none_of, Re.one_of, is_close. cbn [s2l existsb].
  now rewrite orb_false_r, Ascii.eqb_sym.
Qed.

Lemma run_note_body (s : list ascii) (g : option (list ascii)) (k : Re.cont) :
  Re.run (Re.Seq (Re.Star true (Re.none_of ")")) (Re.chr ")")) s g k
  = match after_close s with
    | Some rest => k rest g
    | None => None
    end.
Proof.
  rewrite run_seq. induction s as [|a s IH]; [reflexivity |].
  rewrite run_star_cons, none_of_close, run_chr_cons. cbn [after_close].
  fold (is_close a). destruct (is_close a); cbn [negb]; [reflexivity |].
  rewrite or_else_None_r. exact IH.
Qed.

Lemma match_note (a : ascii) (s : list ascii) :
  Re.match_here parens_re (a :: s)
  = if is_open a then
      match after_close s with
      | Some rest => Some (rest, None)
      | None => None
      end
    else None.
Proof.
  unfold Re.match_here, parens_re, is_open.
  change (Re.seqs [Re.chr "("; Re.Star true (Re.none_of ")"); Re.chr ")"])
    with (Re.Seq (Re.chr "(")
                 (Re.Seq (Re.Star true (Re.none_of ")")) (Re.chr ")"))).
  rewrite run_seq, run_chr_cons. now rewrite run_note_body.
Qed.

(** A text without a note is left as it is. *)
Lemma delete_notes_fixed (s : list ascii) :
  has_note s = false -> Re.delete_all_l parens_re s 0 = s.
Proof.
  induction s as [|a s IH]; [reflexivity |].
  simpl has_note. rewrite orb_false_iff, andb_false_iff. intros [Ha Hs].
  rewrite delete_all_no_match, (IH Hs); [reflexivity |].
  rewrite match_note. destruct (is_open a); [| reflexivity].
  destruct Ha as [Ha | Ha]; [discriminate |].
  apply after_close_None in Ha. now rewrite Ha.
Qed.

Lemma existsb_close_In (s : list ascii) :
  existsb is_close s = true <-> In (")"%char) s.
Proof.
  rewrite existsb_exists. unfold is_close. split.
  - intros [x [Hx E]]. apply Ascii.eqb_eq in E. now subst x.
  - intros H. exists (")"%char). split; [exact H | apply Ascii.eqb_refl].
Qed.

(** After the deletion no note is left. *)
Lemma delete_notes_clean (n : nat) :
  forall s, length s <= n -> has_note (Re.delete_all_l parens_re s 0) = false.
Proof.
  induction n as [|n IH]; intros s Hn.
  - destruct s; [reflexivity | simpl in Hn; lia].
  - destruct s as [|a s]; [reflexivity |]. simpl in Hn.
    pose proof (match_note a s) as Hm.
    destruct (is_open a) eqn:Ea.
    + destruct (after_close s) as [rest|] eqn:Ec.
      * pose proof (after_close_suffix _ _ Ec) as Hs.
        rewrite (delete_all_match _ _ _ _ _ Hm Hs). apply IH.
        apply suffix_of_length in Hs. lia.
      * rewrite (delete_all_no_match _ _ _ Hm). simpl. rewrite Ea, IH by lia.
        rewrite orb_false_r. simpl.
        destruct (existsb is_close (Re.delete_all_l parens_re s 0)) eqn:E;
          [| reflexivity].
        apply existsb_close_In, delete_all_In, existsb_close_In in E.
        apply after_close_None in Ec. congruence.
    + rewrite (delete_all_no_match _ _ _ Hm). simpl. rewrite Ea. simpl.
      apply IH. lia.
Qed.

(** Trimming and lowercasing do not create notes. *)
Lemma lstrip_In (s : list ascii) (c : ascii) : In c (Py.lstrip_l s) -> In c s.
Proof.
  induction s as [|a s IH]; simpl; [trivial |].
  destruct (Py.is_space a); [intros H; right; now apply IH | trivial].
Qed.

Lemma rstrip_In (s : list ascii) (c : ascii) : In c (Py.rstrip_l s) -> In c s.
Proof.
  induction s as [|a s IH]; [trivial |]. rewrite rstrip_cons.
  destruct (Py.rstrip_l s) as [|b t].
  - destruct (Py.is_space a); [intros [] | intros [<- | []]; now left].
  - intros [<- | H]; [now left | right; now apply IH].
Qed.

Lemma strip_In (s : list ascii) (c : ascii) : In c (Py.strip_l s) -> In c s.
Proof. unfold Py.strip_l. intros H. now apply lstrip_In, rstrip_In. Qed.

Lemma has_note_lstrip (s : list ascii) :
  has_note s = false -> has_note (Py.lstrip_l s) = false.
Proof.
  induction s as [|a s IH]; simpl; [trivial |].
  destruct (Py.is_space a); [| trivial].
  rewrite orb_false_iff. intros [_ H]. now apply IH.
Qed.

Lemma has_note_rstrip (s : list ascii) :
  has_note s = false -> has_note (Py.rstrip_l s) = false.
Proof.
  induction s as [|a s IH]; [trivial |]. rewrite rstrip_cons.
  simpl has_note at 1. rewrite orb_false_iff. intros [Ha Hs].
  specialize (IH Hs).
  destruct (Py.rstrip_l s) as [|b t] eqn:E.
  - destruct (Py.is_space a); [reflexivity |]. simpl. now rewrite andb_false_r.
  - change (has_note (a :: b :: t))
      with ((is_open a && existsb is_close (b :: t)) || has_note (b :: t)).
    rewrite IH, orb_false_r.
    destruct (is_open a); [| reflexivity]. simpl in Ha |- *.
    destruct (existsb is_close (b :: t)) eqn:Eb; [| simpl in Eb; exact Eb].
    apply existsb_close_In in Eb. rewrite <- E in Eb.
    apply rstrip_In, existsb_close_In in Eb. congruence.
Qed.

Lemma paren_lower_char (a : ascii) :
  is_open (Py.lower_char a) = is_open a
  /\ is_close (Py.lower_char a) = is_close a.
Proof. destruct a as [[] [] [] [] [] [] [] []]; split; reflexivity. Qed.

Lemma existsb_close_lower (s : list ascii) :
  existsb is_close (Py.lower_l s) = existsb is_close s.
Proof.
  induction s as [|a s IH]; [reflexivity |]. cbn [Py.lower_l map existsb].
  fold (Py.lower_l s). now rewrite IH, (proj2 (paren_lower_char a)).
Qed.

Lemma has_note_lower (s : list ascii) : has_note (Py.lower_l s) = has_note s.
Proof.
  induction s as [|a s IH]; [reflexivity |]. cbn [Py.lower_l map has_note].
  fold (Py.lower_l s).
  now rewrite IH, (proj1 (paren_lower_char a)), existsb_close_lower.
Qed.

End Normalization.

Section Tokens.
Import DataProcessor.

(** ** Splitting at the delimiters *)

Lemma match_delimiter (a : ascii) (s : list ascii) :
  Re.match_here delimiter_re (a :: s)
  = if is_delim a then Some (s, None) else None.
Proof. reflexivity. Qed.

Lemma split_cons (r : Re.regex) (a : ascii) (s cur : list ascii) :
  Re.split_l r (a :: s) 0 cur
  = match Re.match_here r (a :: s) with
    | Some m =>
        match length (a :: s) - length (fst m) with
        | O => Re.split_l r s 0 (a :: cur)
        | S n => rev cur :: Re.split_l r s n []
        end
    | None => Re.split_l r s 0 (a :: cur)
    end.
Proof. reflexivity. Qed.

Lemma split_delimiter_cons (a : ascii) (s cur : list ascii) :
  Re.split_l delimiter_re (a :: s) 0 cur
  = if is_delim a then rev cur :: Re.split_l delimiter_re s 0 []
    else Re.split_l delimiter_re s 0 (a :: cur).
Proof.
  rewrite split_cons, match_delimiter. destruct (is_delim a); [| reflexivity].
  cbn [fst]. replace (length (a :: s) - length s) with 1 by (simpl; lia).
  reflexivity.
Qed.

(** The pieces of a split contain no delimiter ... *)
Lemma split_pieces_undelimited (s : list ascii) :
  forall cur, undelimited cur ->
  forall piece, In piece (Re.split_l delimiter_re s 0 cur) -> undelimited piece.
Proof.
  induction s as [|a s IH]; intros cur Hcur piece Hp.
  - destruct Hp as [<- | []]. intros c Hc. apply Hcur. now apply in_rev.
  - rewrite split_delimiter_cons in Hp. destruct (is_delim a) eqn:Ea.
    + destruct Hp as [<- | Hp].
      * intros c Hc. apply Hcur. now apply in_rev.
      * apply (IH [] ltac:(intros c []) piece Hp).
    + apply (IH (a :: cur)); [| exact Hp].
      intros c [<- | Hc]; [exact Ea | now apply Hcur].
Qed.

(** ... and a text without delimiters is its own single piece. *)
Lemma split_undelimited (s : list ascii) :
  forall cur, undelimited s ->
              Re.split_l delimiter_re s 0 cur = [rev cur ++ s].
Proof.
  induction s as [|a s IH]; intros cur Hs.
  - simpl. now rewrite app_nil_r.
  - rewrite split_delimiter_cons, (Hs a) by now left.
    rewrite IH by (intros c Hc; apply Hs; now right).
    simpl. now rewrite <- app_assoc.
Qed.

Lemma is_delim_lower_char (a : ascii) : is_delim (Py.lower_char a) = is_delim a.
Proof. destruct a as [[] [] [] [] [] [] [] []]; reflexivity. Qed.

Lemma undelimited_lower (s : list ascii) :
  undelimited s -> undelimited (Py.lower_l s).
Proof.
  intros H c Hc. unfold Py.lower_l in Hc. rewrite in_map_iff in Hc.
  destruct Hc as [b [<- Hb]]. rewrite is_delim_lower_char. now apply H.
Qed.

(** ** One token *)

Lemma clean_ingredient_shape (piece t : list ascii) :
  clean_ingredient piece = Some t ->
  token_shape t /\ (undelimited piece -> undelimited t).
Proof.
  unfold clean_ingredient.
  destruct (Py.strip_l piece) as [|a p] eqn:Ep; [discriminate |].
  set (v := Re.delete_all_l parens_re
              (Re.delete_prefix_l quantity_re
                 (Re.delete_prefix_l measure_re (a :: p))) 0).
  destruct (Py.strip_l v) as [|b w] eqn:Ev; [discriminate |].
  intros H. injection H as <-.
  change (Py.lower_char b :: Py.lower_l w) with (Py.lower_l (b :: w)).
  rewrite <- Ev. split; [split |].
  - rewrite Ev. discriminate.
  - now rewrite <- strip_lower_l, strip_l_idem.
  - apply lower_l_idem.
  - rewrite has_note_lower. unfold Py.strip_l.
    apply has_note_rstrip, has_note_lstrip.
    unfold v. eapply delete_notes_clean. apply Nat.le_refl.
  - intros Hp. apply undelimited_lower. intros c Hc. apply Hp.
    apply strip_In in Hc. apply delete_all_In in Hc.
    apply (suffix_of_In _ _ _ (delete_prefix_suffix _ _)) in Hc.
    apply (suffix_of_In _ _ _ (delete_prefix_suffix _ _)) in Hc.
    rewrite <- Ep in Hc. now apply strip_In in Hc.
Qed.

Lemma measure_re_head :
  exists r, measure_re = Re.Seq (Re.plus Py.is_digit) r.
Proof. eexists. reflexivity. Qed.

Lemma quantity_re_head :
  exists r, quantity_re = Re.Seq (Re.plus Py.is_digit) r.
Proof. eexists. reflexivity. Qed.

(** A text that does not start with a digit has no quantity prefix. *)
Lemma match_no_digit (r0 r : Re.regex) (a : ascii) (s : list ascii) :
  r0 = Re.Seq (Re.plus Py.is_digit) r -> Py.is_digit a = false ->
  Re.match_here r0 (a :: s) = None.
Proof. intros -> Ha. unfold Re.match_here. now rewrite run_plus_head. Qed.

Lemma no_digit_quantity_free (t : string) :
  starts_with_digit t = false -> quantity_free t = true.
Proof.
  unfold quantity_free. destruct t as [|a t]; [reflexivity |]. cbn [starts_with_digit s2l].
  intros Ha. destruct measure_re_head as [r1 E1]. destruct quantity_re_head as [r2 E2].
  now rewrite (match_no_digit _ _ _ _ E1 Ha), (match_no_digit _ _ _ _ E2 Ha).
Qed.

(** A token of that shape without a quantity prefix goes through the
    loop unchanged. *)
Lemma clean_ingredient_fixed (t : list ascii) :
  token_shape t -> quantity_free (l2s t) = true ->
  clean_ingredient t = Some t.
Proof.
  intros [Hne Hs Hl Hn]. unfold quantity_free, clean_ingredient, Re.delete_prefix_l.
  rewrite s2l_l2s, Hs.
  destruct t as [|a t]; [contradiction |].
  destruct (Re.match_here measure_re (a :: t)); [discriminate |].
  destruct (Re.match_here quantity_re (a :: t)); [discriminate |]. intros _.
  now rewrite (delete_notes_fixed _ Hn), Hs, Hl.
Qed.

Lemma extract_fixed_token (t : list ascii) :
  token_shape t -> undelimited t -> quantity_free (l2s t) = true ->
  _extract_ingredients (l2s t) = [l2s t].
Proof.
  intros Hshape Hu Hq. pose proof (clean_ingredient_fixed t Hshape Hq) as Hc.
  destruct t as [|a t].
  - now destruct Hshape as [H _ _ _].
  - unfold _extract_ingredients. rewrite s2l_l2s.
    cbn [l2s Py.nonempty]. rewrite (split_undelimited _ [] Hu).
    cbn [rev app flat_map]. rewrite Hc. reflexivity.
Qed.

Lemma extracted_token (raw t : string) :
  In t (_extract_ingredients raw) ->
  exists t0, t = l2s t0 /\ token_shape t0 /\ undelimited t0.
Proof.
  unfold _extract_ingredients. destruct (Py.nonempty raw); [| intros []].
  rewrite in_flat_map. intros [piece [Hp Ht]].
  destruct (clean_ingredient piece) as [t0|] eqn:E; [| destruct Ht].
  destruct Ht as [<- | []]. exists t0. split; [reflexivity |].
  destruct (clean_ingredient_shape _ _ E) as [Hs Hu]. split; [exact Hs |].
  apply Hu. apply (split_pieces_undelimited (s2l raw) []); [intros c [] | exact Hp].
Qed.

End Tokens.

(** C9, as stated, fails: the quantity prefix is stripped once, so a
    token can come out of the pipeline with a quantity at its head, and
    the pipeline changes it when applied again. *)
Lemma C9_quantity_counterexample :
  In "2 gin" (DataProcessor._extract_ingredients "1 of 2 gin")
  /\ DataProcessor._extract_ingredients "2 gin" = ["gin"]
  /\ DataProcessor._extract_ingredients "2 gin" <> ["2 gin"].
Proof.
  split; [vm_compute; left; reflexivity |].
  split; [vm_compute; reflexivity | vm_compute; discriminate].
Qed.

(** C9 (amended). Every token the normalization pipeline produces on
    which neither quantity pattern matches any more is a fixed point:
    the pipeline applied to it yields the token itself and nothing else.
    By [no_digit_quantity_free] every token that does not start with a
    digit is one. *)
Theorem C9_normalization_fixed_point (raw t : string) :
  In t (DataProcessor._extract_ingredients raw) ->
  quantity_free t = true ->
  DataProcessor._extract_ingredients t = [t].
Proof.
  intros Hin Hq. destruct (extracted_token raw t Hin) as [t0 [-> [Hs Hu]]].
  now apply extract_fixed_token.
Qed.

Lemma C9_normalization_witness :
  In "mint leaves"
     (DataProcessor._extract_ingredients "2 oz White Rum, 6 Mint leaves (fresh)")
  /\ quantity_free "mint leaves" = true
  /\ DataProcessor._extract_ingredients "mint leaves" = ["mint leaves"].
Proof.
  assert (H : In "mint leaves"
                 (DataProcessor._extract_ingredients
                    "2 oz White Rum, 6 Mint leaves (fresh)")).
  { vm_compute. right. left. reflexivity. }
  split; [exact H |]. split; [reflexivity |].
  exact (C9_normalization_fixed_point _ _ H eq_refl).
Defined.

(** A token that starts with a digit and still is a fixed point. *)
Example seven_up_fixed :
  DataProcessor._extract_ingredients "1 oz 7up" = ["7up"]
  /\ quantity_free "7up" = true
  /\ DataProcessor._extract_ingredients "7up" = ["7up"].
Proof. repeat split; vm_compute; reflexivity. Qed.

(* ===================================================================== *)
(** * ResponseOrchestrator: what a request does to the favorites *)
(* ===================================================================== *)

Section Favorites.
Import Memory.

Lemma grows_refl (m : UserMemory) : grows m m.
Proof. split; reflexivity. Qed.

Lemma grows_trans (m1 m2 m3 : UserMemory) :
  grows m1 m2 -> grows m2 m3 -> grows m1 m3.
Proof. intros [A B] [C D]. split; etransitivity; eassumption. Qed.

Lemma keeps_ret {A} (a : A) : keeps (Rag.ret a).
Proof. intros m b m' H. injection H as _ <-. apply grows_refl. Qed.

Lemma keeps_call {A} (x : res A) : keeps (Rag.call x).
Proof.
  intros m b m' H. unfold Rag.call in H. destruct x; [| discriminate].
  injection H as _ <-. apply grows_refl.
Qed.

Lemma keeps_read {A} (f : UserMemory -> A) : keeps (Rag.read f).
Proof. intros m b m' H. injection H as _ <-. apply grows_refl. Qed.

Lemma keeps_bind {A B} (x : Rag.M A) (f : A -> Rag.M B) :
  keeps x -> (forall a, keeps (f a)) -> keeps (Rag.bind x f).
Proof.
  intros Hx Hf m b m' H. unfold Rag.bind in H.
  destruct (x m) as [[a m1]|] eqn:E; [| discriminate].
  eapply grows_trans; [eapply Hx, E | eapply Hf, H].
Qed.

Lemma keeps_history (r c : string) :
  keeps (Rag.update (fun m => add_to_conversation_history m r c)).
Proof. intros m b m' H. injection H as _ <-. split; reflexivity. Qed.

Lemma keeps_process (message : string) :
  keeps (Rag.method (fun m => process_user_message m message)).
Proof.
  intros m b m' H. unfold Rag.method in H.
  destruct (process_user_message m message) as [d m1] eqn:E.
  injection H as _ <-.
  pose proof (process_grows m message) as G. rewrite E in G. exact G.
Qed.

End Favorites.

(** Solves [keeps] goals by following the structure of the computation. *)
Ltac keeps_tac :=
  repeat first
    [ apply keeps_bind; [| intros ?]
    | apply keeps_ret | apply keeps_call | apply keeps_read
    | apply keeps_history | apply keeps_process
    | match goal with
      | |- keeps (match ?x with _ => _ end) => destruct x
      | |- keeps (if ?b then _ else _) => destruct b
      end ].

Section Orchestrator.
Import Memory.

Variable F : Type.
Variable similarity : F -> F.
Variable index_search : string -> nat -> res (list (F * Z)).
Variable cocktail_data : list VectorDB.Cocktail.
Variable re_compile : string -> option Re.regex.
Variable cocktails_df : DataProcessor.DataFrame.
Variable merge : DataProcessor.DataFrame -> DataProcessor.DataFrame
                 -> res DataProcessor.DataFrame.
Variable sample : nat -> DataProcessor.DataFrame -> res DataProcessor.DataFrame.
Variable llm_generate_response : string -> string -> res string.

Local Abbreviation process_general_query :=
  (Rag.process_general_query F similarity index_search cocktail_data
                             llm_generate_response).
Local Abbreviation process_preference_query :=
  (Rag.process_preference_query F similarity index_search cocktail_data
                                llm_generate_response).
Local Abbreviation generate_response :=
  (Rag.generate_response F similarity index_search cocktail_data re_compile
                         cocktails_df merge sample llm_generate_response).
Local Abbreviation chat :=
  (Routes.chat F similarity index_search cocktail_data re_compile
               cocktails_df merge sample llm_generate_response).
Local Abbreviation dispatch_here :=
  (dispatch F similarity index_search cocktail_data re_compile
            cocktails_df merge sample llm_generate_response).

Lemma keeps_answer (query prompt : string) :
  keeps (Rag.answer llm_generate_response query prompt).
Proof. unfold Rag.answer. keeps_tac. Qed.

Lemma keeps_ingredient_query (query : string) :
  keeps (Rag.process_ingredient_query cocktails_df merge llm_generate_response query).
Proof. unfold Rag.process_ingredient_query. keeps_tac; apply keeps_answer. Qed.

Lemma keeps_cocktail_query (query : string) :
  keeps (Rag.process_cocktail_query re_compile cocktails_df
                                    llm_generate_response query).
Proof. unfold Rag.process_cocktail_query. keeps_tac; apply keeps_answer. Qed.

Lemma keeps_recommendation_query (query : string) :
  keeps (Rag.process_recommendation_query
           F similarity index_search cocktail_data re_compile cocktails_df
           sample llm_generate_response query).
Proof.
  unfold Rag.process_recommendation_query, Rag.recommend_similar_or_popular.
  keeps_tac; apply keeps_answer.
Qed.

Lemma keeps_general_query (query : string) : keeps (process_general_query query).
Proof. unfold Rag.process_general_query. keeps_tac. Qed.

Lemma keeps_preference_query (query : string) :
  keeps (process_preference_query query).
Proof.
  unfold Rag.process_preference_query.
  keeps_tac; first [apply keeps_answer | apply keeps_general_query].
Qed.

Lemma generate_response_steps (query : string) (m : UserMemory) :
  generate_response query m
  = dispatch_here query (snd (process_user_message m query)).
Proof.
  unfold Rag.generate_response, Rag.bind, Rag.method, dispatch.
  now destruct (process_user_message m query).
Qed.

Lemma keeps_dispatch (query : string) : keeps (dispatch_here query).
Proof.
  unfold dispatch. cbv zeta.
  keeps_tac;
    first [ apply keeps_ingredient_query | apply keeps_cocktail_query
          | apply keeps_recommendation_query | apply keeps_preference_query
          | apply keeps_general_query ].
Qed.

(** After a request everything its message mentions is a favorite. *)
Lemma generate_response_covers (query response : string) (m m' : UserMemory) :
  generate_response query m = Ret (response, m') ->
  (forall i, In i (detect_favorite_ingredients query) ->
             i ∈ favorite_ingredients m')
  /\ (forall c, In c (detect_favorite_cocktails query) ->
                c ∈ favorite_cocktails m').
Proof.
  rewrite generate_response_steps. intros H.
  apply keeps_dispatch in H. destruct H as [Hi Hc].
  destruct (process_covers m query) as [Ci Cc].
  split; intros x Hx; [apply Hi, Ci, Hx | apply Hc, Cc, Hx].
Qed.

Lemma list_mem_elements (x : string) (s : gset string) :
  Routes.list_mem x (elements s) = true <-> x ∈ s.
Proof.
  unfold Routes.list_mem. rewrite existsb_exists, <- elem_of_elements. split.
  - intros [y [Hy E]]. apply String.eqb_eq in E. subst y.
    now apply list_elem_of_In.
  - intros H. exists x. split; [now apply list_elem_of_In | apply String.eqb_refl].
Qed.

Lemma filter_all {A} (f : A -> bool) (l : list A) :
  (forall x, In x l -> f x = true) -> List.filter f l = l.
Proof.
  induction l as [|a l IH]; intros H; simpl; [reflexivity |].
  rewrite (H a) by now left. f_equal. apply IH. intros x Hx. apply H. now right.
Qed.

Lemma chat_steps (message : string) (m m' : UserMemory)
      (resp : Routes.ChatResponse) :
  chat message m = Ret (resp, m') ->
  generate_response message m = Ret (Routes.response resp, m')
  /\ Routes.pref_ingredients (Routes.detected_preferences resp)
     = List.filter (fun i => Routes.list_mem i (get_favorite_ingredients m'))
                   (detect_favorite_ingredients message)
  /\ Routes.pref_cocktails (Routes.detected_preferences resp)
     = List.filter (fun c => Routes.list_mem c (get_favorite_cocktails m'))
                   (detect_favorite_cocktails message).
Proof.
  unfold Routes.chat, Rag.bind, Rag.read, Rag.ret.
  destruct (generate_response message m) as [[response m1]|]; [| discriminate].
  intros H. injection H as <- <-. repeat split.
Qed.

End Orchestrator.

(* ===================================================================== *)
(** * The chat endpoint and the preference branch *)
(* ===================================================================== *)

(** C10. For every chat request that is answered, the
    [detected_preferences] of the response are the phrases detected in
    the message that are favorites once the request has been processed;
    since processing makes every detected phrase a favorite, these are
    all the detected phrases, whether or not they were favorites before
    the request. *)
Theorem C10_detected_preferences_after_update
        (F : Type) (similarity : F -> F)
        (index_search : string -> nat -> res (list (F * Z)))
        (cocktail_data : list VectorDB.Cocktail)
        (re_compile : string -> option Re.regex)
        (cocktails_df : DataProcessor.DataFrame)
        (merge : DataProcessor.DataFrame -> DataProcessor.DataFrame
                 -> res DataProcessor.DataFrame)
        (sample : nat -> DataProcessor.DataFrame -> res DataProcessor.DataFrame)
        (llm_generate_response : string -> string -> res string)
        (message : string) (m m' : Memory.UserMemory) (resp : Routes.ChatResponse) :
  Routes.chat F similarity index_search cocktail_data re_compile cocktails_df
              merge sample llm_generate_response message m = Ret (resp, m') ->
  (Routes.pref_ingredients (Routes.detected_preferences resp)
   = List.filter (fun i => bool_decide (i ∈ Memory.favorite_ingredients m'))
                 (Memory.detect_favorite_ingredients message)
   /\ Routes.pref_cocktails (Routes.detected_preferences resp)
      = List.filter (fun c => bool_decide (c ∈ Memory.favorite_cocktails m'))
                    (Memory.detect_favorite_cocktails message))
  /\ (Routes.pref_ingredients (Routes.detected_preferences resp)
      = Memory.detect_favorite_ingredients message
      /\ Routes.pref_cocktails (Routes.detected_preferences resp)
         = Memory.detect_favorite_cocktails message).
Proof.
  intros H. apply chat_steps in H. destruct H as (Hgen & Hi & Hc).
  apply generate_response_covers in Hgen. destruct Hgen as [Ci Cc].
  rewrite Hi, Hc. unfold Memory.get_favorite_ingredients, Memory.get_favorite_cocktails.
  split; split.
  - apply filter_ext. intros i. apply eq_true_iff_eq.
    now rewrite list_mem_elements, bool_decide_eq_true.
  - apply filter_ext. intros c. apply eq_true_iff_eq.
    now rewrite list_mem_elements, bool_decide_eq_true.
  - apply filter_all. intros i Hin. now apply list_mem_elements, Ci.
  - apply filter_all. intros c Hin. now apply list_mem_elements, Cc.
Qed.

(** A user whose favorite already is gin says so again and names rum as
    well: both are reported. *)
Lemma C10_detected_preferences_witness :
  exists resp m',
    demo_chat "I love gin and rum." gin_lover = Ret (resp, m')
    /\ Routes.pref_ingredients (Routes.detected_preferences resp) = ["gin"; "rum"].
Proof.
  destruct (demo_chat "I love gin and rum." gin_lover) as [[resp m']|] eqn:E;
    [| vm_compute in E; discriminate].
  exists resp, m'. split; [reflexivity |].
  exact (proj1 (proj2 (C10_detected_preferences_after_update
                         _ _ _ _ _ _ _ _ _ _ _ _ _ E))).
Defined.

Section PreferenceBranch.
Import Memory.

Variable F : Type.
Variable similarity : F -> F.
Variable index_search : string -> nat -> res (list (F * Z)).
Variable cocktail_data : list VectorDB.Cocktail.
Variable llm_generate_response : string -> string -> res string.

(** Processing the same message a second time finds nothing new. *)
Lemma second_pass_finds_nothing (m : UserMemory) (query : string) :
  fst (process_user_message (after_step_1 m query) query)
  = {| new_favorite_ingredients := []; new_favorite_cocktails := [] |}.
Proof.
  destruct (process_covers m query) as [Ci Cc].
  apply process_known_cocktails; assumption.
Qed.

(** Reached from [generate_response], the preference branch of a
    message that does not ask to recall always ends in the general
    branch: its own detection pass comes second. *)
Lemma preference_branch_falls_through (m : UserMemory) (query : string) :
  Rag.asks_to_recall query = false ->
  Rag.process_preference_query F similarity index_search cocktail_data
                               llm_generate_response query (after_step_1 m query)
  = Rag.process_general_query F similarity index_search cocktail_data
                              llm_generate_response query
                              (after_step_1 (after_step_1 m query) query).
Proof.
  intros Hr. unfold Rag.process_preference_query. rewrite Hr.
  pose proof (second_pass_finds_nothing m query) as H2.
  set (m1 := after_step_1 m query) in *.
  unfold Rag.bind, Rag.method, after_step_1.
  destruct (process_user_message m1 query) as [d m2].
  simpl in H2. subst d. reflexivity.
Qed.

End PreferenceBranch.

(** C2 (the code departs from it). The message "My favorite ingredient is
    gin." of a new user is classified [preference] and does not ask to
    recall; step (1) detects the new favorite gin; and yet the generator
    is handed the instructions of the general branch, not those that
    report gin as an updated preference. *)
Theorem C2_preference_report_not_reached :
  Rag.identify_query_type "My favorite ingredient is gin." = "preference"
  /\ Rag.asks_to_recall "My favorite ingredient is gin." = false
  /\ Memory.new_favorite_ingredients
       (fst (Memory.process_user_message Memory.fresh "My favorite ingredient is gin."))
     = ["gin"]
  /\ (exists m',
        demo_generate_response "My favorite ingredient is gin." Memory.fresh
        = Ret (Rag.general_prompt (Rag.general_context nat [] ["gin"]), m'))
  /\ Rag.general_prompt (Rag.general_context nat [] ["gin"])
     <> Rag.updated_prompt
          (Rag.updated_context
             {| Memory.new_favorite_ingredients := ["gin"];
                Memory.new_favorite_cocktails := [] |}).
Proof.
  split; [vm_compute; reflexivity |]. split; [vm_compute; reflexivity |].
  split; [vm_compute; reflexivity |]. split.
  - destruct (demo_generate_response "My favorite ingredient is gin." Memory.fresh)
      as [[response m']|] eqn:E; [| vm_compute in E; discriminate].
    exists m'. f_equal. f_equal.
    assert (H : option_map fst
                  (match demo_generate_response "My favorite ingredient is gin."
                                                Memory.fresh with
                   | Ret x => Some x | Raise => None end)
                = Some (Rag.general_prompt (Rag.general_context nat [] ["gin"])))
      by (vm_compute; reflexivity).
    rewrite E in H. simpl in H. now injection H.
  - vm_compute. discriminate.
Qed.

(* ===================================================================== *)
(** * VectorIndex: which hits a search returns *)
(* ===================================================================== *)

Section SearchResults.
Variable F : Type.
Variable similarity : F -> F.
Variable index_search : string -> nat -> res (list (F * Z)).
Variable cocktail_data : list VectorDB.Cocktail.

(** Every result is the entry at a position below the length of the
    metadata list, with the score of its distance; hits at or beyond
    that length leave no result. *)
Lemma collect_in_range (hits : list (F * Z)) (results : list (VectorDB.Scored F)) :
  VectorDB.collect F similarity cocktail_data hits = Ret results ->
  Forall2 (fun hit result =>
             VectorDB.py_index cocktail_data (snd hit)
             = Some (VectorDB.cocktail result)
             /\ VectorDB.score result = similarity (fst hit))
          (in_range cocktail_data hits) results.
Proof.
  revert results. induction hits as [|[d idx] hits IH]; intros results H.
  - injection H as <-. constructor.
  - cbn [VectorDB.collect] in H. unfold in_range. cbn [List.filter snd].
    destruct (idx <? Z.of_nat (length cocktail_data))%Z.
    + destruct (VectorDB.py_index cocktail_data idx) as [c|] eqn:Ec;
        [| discriminate].
      destruct (VectorDB.collect F similarity cocktail_data hits) as [rest|];
        [| discriminate].
      injection H as <-. constructor; [split; [exact Ec | reflexivity] |].
      now apply IH.
    + now apply IH.
Qed.

Lemma search_cocktails_in_range (query : string) (top_k : nat)
      (results : list (VectorDB.Scored F)) :
  VectorDB.search_cocktails F similarity index_search cocktail_data query top_k
  = Ret results ->
  exists hits,
    index_search query top_k = Ret hits
    /\ Forall2 (fun hit result =>
                  VectorDB.py_index cocktail_data (snd hit)
                  = Some (VectorDB.cocktail result)
                  /\ VectorDB.score result = similarity (fst hit))
               (in_range cocktail_data hits) results.
Proof.
  unfold VectorDB.search_cocktails, res_bind.
  destruct (index_search query top_k) as [hits|]; [| discriminate].
  intros H. exists hits. split; [reflexivity | now apply collect_in_range].
Qed.

End SearchResults.

(** A negative position passes the guard and is read from the end of
    the metadata list. *)
Example padded_hit_reads_last_entry :
  VectorDB.collect nat (fun d => d)
                   (VectorDB.get_cocktails_for_embedding [lemonade; mojito])
                   [(7, (-1)%Z); (9, 2%Z)]
  = Ret [ {| VectorDB.cocktail := VectorDB.cocktail_of_row 1 mojito;
             VectorDB.score := 7 |} ].
Proof. vm_compute. reflexivity. Qed.

(* ===================================================================== *)
(** * CorpusStore: further properties *)
(* ===================================================================== *)

Section Alternation.

Lemma match_here_alt (r1 r2 : Re.regex) (s : list ascii) :
  Re.match_here (Re.Alt r1 r2) s
  = Re.or_else (Re.match_here r1 s) (Re.match_here r2 s).
Proof. reflexivity. Qed.

Lemma found_l_alt (r1 r2 : Re.regex) (s : list ascii) :
  found_l (Re.Alt r1 r2) s = found_l r1 s || found_l r2 s.
Proof.
  unfold found_l. induction s as [|a s IH]; cbn [Re.search_l];
    rewrite match_here_alt;
    destruct (Re.match_here r1 _), (Re.match_here r2 _); simpl;
    try reflexivity; try exact IH; now rewrite orb_true_r.
Qed.

Lemma found_l_never (s : list ascii) : found_l (Re.Cls (fun _ => false)) s = false.
Proof. unfold found_l. induction s as [|a s IH]; [reflexivity | exact IH]. Qed.

Lemma found_l_alts (rs : list Re.regex) (s : list ascii) :
  found_l (Re.alts rs) s = existsb (fun r => found_l r s) rs.
Proof.
  induction rs as [|r [|r' rs] IH].
  - apply found_l_never.
  - simpl. now rewrite orb_false_r.
  - change (Re.alts (r :: r' :: rs)) with (Re.Alt r (Re.alts (r' :: rs))).
    rewrite found_l_alt, IH. reflexivity.
Qed.

(** A search for one of several words, letter case ignored, succeeds
    exactly when one of them occurs in the text. *)
Lemma found_words_i (ws : list string) (s : string) :
  Re.found (Re.words true ws) s
  = existsb (fun w => Py.str_in (Py.lower w) (Py.lower s)) ws.
Proof.
  change (Re.found (Re.words true ws) s)
    with (found_l (Re.alts (map (Re.lit true) ws)) (s2l s)).
  rewrite found_l_alts. induction ws as [|w ws IH]; [reflexivity |].
  cbn [map existsb]. rewrite IH. f_equal. apply (found_lit_i w s).
Qed.

Lemma keywords_lower (w : string) :
  In w non_alcoholic_keywords -> Py.lower w = w.
Proof.
  intros H. repeat (destruct H as [<- | H]; [reflexivity |]). destruct H.
Qed.

End Alternation.

(** X1. A record of the cleaned corpus is listed as non-alcoholic exactly
    when its raw ingredient text, lowercased, contains one of the five
    keywords. *)
Theorem non_alcoholic_iff_keyword
        (rows : list DataProcessor.RawRow) (r : DataProcessor.Row) :
  In r (DataProcessor.get_non_alcoholic_cocktails (DataProcessor._clean_data rows))
  <-> exists raw,
        In raw rows /\ r = DataProcessor.clean_row raw
        /\ exists keyword,
             In keyword non_alcoholic_keywords
             /\ substring keyword (Py.lower (DataProcessor.raw_ingredients raw)).
Proof.
  unfold DataProcessor.get_non_alcoholic_cocktails, DataProcessor._clean_data.
  rewrite filter_In, in_map_iff, negb_true_iff. split.
  - intros [[raw [<- Hraw]] Hflag]. exists raw. split; [exact Hraw |].
    split; [reflexivity |].
    cbn [DataProcessor.clean_row DataProcessor.is_alcoholic] in Hflag.
    rewrite negb_false_iff in Hflag.
    unfold DataProcessor.non_alcoholic_re in Hflag.
    rewrite found_words_i, existsb_exists in Hflag.
    destruct Hflag as [w [Hw Hin]]. exists w. split; [exact Hw |].
    rewrite (keywords_lower w Hw), lower_idem in Hin. now apply str_in_spec.
  - intros [raw [Hraw [-> [w [Hw Hsub]]]]]. split; [now exists raw |].
    cbn [DataProcessor.clean_row DataProcessor.is_alcoholic].
    rewrite negb_false_iff. unfold DataProcessor.non_alcoholic_re.
    rewrite found_words_i, existsb_exists. exists w. split; [exact Hw |].
    rewrite (keywords_lower w Hw), lower_idem. now apply str_in_spec.
Qed.

(** X2. Every token [_extract_ingredients] returns is non-empty,
    lowercase and trimmed, holds no comma, semicolon or line feed, and
    has no parenthetical note left in it. *)
Theorem extracted_tokens_are_normal (raw t : string) :
  In t (DataProcessor._extract_ingredients raw) ->
  t <> EmptyString
  /\ Py.lower t = t
  /\ Py.strip t = t
  /\ (forall c, In c (s2l t) -> is_delim c = false)
  /\ has_note (s2l t) = false.
Proof.
  intros H. destruct (extracted_token raw t H) as [t0 [-> [[Hne Hs Hl Hn] Hu]]].
  unfold Py.lower, Py.strip. rewrite !s2l_l2s, Hs, Hl.
  repeat split; try assumption.
  intros E. destruct t0; [now apply Hne | discriminate].
Qed.

Lemma extracted_tokens_are_normal_witness :
  In "mint leaves"
     (DataProcessor._extract_ingredients "2 oz White Rum; 6 Mint leaves (fresh) ")
  /\ Py.strip "mint leaves" = "mint leaves".
Proof.
  assert (H : In "mint leaves"
                 (DataProcessor._extract_ingredients
                    "2 oz White Rum; 6 Mint leaves (fresh) ")).
  { vm_compute. right. left. reflexivity. }
  split; [exact H |].
  exact (proj1 (proj2 (proj2 (extracted_tokens_are_normal _ _ H)))).
Defined.

(** X3. [get_all_ingredients] lists exactly the tokens that occur in the
    ingredient list of some record, each of them once. *)
Theorem all_ingredients_exact (cocktails_df : DataProcessor.DataFrame) (i : string) :
  (In i (DataProcessor.get_all_ingredients cocktails_df)
   <-> exists row, In row cocktails_df /\ In i (DataProcessor.ingredients_list row))
  /\ List.NoDup (DataProcessor.get_all_ingredients cocktails_df).
Proof.
  unfold DataProcessor.get_all_ingredients. split.
  - rewrite <- list_elem_of_In, elem_of_elements, elem_of_list_to_set,
      list_elem_of_In, in_flat_map. reflexivity.
  - apply NoDup_ListNoDup, NoDup_elements.
Qed.

(** X4. The list prepared for embedding is aligned with the corpus:
    it has as many entries as the corpus has rows, and entry [i] is built
    from row [i] and carries the id [i]. *)
Theorem embedding_list_aligned (cocktails_df : DataProcessor.DataFrame) :
  length (VectorDB.get_cocktails_for_embedding cocktails_df) = length cocktails_df
  /\ forall i,
      nth_error (VectorDB.get_cocktails_for_embedding cocktails_df) i
      = option_map (VectorDB.cocktail_of_row i) (nth_error cocktails_df i).
Proof.
  unfold VectorDB.get_cocktails_for_embedding.
  assert (H : forall df k,
             length (VectorDB.cocktails_from k df) = length df
             /\ forall i, nth_error (VectorDB.cocktails_from k df) i
                          = option_map (VectorDB.cocktail_of_row (k + i))
                                       (nth_error df i)).
  { induction df as [|row df IH]; intros k; simpl.
    - split; [reflexivity |]. intros i. now destruct i.
    - destruct (IH (S k)) as [Hl Hn]. split; [now rewrite Hl |].
      intros [|i]; simpl; [now rewrite Nat.add_0_r |].
      rewrite Hn. now rewrite Nat.add_succ_r. }
  exact (H cocktails_df 0).
Qed.

Section ByNameFacts.
Import DataProcessor.
Variable re_compile : string -> option Re.regex.

Lemma filter_nil_iff {A} (f : A -> bool) (l : list A) :
  List.filter f l = [] <-> forall x, In x l -> f x = false.
Proof.
  induction l as [|a l IH]; simpl.
  - split; [intros _ x [] | reflexivity].
  - destruct (f a) eqn:E; split.
    + discriminate.
    + intros H. specialize (H a (or_introl eq_refl)). congruence.
    + intros H x [<- | Hx]; [exact E | now apply IH].
    + intros H. apply IH. intros x Hx. apply H. now right.
Qed.

Lemma head_filter_In {A} (f : A -> bool) (l : list A) (x : A) :
  head (List.filter f l) = Some x -> In x l /\ f x = true.
Proof.
  intros H. apply filter_In.
  destruct (List.filter f l) as [|y t]; [discriminate |].
  injection H as ->. now left.
Qed.

Lemma by_name_exact (cocktails_df : DataFrame) (name_arg : string) (row : Row) :
  In row cocktails_df ->
  Py.lower (name row) = Py.lower name_arg ->
  get_cocktail_by_name re_compile cocktails_df name_arg
  = Ret (head (List.filter
                 (fun r => bool_decide (Py.lower (name r) = Py.lower name_arg))
                 cocktails_df))
  /\ List.filter (fun r => bool_decide (Py.lower (name r) = Py.lower name_arg))
                 cocktails_df <> [].
Proof.
  intros Hin Heq. unfold get_cocktail_by_name, first_row.
  destruct (List.filter _ cocktails_df) as [|r rs] eqn:E.
  - exfalso. pose proof (proj1 (filter_nil_iff _ _) E row Hin) as H.
    cbv beta in H. now rewrite bool_decide_eq_false in H.
  - split; [reflexivity | discriminate].
Qed.

End ByNameFacts.

(** X5. Whatever the pattern compiler does with the query: if the name
    of some record equals it, letter case ignored, the lookup returns a
    record of the corpus whose name equals the query, letter case
    ignored, and no record with such a name stands before it. *)
Theorem by_name_exact_hit
        (re_compile : string -> option Re.regex)
        (cocktails_df : DataProcessor.DataFrame) (name_arg : string)
        (row : DataProcessor.Row) :
  In row cocktails_df ->
  Py.lower (DataProcessor.name row) = Py.lower name_arg ->
  exists before r after,
    DataProcessor.get_cocktail_by_name re_compile cocktails_df name_arg
    = Ret (Some r)
    /\ cocktails_df = before ++ r :: after
    /\ Py.lower (DataProcessor.name r) = Py.lower name_arg
    /\ forall x, In x before ->
                 Py.lower (DataProcessor.name x) <> Py.lower name_arg.
Proof.
  intros Hin Heq.
  destruct (by_name_exact re_compile cocktails_df name_arg row Hin Heq) as [-> _].
  clear re_compile. induction cocktails_df as [|a df IH]; [destruct Hin |].
  simpl. destruct (bool_decide (Py.lower (DataProcessor.name a) = Py.lower name_arg)) eqn:E.
  - apply bool_decide_eq_true_1 in E. exists [], a, df.
    repeat split; [exact E | intros x []].
  - apply bool_decide_eq_false_1 in E.
    destruct Hin as [-> | Hin]; [contradiction |].
    destruct (IH Hin) as (before & r & after & H1 & H2 & H3 & H4).
    exists (a :: before), r, after. rewrite H1, H2.
    repeat split; [exact H3 |]. intros x [<- | Hx]; [exact E | now apply H4].
Qed.

Lemma by_name_exact_hit_witness :
  exists before r after,
    DataProcessor.get_cocktail_by_name (fun _ => None) [virgin_mojito; mojito] "MOJITO"
    = Ret (Some r)
    /\ [virgin_mojito; mojito] = before ++ r :: after
    /\ Py.lower (DataProcessor.name r) = Py.lower "MOJITO"
    /\ forall x, In x before ->
                 Py.lower (DataProcessor.name x) <> Py.lower "MOJITO".
Proof.
  apply (by_name_exact_hit (fun _ => None) [virgin_mojito; mojito] "MOJITO" mojito).
  - right. left. reflexivity.
  - reflexivity.
Defined.

(** X6. A record the lookup returns is a record of the corpus. *)
Theorem by_name_returns_corpus_record
        (re_compile : string -> option Re.regex)
        (cocktails_df : DataProcessor.DataFrame) (name_arg : string)
        (r : DataProcessor.Row) :
  DataProcessor.get_cocktail_by_name re_compile cocktails_df name_arg = Ret (Some r) ->
  In r cocktails_df.
Proof.
  unfold DataProcessor.get_cocktail_by_name, DataProcessor.first_row.
  destruct (List.filter _ cocktails_df) as [|x xs] eqn:E.
  - destruct (re_compile (Py.lower name_arg)) as [pat|]; [| discriminate].
    intros H. injection H as H. now apply head_filter_In in H.
  - intros H. injection H as ->.
    apply (proj1 (proj1 (filter_In _ r cocktails_df) ltac:(rewrite E; now left))).
Qed.

Lemma by_name_returns_corpus_record_witness :
  DataProcessor.get_cocktail_by_name
    DataProcessor.compile_basic [virgin_mojito; mojito] "m.jito"
  = Ret (Some virgin_mojito)
  /\ In virgin_mojito [virgin_mojito; mojito].
Proof.
  assert (H : DataProcessor.get_cocktail_by_name
                DataProcessor.compile_basic [virgin_mojito; mojito] "m.jito"
              = Ret (Some virgin_mojito)) by (vm_compute; reflexivity).
  split; [exact H |].
  exact (by_name_returns_corpus_record _ _ _ _ H).
Defined.

(** X7. The lookup fails with an error exactly when no record's name
    equals the query, letter case ignored, and the lowercased query does
    not compile as a pattern. *)
Theorem by_name_raises_iff
        (re_compile : string -> option Re.regex)
        (cocktails_df : DataProcessor.DataFrame) (name_arg : string) :
  DataProcessor.get_cocktail_by_name re_compile cocktails_df name_arg = Raise
  <-> (forall row, In row cocktails_df ->
                   Py.lower (DataProcessor.name row) <> Py.lower name_arg)
      /\ re_compile (Py.lower name_arg) = None.
Proof.
  unfold DataProcessor.get_cocktail_by_name.
  destruct (List.filter _ cocktails_df) as [|x xs] eqn:E.
  - assert (Hno : forall row, In row cocktails_df ->
                   Py.lower (DataProcessor.name row) <> Py.lower name_arg).
    { intros row Hin. pose proof (proj1 (filter_nil_iff _ _) E row Hin) as H.
      cbv beta in H. now rewrite bool_decide_eq_false in H. }
    destruct (re_compile (Py.lower name_arg)) as [pat|]; split.
    + discriminate.
    + intros [_ H]. discriminate.
    + intros _. now split.
    + reflexivity.
  - split; [discriminate |]. intros [Hno _]. exfalso.
    assert (Hx : In x (List.filter
                         (fun row => bool_decide
                            (Py.lower (DataProcessor.name row) = Py.lower name_arg))
                         cocktails_df)) by (rewrite E; now left).
    apply filter_In in Hx. destruct Hx as [Hin Hx].
    apply bool_decide_eq_true_1 in Hx. exact (Hno x Hin Hx).
Qed.

(* ===================================================================== *)
(** * PreferenceTracker: further properties *)
(* ===================================================================== *)

(** X8. Removing a favorite ingredient reports whether its lowercased,
    trimmed form was a favorite; afterwards that form is not a favorite
    and every other favorite is still there; and a removal that reports
    [False] changes nothing, not even the memory file. *)
Theorem remove_ingredient_reports_presence
        (self : Memory.UserMemory) (ingredient : string) :
  let result := Memory.remove_favorite_ingredient self ingredient in
  let item := Py.strip (Py.lower ingredient) in
  (fst result = true <-> item ∈ Memory.favorite_ingredients self)
  /\ (forall i, i ∈ Memory.favorite_ingredients (snd result)
                <-> i ∈ Memory.favorite_ingredients self /\ i <> item)
  /\ Memory.favorite_cocktails (snd result) = Memory.favorite_cocktails self
  /\ Memory.conversation_history (snd result) = Memory.conversation_history self
  /\ (fst result = false -> snd result = self).
Proof.
  cbv zeta. unfold Memory.remove_favorite_ingredient.
  destruct (bool_decide (Py.strip (Py.lower ingredient)
                         ∈ Memory.favorite_ingredients self)) eqn:E.
  - apply bool_decide_eq_true_1 in E. simpl.
    repeat split; try reflexivity; try discriminate; try (intros; assumption);
      set_solver.
  - apply bool_decide_eq_false_1 in E. simpl.
    repeat split; try reflexivity; try discriminate; try (intros; assumption);
      set_solver.
Qed.

(** X9. Cocktail favorites are kept trimmed but in the letter case they
    were given. Adding a cocktail and removing it again, blanks around
    the name aside, reports [True] and leaves the prior favorites
    without that name, whether or not it was one of them. *)
Theorem add_then_remove_cocktail
        (self : Memory.UserMemory) (added removed : string) :
  Py.strip added = Py.strip removed ->
  let result :=
    Memory.remove_favorite_cocktail
      (Memory.add_favorite_cocktail self added) removed in
  fst result = true
  /\ Memory.favorite_cocktails (snd result)
     = Memory.favorite_cocktails self ∖ {[ Py.strip added ]}
  /\ Memory.favorite_ingredients (snd result) = Memory.favorite_ingredients self.
Proof.
  intros H. cbv zeta. unfold Memory.remove_favorite_cocktail. rewrite <- H.
  rewrite bool_decide_eq_true_2 by (simpl; set_solver).
  simpl. repeat split. set_solver.
Qed.

Lemma add_then_remove_cocktail_witness :
  Py.strip " Mojito" = Py.strip "Mojito "
  /\ fst (Memory.remove_favorite_cocktail
            (Memory.add_favorite_cocktail Memory.fresh " Mojito") "Mojito ")
     = true.
Proof.
  split; [reflexivity |].
  exact (proj1 (add_then_remove_cocktail Memory.fresh " Mojito" "Mojito " eq_refl)).
Defined.

(** X10. [get_recent_conversation] with a positive limit returns the
    last [limit] messages, or all of them if there are fewer. With the
    limit 0 it returns the whole history, and with a negative limit
    [-k] the history without its first [k] messages. *)
Theorem recent_conversation_by_limit (self : Memory.UserMemory) (limit : Z) :
  Memory.get_recent_conversation self limit
  = (if (0 <? limit)%Z
     then Py.last_n (Z.to_nat limit) (Memory.conversation_history self)
     else skipn (Z.to_nat (- limit)) (Memory.conversation_history self))
  /\ Memory.get_recent_conversation self 0 = Memory.conversation_history self.
Proof.
  unfold Memory.get_recent_conversation, Py.slice_from, Py.last_n.
  split.
  - destruct (Memory.conversation_history self) as [|e h] eqn:E.
    + destruct (0 <? limit)%Z; now rewrite skipn_nil.
    + destruct (Z.ltb_spec 0 limit) as [H|H].
      * rewrite (proj2 (Z.leb_gt _ _)) by lia.
        now replace (- - limit)%Z with limit by lia.
      * now rewrite (proj2 (Z.leb_le _ _)) by lia.
  - now destruct (Memory.conversation_history self).
Qed.

Section Detection.
Import Memory.

(** A pattern fails where its continuation fails on everything that is
    left to read. *)
Lemma run_fails (r : Re.regex) :
  forall s g (k : Re.cont),
    (forall s' g', suffix_of s' s -> k s' g' = None) ->
    Re.run r s g k = None.
Proof.
  induction r as [| p | r1 IH1 r2 IH2 | r1 IH1 r2 IH2 | greedy p | r1 IH1];
    intros s g k H; simpl.
  - apply H, suffix_of_refl.
  - destruct s as [|a s]; [reflexivity |].
    destruct (p a); [| reflexivity]. apply H, suffix_of_cons, suffix_of_refl.
  - apply IH1. intros s' g' Hs'. apply IH2. intros s'' g'' Hs''.
    apply H. eapply suffix_of_trans; eassumption.
  - rewrite IH1, IH2 by assumption. reflexivity.
  - induction s as [|a s IHs]; [apply H, suffix_of_refl |].
    assert (Hs : forall s' g', suffix_of s' s -> k s' g' = None).
    { intros s' g' Hs'. apply H, suffix_of_cons, Hs'. }
    rewrite (H (a :: s) g (suffix_of_refl _)).
    destruct (p a); [| reflexivity].
    destruct greedy; rewrite (IHs Hs); reflexivity.
  - apply IH1. intros s' g' Hs'. apply H, Hs'.
Qed.

Lemma blocked_seq (s : list ascii) (r1 r2 : Re.regex) :
  blocked s r2 -> blocked s (Re.Seq r1 r2).
Proof.
  intros H s' g k Hs'. simpl. apply run_fails. intros s'' g'' Hs''.
  apply H. eapply suffix_of_trans; eassumption.
Qed.

Lemma blocked_stop (s : list ascii) :
  existsb sentence_mark s = false -> blocked s stop.
Proof.
  intros H s' g k Hs'. unfold stop. simpl.
  destruct s' as [|a s']; [reflexivity |].
  assert (Ha : sentence_mark a = false).
  { destruct (sentence_mark a) eqn:E; [| reflexivity].
    rewrite <- H. symmetry. apply existsb_exists. exists a. split; [| exact E].
    eapply suffix_of_In; [exact Hs' | now left]. }
  unfold sentence_mark in Ha. now rewrite Ha.
Qed.

Lemma findall_blocked (r : Re.regex) (s : list ascii) :
  (forall s', suffix_of s' s -> Re.match_here r s' = None) ->
  forall skip, Re.findall_l r s skip = [].
Proof.
  induction s as [|a s IH]; intros H skip.
  - destruct skip; simpl; [| reflexivity].
    now rewrite (H [] (suffix_of_refl _)).
  - assert (Hs : forall s', suffix_of s' s -> Re.match_here r s' = None).
    { intros s' Hs'. apply H, suffix_of_cons, Hs'. }
    destruct skip as [|n]; cbn [Re.findall_l].
    + rewrite (H (a :: s) (suffix_of_refl _)). apply IH, Hs.
    + apply IH, Hs.
Qed.

Lemma flat_map_nil {A B} (f : A -> list B) (l : list A) :
  (forall x, In x l -> f x = []) -> flat_map f l = [].
Proof.
  induction l as [|a l IH]; intros H; [reflexivity |]. simpl.
  rewrite (H a) by now left. apply IH. intros x Hx. apply H. now right.
Qed.

Lemma patterns_blocked (s : list ascii) :
  existsb sentence_mark s = false ->
  Forall (blocked s) ingredient_patterns /\ Forall (blocked s) cocktail_patterns.
Proof.
  intros H. pose proof (blocked_stop s H) as Hstop.
  unfold ingredient_patterns, cocktail_patterns.
  split; repeat constructor; cbn [Re.seqs]; repeat apply blocked_seq; exact Hstop.
Qed.

Lemma detect_blocked (patterns : list Re.regex) (f : string -> string)
      (message : string) :
  Forall (blocked (s2l message)) patterns ->
  flat_map (fun pattern =>
              flat_map (split_items f) (Re.findall pattern message))
           patterns = [].
Proof.
  intros H. apply flat_map_nil. intros r Hr.
  rewrite Forall_forall in H.
  specialize (H r (proj2 (list_elem_of_In _ _) Hr)).
  unfold Re.findall. rewrite findall_blocked; [reflexivity |].
  intros s' Hs'. apply H, Hs'.
Qed.

(** What a message leaves in the history and on the clock does not
    depend on what it mentions. *)
Lemma process_history (self : UserMemory) (message : string) :
  conversation_history (snd (process_user_message self message))
  = conversation_history (add_to_conversation_history self "user" message)
  /\ clock (snd (process_user_message self message)) = S (clock self).
Proof.
  unfold process_user_message.
  pose proof (note_ingredients_grow (detect_favorite_ingredients message) (self, []))
    as (_ & _ & H1 & C1).
  destruct (fold_left note_ingredient _ _) as [m1 n1].
  pose proof (note_cocktails_grow (detect_favorite_cocktails message) (m1, []))
    as (_ & _ & H2 & C2).
  destruct (fold_left note_cocktail _ _) as [m2 n2].
  simpl in H1, C1, H2, C2. cbn [snd].
  rewrite !add_history, add_clock, H2, H1, C2, C1. split; reflexivity.
Qed.

Lemma add_history_cong (m1 m2 : UserMemory) (r c : string) :
  conversation_history m1 = conversation_history m2 ->
  clock m1 = clock m2 ->
  conversation_history (add_to_conversation_history m1 r c)
  = conversation_history (add_to_conversation_history m2 r c)
  /\ clock (add_to_conversation_history m1 r c)
     = clock (add_to_conversation_history m2 r c).
Proof. intros H C. rewrite !add_history, !add_clock, H, C. split; reflexivity. Qed.

(** *** The loops, as sets *)

Lemma note_ingredients_exact (l : list string) :
  (forall i, In i l -> Py.strip (Py.lower i) = i) ->
  forall (self : UserMemory) (new : list string),
  exists added,
    snd (fold_left note_ingredient l (self, new)) = new ++ added
    /\ List.NoDup added
    /\ (forall i, In i added <-> In i l /\ i ∉ favorite_ingredients self)
    /\ favorite_ingredients (fst (fold_left note_ingredient l (self, new)))
       = favorite_ingredients self ∪ list_to_set l.
Proof.
  induction l as [|a l IH]; intros Hn self new.
  - exists []. simpl. rewrite app_nil_r. split; [reflexivity |].
    split; [constructor |].
    split; [intros i; split; [intros [] | intros [[] _]] | set_solver].
  - assert (Hl : forall i, In i l -> Py.strip (Py.lower i) = i).
    { intros i Hi. apply Hn. now right. }
    cbn [fold_left]. unfold note_ingredient at 2 4.
    destruct (bool_decide (a ∈ favorite_ingredients self)) eqn:E.
    + apply bool_decide_eq_true_1 in E.
      destruct (IH Hl self new) as (added & H1 & H2 & H3 & H4).
      exists added. rewrite H1, H4.
      split; [reflexivity |]. split; [exact H2 |]. split; [| set_solver].
      intros i. rewrite H3. split.
      * intros [Hi Hf]. split; [now right | exact Hf].
      * intros [[<- | Hi] Hf]; [contradiction | now split].
    + apply bool_decide_eq_false_1 in E.
      destruct (IH Hl (add_favorite_ingredient self a) (new ++ [a]))
        as (added & H1 & H2 & H3 & H4).
      rewrite add_ingredient_favorites, (Hn a) in H3, H4 by now left.
      exists (a :: added). rewrite H1, H4, <- app_assoc.
      split; [reflexivity |]. split; [| split; [| set_solver]].
      * constructor; [| exact H2]. intros Ha. apply H3 in Ha. set_solver.
      * intros i. split.
        -- intros [<- | Hi]; [split; [now left | exact E] |].
           apply H3 in Hi. destruct Hi as [Hi Hf]. split; [now right | set_solver].
        -- intros [[<- | Hi] Hf]; [now left |].
           destruct (decide (i = a)) as [-> | Hne]; [now left |].
           right. apply H3. split; [exact Hi | set_solver].
Qed.

Lemma note_cocktails_exact (l : list string) :
  (forall c, In c l -> Py.strip c = c) ->
  forall (self : UserMemory) (new : list string),
  exists added,
    snd (fold_left note_cocktail l (self, new)) = new ++ added
    /\ List.NoDup added
    /\ (forall c, In c added <-> In c l /\ c ∉ favorite_cocktails self)
    /\ favorite_cocktails (fst (fold_left note_cocktail l (self, new)))
       = favorite_cocktails self ∪ list_to_set l.
Proof.
  induction l as [|a l IH]; intros Hn self new.
  - exists []. simpl. rewrite app_nil_r. split; [reflexivity |].
    split; [constructor |].
    split; [intros i; split; [intros [] | intros [[] _]] | set_solver].
  - assert (Hl : forall i, In i l -> Py.strip i = i).
    { intros i Hi. apply Hn. now right. }
    cbn [fold_left]. unfold note_cocktail at 2 4.
    destruct (bool_decide (a ∈ favorite_cocktails self)) eqn:E.
    + apply bool_decide_eq_true_1 in E.
      destruct (IH Hl self new) as (added & H1 & H2 & H3 & H4).
      exists added. rewrite H1, H4.
      split; [reflexivity |]. split; [exact H2 |]. split; [| set_solver].
      intros i. rewrite H3. split.
      * intros [Hi Hf]. split; [now right | exact Hf].
      * intros [[<- | Hi] Hf]; [contradiction | now split].
    + apply bool_decide_eq_false_1 in E.
      destruct (IH Hl (add_favorite_cocktail self a) (new ++ [a]))
        as (added & H1 & H2 & H3 & H4).
      assert (Ef : favorite_cocktails (add_favorite_cocktail self a)
                   = {[ a ]} ∪ favorite_cocktails self).
      { unfold add_favorite_cocktail. simpl. now rewrite (Hn a) by now left. }
      rewrite Ef in H3, H4.
      exists (a :: added). rewrite H1, H4, <- app_assoc.
      split; [reflexivity |]. split; [| split; [| set_solver]].
      * constructor; [| exact H2]. intros Ha. apply H3 in Ha. set_solver.
      * intros c. split.
        -- intros [<- | Hi]; [split; [now left | exact E] |].
           apply H3 in Hi. destruct Hi as [Hi Hf]. split; [now right | set_solver].
        -- intros [[<- | Hi] Hf]; [now left |].
           destruct (decide (c = a)) as [-> | Hne]; [now left |].
           right. apply H3. split; [exact Hi | set_solver].
Qed.

End Detection.

(** X11. A message without a full stop or an exclamation mark states no
    preference: nothing is detected in it, processing it reports nothing
    new, and the favorites stay as they were. *)
Theorem no_sentence_mark_no_preference
        (self : Memory.UserMemory) (message : string) :
  existsb sentence_mark (s2l message) = false ->
  Memory.detect_favorite_ingredients message = []
  /\ Memory.detect_favorite_cocktails message = []
  /\ fst (Memory.process_user_message self message)
     = {| Memory.new_favorite_ingredients := [];
          Memory.new_favorite_cocktails := [] |}
  /\ Memory.favorite_ingredients (snd (Memory.process_user_message self message))
     = Memory.favorite_ingredients self
  /\ Memory.favorite_cocktails (snd (Memory.process_user_message self message))
     = Memory.favorite_cocktails self.
Proof.
  intros H. destruct (patterns_blocked _ H) as [Bi Bc].
  assert (Hi : Memory.detect_favorite_ingredients message = [])
    by (apply detect_blocked, Bi).
  assert (Hc : Memory.detect_favorite_cocktails message = [])
    by (apply detect_blocked, Bc).
  split; [exact Hi |]. split; [exact Hc |].
  destruct (process_favorites self message) as (F1 & F2 & _).
  rewrite F1, F2, Hi, Hc. unfold Memory.process_user_message. rewrite Hi, Hc.
  split; [reflexivity |]. split; reflexivity.
Qed.

Lemma no_sentence_mark_no_preference_witness :
  existsb sentence_mark (s2l "I love gin and tonic water") = false
  /\ Memory.detect_favorite_ingredients "I love gin and tonic water" = [].
Proof.
  split; [reflexivity |].
  exact (proj1 (no_sentence_mark_no_preference
                  Memory.fresh "I love gin and tonic water" eq_refl)).
Defined.

(** X12. After a message is processed the favorite ingredients are the
    previous ones together with everything detected in the message, and
    likewise the favorite cocktails. What is reported as new is, without
    repetition, exactly what was detected and was not a favorite
    before. *)
Theorem process_user_message_exact
        (self : Memory.UserMemory) (message : string) :
  let result := Memory.process_user_message self message in
  Memory.favorite_ingredients (snd result)
  = Memory.favorite_ingredients self
    ∪ list_to_set (Memory.detect_favorite_ingredients message)
  /\ Memory.favorite_cocktails (snd result)
     = Memory.favorite_cocktails self
       ∪ list_to_set (Memory.detect_favorite_cocktails message)
  /\ List.NoDup (Memory.new_favorite_ingredients (fst result))
  /\ List.NoDup (Memory.new_favorite_cocktails (fst result))
  /\ (forall i, In i (Memory.new_favorite_ingredients (fst result))
                <-> In i (Memory.detect_favorite_ingredients message)
                    /\ i ∉ Memory.favorite_ingredients self)
  /\ (forall c, In c (Memory.new_favorite_cocktails (fst result))
                <-> In c (Memory.detect_favorite_cocktails message)
                    /\ c ∉ Memory.favorite_cocktails self).
Proof.
  cbv zeta. destruct (process_favorites self message) as (F1 & F2 & F3 & F4).
  rewrite F1, F2, F3, F4.
  destruct (note_ingredients_exact (Memory.detect_favorite_ingredients message)
              (detected_ingredient_normal message) self [])
    as (ai & A1 & A2 & A3 & A4).
  pose proof (note_ingredients_grow (Memory.detect_favorite_ingredients message)
                (self, [])) as (_ & G & _).
  destruct (note_cocktails_exact (Memory.detect_favorite_cocktails message)
              (detected_cocktail_normal message)
              (fst (fold_left Memory.note_ingredient
                              (Memory.detect_favorite_ingredients message)
                              (self, []))) [])
    as (ac & B1 & B2 & B3 & B4).
  cbn [fst] in G. rewrite G in B3, B4.
  rewrite A1, A4, B1, B4. cbn [app].
  split; [reflexivity |]. split; [reflexivity |]. split; [exact A2 |].
  split; [exact B2 |]. split; [exact A3 | exact B3].
Qed.

(* ===================================================================== *)
(** * Orchestrator: what a request leaves in the memory *)
(* ===================================================================== *)

Section Invariants.
Import Memory.

Lemma bounded_add_history (m : UserMemory) (r c : string) :
  bounded (add_to_conversation_history m r c).
Proof. unfold bounded. rewrite add_history_last. apply last_n_length. Qed.

Lemma bounded_process (m : UserMemory) (message : string) :
  bounded (snd (process_user_message m message)).
Proof.
  unfold bounded. rewrite (proj1 (process_history m message)).
  apply bounded_add_history.
Qed.

Variable P : UserMemory -> Prop.
Hypothesis P_history : forall m r c, P (add_to_conversation_history m r c).
Hypothesis P_process : forall m message, P (snd (process_user_message m message)).

Lemma maintains_ret {A} (a : A) : maintains P (Rag.ret a).
Proof. intros m b m' H E. injection E as _ <-. exact H. Qed.

Lemma maintains_call {A} (x : res A) : maintains P (Rag.call x).
Proof.
  intros m b m' H E. unfold Rag.call in E. destruct x; [| discriminate].
  injection E as _ <-. exact H.
Qed.

Lemma maintains_read {A} (f : UserMemory -> A) : maintains P (Rag.read f).
Proof. intros m b m' H E. injection E as _ <-. exact H. Qed.

Lemma maintains_bind {A B} (x : Rag.M A) (f : A -> Rag.M B) :
  maintains P x -> (forall a, maintains P (f a)) -> maintains P (Rag.bind x f).
Proof.
  intros Hx Hf m b m' H E. unfold Rag.bind in E.
  destruct (x m) as [[a m1]|] eqn:Ex; [| discriminate].
  eapply Hf; [eapply Hx; [exact H | exact Ex] | exact E].
Qed.

Lemma maintains_history (r c : string) :
  maintains P (Rag.update (fun m => add_to_conversation_history m r c)).
Proof. intros m b m' _ E. injection E as _ <-. apply P_history. Qed.

Lemma maintains_process (message : string) :
  maintains P (Rag.method (fun m => process_user_message m message)).
Proof.
  intros m b m' _ E. unfold Rag.method in E.
  destruct (process_user_message m message) as [d m1] eqn:Ep.
  injection E as _ <-.
  pose proof (P_process m message) as H. now rewrite Ep in H.
Qed.

End Invariants.

(** Solves [maintains] goals by following the structure of the computation. *)
Ltac maintains_tac HH HP :=
  repeat first
    [ apply maintains_bind; [| intros ?]
    | apply maintains_ret | apply maintains_call | apply maintains_read
    | apply (maintains_history _ HH) | apply (maintains_process _ HP)
    | match goal with
      | |- maintains _ (match ?x with _ => _ end) => destruct x
      | |- maintains _ (if ?b then _ else _) => destruct b
      end ].

Section RequestInvariants.
Import Memory.

Variable F : Type.
Variable similarity : F -> F.
Variable index_search : string -> nat -> res (list (F * Z)).
Variable cocktail_data : list VectorDB.Cocktail.
Variable re_compile : string -> option Re.regex.
Variable cocktails_df : DataProcessor.DataFrame.
Variable merge : DataProcessor.DataFrame -> DataProcessor.DataFrame
                 -> res DataProcessor.DataFrame.
Variable sample : nat -> DataProcessor.DataFrame -> res DataProcessor.DataFrame.
Variable llm_generate_response : string -> string -> res string.

Variable P : UserMemory -> Prop.
Hypothesis P_history : forall m r c, P (add_to_conversation_history m r c).
Hypothesis P_process : forall m message, P (snd (process_user_message m message)).

Lemma maintains_dispatch (query : string) :
  maintains P (dispatch F similarity index_search cocktail_data re_compile
                        cocktails_df merge sample llm_generate_response query).
Proof.
  unfold dispatch, Rag.process_ingredient_query, Rag.process_cocktail_query,
    Rag.process_recommendation_query, Rag.recommend_similar_or_popular,
    Rag.process_preference_query, Rag.process_general_query, Rag.answer.
  cbv zeta. maintains_tac P_history P_process.
Qed.

(** Step (1) establishes the property and the rest maintains it. *)
Lemma after_request (query response : string) (m m' : UserMemory) :
  Rag.generate_response F similarity index_search cocktail_data re_compile
                        cocktails_df merge sample llm_generate_response query m
  = Ret (response, m') ->
  P m'.
Proof.
  rewrite generate_response_steps. intros H.
  eapply maintains_dispatch; [apply P_process | exact H].
Qed.

End RequestInvariants.

(** X14. After every request that is answered, on whichever branch, the
    history has at most 50 entries, whatever the memory was before the
    request. *)
Theorem request_leaves_history_bounded
        (F : Type) (similarity : F -> F)
        (index_search : string -> nat -> res (list (F * Z)))
        (cocktail_data : list VectorDB.Cocktail)
        (re_compile : string -> option Re.regex)
        (cocktails_df : DataProcessor.DataFrame)
        (merge : DataProcessor.DataFrame -> DataProcessor.DataFrame
                 -> res DataProcessor.DataFrame)
        (sample : nat -> DataProcessor.DataFrame -> res DataProcessor.DataFrame)
        (llm_generate_response : string -> string -> res string)
        (query response : string) (m m' : Memory.UserMemory) :
  Rag.generate_response F similarity index_search cocktail_data re_compile
                        cocktails_df merge sample llm_generate_response query m
  = Ret (response, m') ->
  length (Memory.conversation_history m') <= 50.
Proof.
  intros H.
  exact (after_request F similarity index_search cocktail_data re_compile
           cocktails_df merge sample llm_generate_response bounded
           bounded_add_history bounded_process query response m m' H).
Qed.

Lemma request_leaves_history_bounded_witness :
  exists response m',
    demo_generate_response "What cocktails contain lemon?"
                           (appends Memory.fresh sixty)
    = Ret (response, m')
    /\ length (Memory.conversation_history m') <= 50.
Proof.
  destruct (demo_generate_response "What cocktails contain lemon?"
                                   (appends Memory.fresh sixty))
    as [[response m']|] eqn:E; [| vm_compute in E; discriminate].
  exists response, m'. split; [reflexivity |].
  unfold demo_generate_response in E.
  exact (request_leaves_history_bounded _ _ _ _ _ _ _ _ _ _ _ _ _ E).
Defined.

Section Recording.
Import Memory.

Variable F : Type.
Variable similarity : F -> F.
Variable index_search : string -> nat -> res (list (F * Z)).
Variable cocktail_data : list VectorDB.Cocktail.
Variable re_compile : string -> option Re.regex.
Variable cocktails_df : DataProcessor.DataFrame.
Variable merge : DataProcessor.DataFrame -> DataProcessor.DataFrame
                 -> res DataProcessor.DataFrame.
Variable sample : nat -> DataProcessor.DataFrame -> res DataProcessor.DataFrame.
Variable llm_generate_response : string -> string -> res string.

Local Abbreviation dispatch_here :=
  (dispatch F similarity index_search cocktail_data re_compile
            cocktails_df merge sample llm_generate_response).

Lemma same_log_trans (m1 m2 m3 : UserMemory) :
  same_log m1 m2 -> same_log m2 m3 -> same_log m1 m3.
Proof. intros [A B] [C D]. split; congruence. Qed.

Lemma same_log_add (m1 m2 : UserMemory) (r c : string) :
  same_log m1 m2 ->
  same_log (add_to_conversation_history m1 r c) (add_to_conversation_history m2 r c).
Proof. intros [H C]. now apply add_history_cong. Qed.

Lemma same_log_process (m : UserMemory) (message : string) :
  same_log (snd (process_user_message m message))
           (add_to_conversation_history m "user" message).
Proof.
  destruct (process_history m message) as [H C]. split; [exact H |].
  now rewrite C, add_clock.
Qed.

Lemma same_log_appends (msgs : list (string * string)) (m1 m2 : UserMemory) :
  same_log m1 m2 -> same_log (appends m1 msgs) (appends m2 msgs).
Proof.
  revert m1 m2. induction msgs as [|rc msgs IH]; intros m1 m2 H; [exact H |].
  apply IH, same_log_add, H.
Qed.

Lemma general_query_log (query response : string) (m m' : UserMemory) :
  Rag.process_general_query F similarity index_search cocktail_data
                            llm_generate_response query m
  = Ret (response, m') ->
  same_log m' (appends m [("user", query); ("assistant", response)]).
Proof.
  unfold Rag.process_general_query, Rag.bind, Rag.call, Rag.read, Rag.method,
    Rag.update, Rag.ret.
  destruct (VectorDB.search_cocktails _ _ _ _ _ _) as [found|]; [| discriminate].
  destruct (llm_generate_response _ _) as [reply|]; [| discriminate].
  destruct (process_user_message m query) as [d m1] eqn:E.
  intros H. injection H as <- <-.
  apply (same_log_add _ _ "assistant" reply).
  pose proof (same_log_process m query) as L. now rewrite E in L.
Qed.

Lemma dispatch_general (query : string) :
  Rag.identify_query_type query = "general" ->
  dispatch_here query
  = Rag.process_general_query F similarity index_search cocktail_data
                              llm_generate_response query.
Proof. unfold dispatch. cbv zeta. intros ->. reflexivity. Qed.

Lemma dispatch_preference (query : string) :
  Rag.identify_query_type query = "preference" ->
  dispatch_here query
  = Rag.process_preference_query F similarity index_search cocktail_data
                                 llm_generate_response query.
Proof. unfold dispatch. cbv zeta. intros ->. reflexivity. Qed.

Lemma dispatch_ingredient (query : string) :
  Rag.identify_query_type query = "ingredient_query" ->
  dispatch_here query
  = Rag.process_ingredient_query cocktails_df merge llm_generate_response query.
Proof. unfold dispatch. cbv zeta. intros ->. reflexivity. Qed.

Lemma general_request_log (query response : string) (m m' : UserMemory) :
  Rag.identify_query_type query = "general" ->
  dispatch_here query (after_step_1 m query) = Ret (response, m') ->
  same_log m' (appends m [("user", query); ("user", query); ("assistant", response)]).
Proof.
  intros Hq H. rewrite (dispatch_general _ Hq) in H.
  apply general_query_log in H.
  eapply same_log_trans; [exact H |].
  apply (same_log_appends [("user", query); ("assistant", response)]).
  apply same_log_process.
Qed.

Lemma preference_request_log (query response : string) (m m' : UserMemory) :
  Rag.identify_query_type query = "preference" ->
  Rag.asks_to_recall query = false ->
  dispatch_here query (after_step_1 m query) = Ret (response, m') ->
  same_log m' (appends m [("user", query); ("user", query); ("user", query);
                          ("assistant", response)]).
Proof.
  intros Hq Hr H. rewrite (dispatch_preference _ Hq) in H.
  rewrite (preference_branch_falls_through _ _ _ _ _ _ _ Hr) in H.
  apply general_query_log in H.
  eapply same_log_trans; [exact H |].
  apply (same_log_appends [("user", query); ("assistant", response)]).
  eapply same_log_trans; [apply same_log_process |].
  apply same_log_add, same_log_process.
Qed.

End Recording.

(** X15. A request classified as general that is answered records the
    user's message twice, once in step (1) and once in the general
    branch, and then the reply: the history is what these three appends
    make of the history before the request. *)
Theorem general_request_records_message_twice
        (F : Type) (similarity : F -> F)
        (index_search : string -> nat -> res (list (F * Z)))
        (cocktail_data : list VectorDB.Cocktail)
        (re_compile : string -> option Re.regex)
        (cocktails_df : DataProcessor.DataFrame)
        (merge : DataProcessor.DataFrame -> DataProcessor.DataFrame
                 -> res DataProcessor.DataFrame)
        (sample : nat -> DataProcessor.DataFrame -> res DataProcessor.DataFrame)
        (llm_generate_response : string -> string -> res string)
        (query response : string) (m m' : Memory.UserMemory) :
  Rag.identify_query_type query = "general" ->
  Rag.generate_response F similarity index_search cocktail_data re_compile
                        cocktails_df merge sample llm_generate_response query m
  = Ret (response, m') ->
  Memory.conversation_history m'
  = Memory.conversation_history
      (appends m [("user", query); ("user", query); ("assistant", response)]).
Proof.
  intros Hq H. rewrite generate_response_steps in H.
  exact (proj1 (general_request_log _ _ _ _ _ _ _ _ _ _ _ _ _ Hq H)).
Qed.

Lemma general_request_records_message_twice_witness :
  exists response m',
    demo_generate_response "hello there" Memory.fresh = Ret (response, m')
    /\ map Memory.content (Memory.conversation_history m')
       = ["hello there"; "hello there"; response].
Proof.
  destruct (demo_generate_response "hello there" Memory.fresh)
    as [[response m']|] eqn:E; [| vm_compute in E; discriminate].
  exists response, m'. split; [reflexivity |].
  unfold demo_generate_response in E.
  rewrite (general_request_records_message_twice
             nat (fun d => d) no_hits [] DataProcessor.compile_basic [mojito]
             DataProcessor.merge whole_frame echo "hello there" response
             Memory.fresh m' eq_refl E).
  reflexivity.
Defined.

(** X16. A request classified as a preference that does not ask to
    recall, and that is answered, records the user's message three
    times (in step (1), in the preference branch and in the general
    branch it falls through to) and then the reply. *)
Theorem preference_request_records_message_thrice
        (F : Type) (similarity : F -> F)
        (index_search : string -> nat -> res (list (F * Z)))
        (cocktail_data : list VectorDB.Cocktail)
        (re_compile : string -> option Re.regex)
        (cocktails_df : DataProcessor.DataFrame)
        (merge : DataProcessor.DataFrame -> DataProcessor.DataFrame
                 -> res DataProcessor.DataFrame)
        (sample : nat -> DataProcessor.DataFrame -> res DataProcessor.DataFrame)
        (llm_generate_response : string -> string -> res string)
        (query response : string) (m m' : Memory.UserMemory) :
  Rag.identify_query_type query = "preference" ->
  Rag.asks_to_recall query = false ->
  Rag.generate_response F similarity index_search cocktail_data re_compile
                        cocktails_df merge sample llm_generate_response query m
  = Ret (response, m') ->
  Memory.conversation_history m'
  = Memory.conversation_history
      (appends m [("user", query); ("user", query); ("user", query);
                  ("assistant", response)]).
Proof.
  intros Hq Hr H. rewrite generate_response_steps in H.
  exact (proj1 (preference_request_log _ _ _ _ _ _ _ _ _ _ _ _ _ Hq Hr H)).
Qed.

Lemma preference_request_records_message_thrice_witness :
  exists response m',
    demo_generate_response "My favorite ingredient is gin." Memory.fresh
    = Ret (response, m')
    /\ map Memory.role (Memory.conversation_history m')
       = ["user"; "user"; "user"; "assistant"].
Proof.
  destruct (demo_generate_response "My favorite ingredient is gin." Memory.fresh)
    as [[response m']|] eqn:E; [| vm_compute in E; discriminate].
  exists response, m'. split; [reflexivity |].
  unfold demo_generate_response in E.
  rewrite (preference_request_records_message_thrice
             nat (fun d => d) no_hits [] DataProcessor.compile_basic [mojito]
             DataProcessor.merge whole_frame echo "My favorite ingredient is gin."
             response Memory.fresh m' eq_refl eq_refl E).
  reflexivity.
Defined.

(** X17. An ingredient question in which no ingredient can be read is
    answered with a fixed request to name one. Neither the corpus, the
    merge nor the generator is consulted, and the reply is not recorded:
    the memory is the one step (1) left. *)
Theorem ingredient_request_without_generator
        (F : Type) (similarity : F -> F)
        (index_search : string -> nat -> res (list (F * Z)))
        (cocktail_data : list VectorDB.Cocktail)
        (re_compile : string -> option Re.regex)
        (cocktails_df : DataProcessor.DataFrame)
        (merge : DataProcessor.DataFrame -> DataProcessor.DataFrame
                 -> res DataProcessor.DataFrame)
        (sample : nat -> DataProcessor.DataFrame -> res DataProcessor.DataFrame)
        (llm_generate_response : string -> string -> res string)
        (query : string) (m : Memory.UserMemory) :
  Rag.identify_query_type query = "ingredient_query" ->
  Rag.extract_ingredients_from_query query = [] ->
  Rag.generate_response F similarity index_search cocktail_data re_compile
                        cocktails_df merge sample llm_generate_response query m
  = Ret ("I couldn't identify which ingredients you're asking about. "
         +:+ "Could you specify which ingredients you're interested in?",
         after_step_1 m query).
Proof.
  intros Hq He.
  rewrite generate_response_steps, (dispatch_ingredient _ _ _ _ _ _ _ _ _ _ Hq).
  unfold Rag.process_ingredient_query. rewrite He. reflexivity.
Qed.

Lemma ingredient_request_without_generator_witness :
  Rag.identify_query_type "cocktails with ?" = "ingredient_query"
  /\ Rag.extract_ingredients_from_query "cocktails with ?" = []
  /\ demo_generate_response "cocktails with ?" Memory.fresh
     = Ret ("I couldn't identify which ingredients you're asking about. "
            +:+ "Could you specify which ingredients you're interested in?",
            after_step_1 Memory.fresh "cocktails with ?").
Proof.
  split; [reflexivity |]. split; [reflexivity |].
  exact (ingredient_request_without_generator
           nat (fun d => d) no_hits [] DataProcessor.compile_basic
           [mojito] DataProcessor.merge whole_frame echo
           "cocktails with ?" Memory.fresh eq_refl eq_refl).
Defined.

(* ===================================================================== *)
(** * VectorIndex: the outcome of a search *)
(* ===================================================================== *)

Section Gather.
Context {F A B : Type}.
Variable data : list A.
Variable make : A -> F -> B.

Lemma py_index_None (i : Z) :
  VectorDB.py_index data i = None ->
  (i < Z.of_nat (length data))%Z ->
  (i < - Z.of_nat (length data))%Z.
Proof.
  unfold VectorDB.py_index. intros H Hlt.
  destruct (Z.leb_spec 0 i) as [H0|H0].
  - apply nth_error_None in H. lia.
  - destruct (Z.leb_spec (- Z.of_nat (length data)) i) as [H1|H1]; [| exact H1].
    apply nth_error_None in H. lia.
Qed.

Lemma py_index_Some (i : Z) (a : A) :
  VectorDB.py_index data i = Some a -> (- Z.of_nat (length data) <= i)%Z.
Proof.
  unfold VectorDB.py_index. intros H.
  destruct (Z.leb_spec 0 i) as [H0|H0]; [lia |].
  destruct (Z.leb_spec (- Z.of_nat (length data)) i) as [H1|H1];
    [exact H1 | discriminate].
Qed.

Lemma gather_follows_index (hits : list (F * Z)) :
  follows_index data make hits (gather data make hits).
Proof.
  induction hits as [|[d idx] hits IH].
  - simpl. split; [intros hit [] | constructor].
  - cbn [gather]. unfold follows_index in *. cbn [List.filter snd].
    destruct (Z.ltb_spec idx (Z.of_nat (length data))) as [G|G].
    + destruct (VectorDB.py_index data idx) as [a|] eqn:Ea.
      * destruct (gather data make hits) as [rest|]; simpl.
        -- destruct IH as [Hlow Hall]. split.
           ++ intros hit [<- | Hin]; [simpl; now apply (py_index_Some _ a) |].
              now apply Hlow.
           ++ constructor; [| exact Hall]. exists a. now split.
        -- destruct IH as [hit [Hin Hlow]]. exists hit. split; [now right | exact Hlow].
      * exists (d, idx). split; [now left |]. simpl. now apply py_index_None.
    + destruct (gather data make hits) as [rest|].
      * destruct IH as [Hlow Hall]. split; [| exact Hall].
        intros hit [<- | Hin]; [simpl; lia | now apply Hlow].
      * destruct IH as [hit [Hin Hlow]]. exists hit. split; [now right | exact Hlow].
Qed.

End Gather.

Lemma collect_gather (F : Type) (similarity : F -> F)
      (cocktail_data : list VectorDB.Cocktail) (hits : list (F * Z)) :
  VectorDB.collect F similarity cocktail_data hits
  = gather cocktail_data
           (fun c d => {| VectorDB.cocktail := c; VectorDB.score := similarity d |})
           hits.
Proof.
  induction hits as [|[d idx] hits IH]; [reflexivity |].
  cbn [VectorDB.collect gather]. now rewrite IH.
Qed.

Lemma collect_ingredients_gather (F : Type) (similarity : F -> F)
      (ingredient_data : list string) (hits : list (F * Z)) :
  VectorDB.collect_ingredients F similarity ingredient_data hits
  = gather ingredient_data (fun i d => (i, similarity d)) hits.
Proof.
  induction hits as [|[d idx] hits IH]; [reflexivity |].
  cbn [VectorDB.collect_ingredients gather]. now rewrite IH.
Qed.

(** X18. When the index answers, [search_cocktails] fails with an error
    exactly if some position it returned lies before the head of the
    metadata list counted from its end. Otherwise it returns one result
    for every hit whose position is below the length of the list, in the
    order of the index: the entry at that position, a negative position
    counting from the end, with the score of the hit's distance. *)
Theorem search_cocktails_follows_index
        (F : Type) (similarity : F -> F)
        (index_search : string -> nat -> res (list (F * Z)))
        (cocktail_data : list VectorDB.Cocktail)
        (query : string) (top_k : nat) (hits : list (F * Z)) :
  index_search query top_k = Ret hits ->
  follows_index cocktail_data
                (fun c d => {| VectorDB.cocktail := c; VectorDB.score := similarity d |})
                hits
                (VectorDB.search_cocktails F similarity index_search cocktail_data
                                           query top_k).
Proof.
  intros H. unfold VectorDB.search_cocktails. rewrite H. simpl.
  rewrite collect_gather. apply gather_follows_index.
Qed.

Lemma search_cocktails_follows_index_witness :
  follows_index
    (VectorDB.get_cocktails_for_embedding [lemonade; mojito])
    (fun c d => {| VectorDB.cocktail := c; VectorDB.score := d |})
    [(7, (-1)%Z); (9, 2%Z)]
    (VectorDB.search_cocktails
       nat (fun d => d) (fun _ _ => Ret [(7, (-1)%Z); (9, 2%Z)])
       (VectorDB.get_cocktails_for_embedding [lemonade; mojito]) "mint" 2).
Proof.
  exact (search_cocktails_follows_index
           nat (fun d => d) (fun _ _ => Ret [(7, (-1)%Z); (9, 2%Z)])
           (VectorDB.get_cocktails_for_embedding [lemonade; mojito])
           "mint" 2 [(7, (-1)%Z); (9, 2%Z)] eq_refl).
Defined.

(** X19. [search_ingredients] treats the hits of the ingredient index in
    the same way: an error exactly if some position lies before the head
    of the ingredient list counted from its end, and otherwise the
    ingredient at each position below the length of the list, paired
    with the score of its distance, in the order of the index. *)
Theorem search_ingredients_follows_index
        (F : Type) (similarity : F -> F)
        (ingredient_search : string -> nat -> res (list (F * Z)))
        (ingredient_data : list string)
        (query : string) (top_k : nat) (hits : list (F * Z)) :
  ingredient_search query top_k = Ret hits ->
  follows_index ingredient_data (fun i d => (i, similarity d)) hits
                (VectorDB.search_ingredients F similarity ingredient_search
                                             ingredient_data query top_k).
Proof.
  intros H. unfold VectorDB.search_ingredients. rewrite H. simpl.
  rewrite collect_ingredients_gather. apply gather_follows_index.
Qed.

Lemma search_ingredients_follows_index_witness :
  follows_index ["lemon juice"; "mint leaves"] (fun i d => (i, d))
    [(3, 1%Z); (4, (-3)%Z)]
    (VectorDB.search_ingredients
       nat (fun d => d) (fun _ _ => Ret [(3, 1%Z); (4, (-3)%Z)])
       ["lemon juice"; "mint leaves"] "mint" 2)
  /\ VectorDB.search_ingredients
       nat (fun d => d) (fun _ _ => Ret [(3, 1%Z); (4, (-3)%Z)])
       ["lemon juice"; "mint leaves"] "mint" 2 = Raise.
Proof.
  split; [| reflexivity].
  exact (search_ingredients_follows_index
           nat (fun d => d) (fun _ _ => Ret [(3, 1%Z); (4, (-3)%Z)])
           ["lemon juice"; "mint leaves"] "mint" 2 [(3, 1%Z); (4, (-3)%Z)] eq_refl).
Defined.

(* ===================================================================== *)
(** * The endpoints for cocktails and preferences *)
(* ===================================================================== *)

Section Endpoints.
Import Memory.

Lemma filter_filter {A} (f g : A -> bool) (l : list A) :
  List.filter f (List.filter g l) = List.filter (fun x => g x && f x) l.
Proof.
  induction l as [|a l IH]; [reflexivity |]. simpl.
  destruct (g a); simpl; [destruct (f a) |]; now rewrite IH.
Qed.

Lemma by_ingredient_matching (cocktails_df : DataProcessor.DataFrame)
      (query : Routes.CocktailQuery) :
  Routes.get_cocktails_by_ingredient cocktails_df query
  = DataProcessor.head_rows (Routes.limit query)
                            (List.filter (answers_query query) cocktails_df).
Proof.
  unfold Routes.get_cocktails_by_ingredient, DataProcessor.get_cocktails_containing,
    answers_query.
  destruct (Routes.alcoholic_only query); simpl.
  - now rewrite filter_filter.
  - f_equal. apply filter_ext. intros row. now rewrite andb_true_r.
Qed.

(** What the four loops of the preference endpoints do to the memory. *)
Lemma add_ingredients_fold (l : list string) (m : UserMemory) :
  favorite_ingredients (fold_left add_favorite_ingredient l m)
  = favorite_ingredients m ∪ list_to_set (map stored_ingredient l)
  /\ favorite_cocktails (fold_left add_favorite_ingredient l m) = favorite_cocktails m.
Proof.
  revert m. induction l as [|a l IH]; intros m.
  - simpl. split; [set_solver | reflexivity].
  - cbn [fold_left map]. destruct (IH (add_favorite_ingredient m a)) as (H1 & H2).
    rewrite H1, H2, add_ingredient_favorites. unfold stored_ingredient at 2.
    split; [set_solver | reflexivity].
Qed.

Lemma add_cocktails_fold (l : list string) (m : UserMemory) :
  favorite_cocktails (fold_left add_favorite_cocktail l m)
  = favorite_cocktails m ∪ list_to_set (map Py.strip l)
  /\ favorite_ingredients (fold_left add_favorite_cocktail l m) = favorite_ingredients m.
Proof.
  revert m. induction l as [|a l IH]; intros m.
  - simpl. split; [set_solver | reflexivity].
  - cbn [fold_left map]. destruct (IH (add_favorite_cocktail m a)) as (H1 & H2).
    rewrite H1, H2.
    change (favorite_cocktails (add_favorite_cocktail m a))
      with ({[ Py.strip a ]} ∪ favorite_cocktails m).
    split; [set_solver | reflexivity].
Qed.

Lemma remove_ingredients_fold (l : list string) (m : UserMemory) :
  favorite_ingredients
    (fold_left (fun m x => snd (remove_favorite_ingredient m x)) l m)
  = favorite_ingredients m ∖ list_to_set (map stored_ingredient l)
  /\ favorite_cocktails
       (fold_left (fun m x => snd (remove_favorite_ingredient m x)) l m)
     = favorite_cocktails m.
Proof.
  revert m. induction l as [|a l IH]; intros m.
  - simpl. split; [set_solver | reflexivity].
  - cbn [fold_left map].
    destruct (IH (snd (remove_favorite_ingredient m a))) as (H1 & H2).
    rewrite H1, H2, remove_ingredient_favorites. unfold stored_ingredient at 2.
    split; [set_solver |].
    unfold remove_favorite_ingredient. now destruct (bool_decide _).
Qed.

Lemma remove_cocktails_fold (l : list string) (m : UserMemory) :
  favorite_cocktails
    (fold_left (fun m x => snd (remove_favorite_cocktail m x)) l m)
  = favorite_cocktails m ∖ list_to_set (map Py.strip l)
  /\ favorite_ingredients
       (fold_left (fun m x => snd (remove_favorite_cocktail m x)) l m)
     = favorite_ingredients m.
Proof.
  revert m. induction l as [|a l IH]; intros m.
  - simpl. split; [set_solver | reflexivity].
  - cbn [fold_left map].
    destruct (IH (snd (remove_favorite_cocktail m a))) as (H1 & H2).
    rewrite H1, H2.
    assert (E : favorite_cocktails (snd (remove_favorite_cocktail m a))
                = favorite_cocktails m ∖ {[ Py.strip a ]}).
    { unfold remove_favorite_cocktail.
      destruct (bool_decide (Py.strip a ∈ favorite_cocktails m)) eqn:D;
        [reflexivity |].
      apply bool_decide_eq_false_1 in D. simpl. set_solver. }
    rewrite E. split; [set_solver |].
    unfold remove_favorite_cocktail. now destruct (bool_decide _).
Qed.

Lemma for_each_items (f : UserMemory -> string -> UserMemory)
      (xs : option (list string)) (m : UserMemory) :
  Routes.for_each f xs m = fold_left f (items xs) m.
Proof. now destruct xs. Qed.

Lemma update_sets (update : Routes.PreferenceUpdate) (world : UserMemory) :
  let m := snd (Routes.update_user_preferences update world) in
  favorite_ingredients m
  = favorite_ingredients (Routes.get_user_memory world)
    ∪ list_to_set (map stored_ingredient (items (Routes.update_ingredients update)))
  /\ favorite_cocktails m
     = favorite_cocktails (Routes.get_user_memory world)
       ∪ list_to_set (map Py.strip (items (Routes.update_cocktails update))).
Proof.
  cbv zeta. unfold Routes.update_user_preferences. cbn [snd].
  rewrite !for_each_items.
  set (m0 := Routes.get_user_memory world).
  destruct (add_ingredients_fold (items (Routes.update_ingredients update)) m0)
    as (I1 & I2).
  destruct (add_cocktails_fold (items (Routes.update_cocktails update))
              (fold_left add_favorite_ingredient
                         (items (Routes.update_ingredients update)) m0))
    as (C1 & C2).
  rewrite C1, C2, I1, I2. split; reflexivity.
Qed.

End Endpoints.

(** X20. The by-ingredient endpoint returns an initial segment, in
    corpus order, of the records that answer the query (some token
    contains the lowercased ingredient, and the record is alcoholic if
    only such are asked for): the first [limit] of them, or all if there
    are fewer; with the limit 0 none; and with a negative limit [-k] all
    but the last [k]. *)
Theorem by_ingredient_initial_segment
        (cocktails_df : DataProcessor.DataFrame) (query : Routes.CocktailQuery) :
  let answers := List.filter (answers_query query) cocktails_df in
  let result := Routes.get_cocktails_by_ingredient cocktails_df query in
  exists rest,
    answers = result ++ rest
    /\ length result
       = (if (0 <=? Routes.limit query)%Z
          then Nat.min (Z.to_nat (Routes.limit query)) (length answers)
          else length answers - Z.to_nat (- Routes.limit query)).
Proof.
  cbv zeta. rewrite by_ingredient_matching. unfold DataProcessor.head_rows.
  set (answers := List.filter (answers_query query) cocktails_df).
  destruct (0 <=? Routes.limit query)%Z.
  - exists (skipn (Z.to_nat (Routes.limit query)) answers).
    split; [now rewrite firstn_skipn | apply length_firstn].
  - exists (skipn (length answers - Z.to_nat (- Routes.limit query)) answers).
    split; [now rewrite firstn_skipn |]. rewrite length_firstn. lia.
Qed.

(** X21. After [POST /preferences/update] the favorite ingredients are
    those of the user's file together with the lowercased, trimmed
    items of the update, and the favorite cocktails those of the file
    together with the trimmed items; the response lists exactly these;
    and the items of an absent list change nothing. *)
Theorem update_preferences_adds_items
        (update : Routes.PreferenceUpdate) (world : Memory.UserMemory) :
  let result := Routes.update_user_preferences update world in
  let before := Routes.get_user_memory world in
  Memory.favorite_ingredients (snd result)
  = Memory.favorite_ingredients before
    ∪ list_to_set (map stored_ingredient (items (Routes.update_ingredients update)))
  /\ Memory.favorite_cocktails (snd result)
     = Memory.favorite_cocktails before
       ∪ list_to_set (map Py.strip (items (Routes.update_cocktails update)))
  /\ (forall i, In i (Routes.response_ingredients (fst result))
                <-> i ∈ Memory.favorite_ingredients (snd result))
  /\ (forall c, In c (Routes.response_cocktails (fst result))
                <-> c ∈ Memory.favorite_cocktails (snd result)).
Proof.
  cbv zeta. destruct (update_sets update world) as (H1 & H2).
  split; [exact H1 |]. split; [exact H2 |].
  unfold Routes.update_user_preferences, Routes.preference_response,
    Memory.get_favorite_ingredients, Memory.get_favorite_cocktails.
  cbn [fst snd Routes.response_ingredients Routes.response_cocktails].
  split; intros x; now rewrite <- list_elem_of_In, elem_of_elements.
Qed.

(** X22. [POST /preferences/update] adds nothing twice: an update all
    of whose items, in the form they are stored in, already are
    favorites of the memory loaded for the request leaves both sets of
    favorites as they were loaded. *)
Theorem update_preferences_idempotent
        (update : Routes.PreferenceUpdate) (world : Memory.UserMemory) :
  (forall x, In x (items (Routes.update_ingredients update)) ->
             stored_ingredient x
             ∈ Memory.favorite_ingredients (Routes.get_user_memory world)) ->
  (forall c, In c (items (Routes.update_cocktails update)) ->
             Py.strip c ∈ Memory.favorite_cocktails (Routes.get_user_memory world)) ->
  let result := Routes.update_user_preferences update world in
  Memory.favorite_ingredients (snd result)
  = Memory.favorite_ingredients (Routes.get_user_memory world)
  /\ Memory.favorite_cocktails (snd result)
     = Memory.favorite_cocktails (Routes.get_user_memory world).
Proof.
  intros Hi Hc. cbv zeta. destruct (update_sets update world) as (H1 & H2).
  rewrite H1, H2. split; apply set_eq; intros y;
    rewrite elem_of_union, elem_of_list_to_set, list_elem_of_In, in_map_iff.
  - split; [| tauto]. intros [H | [x [<- Hx]]]; [exact H | now apply Hi].
  - split; [| tauto]. intros [H | [x [<- Hx]]]; [exact H | now apply Hc].
Qed.

Lemma update_preferences_idempotent_witness :
  let update :=
    {| Routes.update_user_id := "default_user";
       Routes.update_ingredients := Some [" Gin"];
       Routes.update_cocktails := None |} in
  Memory.favorite_ingredients
    (snd (Routes.update_user_preferences update gin_lover))
  = Memory.favorite_ingredients (Routes.get_user_memory gin_lover).
Proof.
  cbv zeta.
  refine (proj1 (update_preferences_idempotent
                   {| Routes.update_user_id := "default_user";
                      Routes.update_ingredients := Some [" Gin"];
                      Routes.update_cocktails := None |} gin_lover _ _)).
  - intros x [<- | []]. vm_compute. reflexivity.
  - intros c [].
Defined.

(** X23. After [POST /preferences/remove] the favorite ingredients are
    those of the memory loaded for the request without the lowercased,
    trimmed items of the update, and the favorite cocktails those of the
    loaded memory without the trimmed items. *)
Theorem remove_preferences_removes_items
        (update : Routes.PreferenceUpdate) (world : Memory.UserMemory) :
  let removed := snd (Routes.remove_user_preferences update world) in
  let before := Routes.get_user_memory world in
  Memory.favorite_ingredients removed
  = Memory.favorite_ingredients before
    ∖ list_to_set (map stored_ingredient (items (Routes.update_ingredients update)))
  /\ Memory.favorite_cocktails removed
     = Memory.favorite_cocktails before
       ∖ list_to_set (map Py.strip (items (Routes.update_cocktails update))).
Proof.
  cbv zeta. unfold Routes.remove_user_preferences. cbn [snd].
  rewrite !for_each_items.
  set (m0 := Routes.get_user_memory world).
  destruct (remove_ingredients_fold (items (Routes.update_ingredients update)) m0)
    as (I1 & I2).
  destruct (remove_cocktails_fold (items (Routes.update_cocktails update))
              (fold_left (fun m x => snd (Memory.remove_favorite_ingredient m x))
                         (items (Routes.update_ingredients update)) m0))
    as (C1 & C2).
  rewrite C1, C2, I1, I2. split; reflexivity.
Qed.

(* ===================================================================== *)
(** * EntityExtractor, the limit of a listing, and the generator *)
(* ===================================================================== *)

Section Entities.

Lemma lower_nonempty (s : string) :
  Py.nonempty s = true -> Py.lower s <> EmptyString.
Proof. destruct s; [discriminate |]. intros _. discriminate. Qed.

Lemma split_items_lower_nonempty (text i : string) :
  In i (Memory.split_items Py.lower text) -> i <> EmptyString.
Proof.
  unfold Memory.split_items. rewrite in_map_iff. intros [x [<- Hx]].
  apply filter_In in Hx. now apply lower_nonempty.
Qed.

Lemma search_no_digit (s : list ascii) :
  existsb Py.is_digit s = false -> Re.search_l Rag.limit_re s = None.
Proof.
  induction s as [|a s IH]; intros H; [reflexivity |].
  simpl in H. apply orb_false_iff in H. destruct H as [Ha Hs].
  cbn [Re.search_l]. rewrite (IH Hs).
  unfold Re.match_here, Rag.limit_re. cbn [Re.seqs Re.plus Re.run].
  now rewrite Ha.
Qed.

End Entities.

(** X24. Every ingredient read from a query is non-empty and in the
    form in which favorites and corpus tokens are compared, lowercase
    and trimmed; a cocktail name read from a query is trimmed. *)
Theorem extracted_entities_are_trimmed (query : string) :
  (forall i, In i (Rag.extract_ingredients_from_query query) ->
             i <> EmptyString /\ Py.strip (Py.lower i) = i)
  /\ (forall n, Rag.extract_cocktail_from_query query = Some n -> Py.strip n = n).
Proof.
  unfold Rag.extract_ingredients_from_query, Rag.extract_cocktail_from_query. split.
  - intros i. destruct (Rag.first_search Rag.ingredient_extractors query) as [m|];
      [| intros []].
    intros H. split; [now apply split_items_lower_nonempty in H |].
    now apply split_items_lower_normal in H.
  - intros n. destruct (Rag.first_search Rag.cocktail_extractors query) as [m|];
      [| discriminate].
    intros H. injection H as <-. apply strip_idem.
Qed.

(** X25. A query without a digit asks for no particular number of
    cocktails: the listing is limited to the default, 5. *)
Theorem query_limit_default (query : string) :
  existsb Py.is_digit (s2l query) = false -> Rag.query_limit query = 5.
Proof.
  intros H. unfold Rag.query_limit, Re.search. now rewrite search_no_digit.
Qed.

Lemma query_limit_default_witness :
  existsb Py.is_digit (s2l "show me cocktails with gin") = false
  /\ Rag.query_limit "show me cocktails with gin" = 5.
Proof.
  split; [reflexivity |].
  exact (query_limit_default "show me cocktails with gin" eq_refl).
Defined.

(** X26. The generator is sent the system prompt first and the user's
    input last. Of the chat history only the entries of the roles
    [user] and [assistant] are sent: an entry of any other role can be
    left out of the history, and an empty history is the same as none. *)
Theorem llm_ignores_other_roles
        (invoke : list Llm.Message -> res string)
        (user_input system_prompt role content : string)
        (earlier later : list (string * string)) :
  role <> "user" -> role <> "assistant" ->
  Llm.generate_response invoke user_input system_prompt
                        (Some (earlier ++ (role, content) :: later))
  = Llm.generate_response invoke user_input system_prompt (Some (earlier ++ later))
  /\ Llm.generate_response invoke user_input system_prompt (Some [])
     = Llm.generate_response invoke user_input system_prompt None
  /\ exists sent,
       Llm.generate_response invoke user_input system_prompt (Some (earlier ++ later))
       = invoke (Llm.SystemMessage system_prompt :: sent
                 ++ [Llm.HumanMessage user_input])
       /\ length sent <= length (earlier ++ later).
Proof.
  intros Hu Ha. unfold Llm.generate_response.
  assert (E : Llm.message_of (role, content) = []).
  { unfold Llm.message_of.
    destruct (String.eqb_spec role "user") as [->|_]; [contradiction |].
    destruct (String.eqb_spec role "assistant") as [->|_]; [contradiction |].
    reflexivity. }
  split; [| split].
  - rewrite !flat_map_app. cbn [flat_map]. now rewrite E.
  - reflexivity.
  - exists (flat_map Llm.message_of (earlier ++ later)). split; [reflexivity |].
    generalize (earlier ++ later). intros h.
    induction h as [|[r c] h IH]; [simpl; lia |].
    cbn [flat_map]. rewrite length_app. unfold Llm.message_of at 1.
    destruct (String.eqb r "user"); [simpl; lia |].
    destruct (String.eqb r "assistant"); simpl; lia.
Qed.

Lemma llm_ignores_other_roles_witness :
  Llm.generate_response (fun messages => Ret (Py.str_of_nat (length messages)))
                        "And with gin?" "You are a bartender."
                        (Some ([("user", "Hi")] ++ ("system", "Be brief")
                                 :: [("assistant", "Hello")]))
  = Llm.generate_response (fun messages => Ret (Py.str_of_nat (length messages)))
                          "And with gin?" "You are a bartender."
                          (Some ([("user", "Hi")] ++ [("assistant", "Hello")])).
Proof.
  apply (llm_ignores_other_roles
           (fun messages => Ret (Py.str_of_nat (length messages)))
           "And with gin?" "You are a bartender." "system" "Be brief"
           [("user", "Hi")] [("assistant", "Hello")]); discriminate.
Defined.

(** X27. For a name that some record of the corpus bears, letter case
    ignored, the search for similar cocktails is the search by
    ingredients with the tokens of a record of that name; the pattern
    compiler is not consulted. *)
Theorem similar_cocktails_of_known_name
        (F : Type) (similarity : F -> F)
        (index_search : string -> nat -> res (list (F * Z)))
        (cocktail_data : list VectorDB.Cocktail)
        (re_compile : string -> option Re.regex)
        (cocktails_df : DataProcessor.DataFrame)
        (cocktail_name : string) (top_k : nat) (row : DataProcessor.Row) :
  In row cocktails_df ->
  Py.lower (DataProcessor.name row) = Py.lower cocktail_name ->
  exists r,
    In r cocktails_df
    /\ Py.lower (DataProcessor.name r) = Py.lower cocktail_name
    /\ VectorDB.get_similar_cocktails F similarity index_search cocktail_data
                                      re_compile cocktails_df cocktail_name top_k
       = VectorDB.get_cocktails_with_ingredients
           F similarity index_search cocktail_data
           (DataProcessor.ingredients_list r) top_k.
Proof.
  intros Hin Heq.
  destruct (by_name_exact re_compile cocktails_df cocktail_name row Hin Heq)
    as [E Hne].
  destruct (List.filter _ cocktails_df) as [|r rs] eqn:Ef; [contradiction |].
  assert (Hr : In r (List.filter
                       (fun x => bool_decide
                          (Py.lower (DataProcessor.name x) = Py.lower cocktail_name))
                       cocktails_df)) by (rewrite Ef; now left).
  apply filter_In in Hr. destruct Hr as [Hr1 Hr2].
  apply bool_decide_eq_true_1 in Hr2.
  exists r. split; [exact Hr1 |]. split; [exact Hr2 |].
  unfold VectorDB.get_similar_cocktails. rewrite E. reflexivity.
Qed.

Lemma similar_cocktails_of_known_name_witness :
  exists r,
    In r [virgin_mojito; mojito]
    /\ Py.lower (DataProcessor.name r) = Py.lower "MOJITO"
    /\ VectorDB.get_similar_cocktails nat (fun d => d) no_hits []
                                      (fun _ => None) [virgin_mojito; mojito]
                                      "MOJITO" 5
       = VectorDB.get_cocktails_with_ingredients
           nat (fun d => d) no_hits [] (DataProcessor.ingredients_list r) 5.
Proof.
  apply (similar_cocktails_of_known_name
           nat (fun d => d) no_hits [] (fun _ => None) [virgin_mojito; mojito]
           "MOJITO" 5 mojito).
  - right. left. reflexivity.
  - reflexivity.
Defined.

(* ===================================================================== *)
(** * VectorIndex: the scores *)
(* ===================================================================== *)

Section Rounding.
Local Open Scope Z_scope.

Lemma div_ratio_mono (a1 b1 a2 b2 : Z) :
  0 < b1 -> 0 < b2 -> a1 * b2 <= a2 * b1 -> a1 / b1 <= a2 / b2.
Proof.
  intros H1 H2 H.
  apply Z.div_le_lower_bound; [exact H2 |].
  pose proof (Z.mul_div_le a1 b1 H1) as Hq.
  assert (Hb : b1 * (b2 * (a1 / b1)) <= b1 * a2) by nia.
  apply (Z.mul_le_mono_pos_l _ _ b1); assumption.
Qed.

Lemma rne_floor (a b : Z) : 0 < b -> a / b <= Fp.rne a b <= a / b + 1.
Proof.
  intros H. unfold Fp.rne. cbv zeta.
  destruct (2 * (a mod b) ?= b); [destruct (Z.even (a / b)) | |]; lia.
Qed.

Lemma rne_exact (m b : Z) : 0 < b -> Fp.rne (m * b) b = m.
Proof.
  intros H. unfold Fp.rne. cbv zeta.
  rewrite Z.div_mul, Z.mod_mul by lia.
  now destruct (Z.compare_spec (2 * 0) b); try lia.
Qed.

(** Rounding to the nearest integer keeps the order of the ratios. *)
Lemma rne_mono (a1 b1 a2 b2 : Z) :
  0 < b1 -> 0 < b2 -> a1 * b2 <= a2 * b1 -> Fp.rne a1 b1 <= Fp.rne a2 b2.
Proof.
  intros H1 H2 H.
  pose proof (div_ratio_mono a1 b1 a2 b2 H1 H2 H) as Hq.
  pose proof (Z.div_mod a1 b1 ltac:(lia)) as E1.
  pose proof (Z.div_mod a2 b2 ltac:(lia)) as E2.
  pose proof (Z.mod_pos_bound a1 b1 H1) as R1.
  pose proof (Z.mod_pos_bound a2 b2 H2) as R2.
  destruct (Z.eq_dec (a1 / b1) (a2 / b2)) as [Eq | Ne].
  - assert (Hr : (a1 mod b1) * b2 <= (a2 mod b2) * b1).
    { rewrite E1, E2, Eq in H. nia. }
    unfold Fp.rne. cbv zeta. rewrite Eq.
    destruct (Z.compare_spec (2 * (a1 mod b1)) b1) as [C1|C1|C1];
      destruct (Z.compare_spec (2 * (a2 mod b2)) b2) as [C2|C2|C2];
      destruct (Z.even (a2 / b2)); try lia; exfalso; nia.
  - pose proof (rne_floor a1 b1 H1). pose proof (rne_floor a2 b2 H2). lia.
Qed.

End Rounding.

Section Nearest.
Local Open Scope Z_scope.
Variable fmt : Fp.format.
Hypothesis prec_pos : 0 < Fp.prec fmt.

Local Abbreviation shift a b := (Z.max 0 (Z.log2 (a / b) + 1 - Fp.prec fmt)).

Lemma shift_mono (a1 b1 a2 b2 : Z) :
  0 < b1 -> 0 < b2 -> a1 * b2 <= a2 * b1 -> shift a1 b1 <= shift a2 b2.
Proof.
  intros H1 H2 H.
  pose proof (Z.log2_le_mono _ _ (div_ratio_mono a1 b1 a2 b2 H1 H2 H)). lia.
Qed.

(** The scaled ratio stays below [2 ^ prec]. *)
Lemma shift_upper (a b : Z) :
  0 <= a -> 0 < b -> a < b * 2 ^ shift a b * 2 ^ Fp.prec fmt.
Proof.
  intros Ha Hb.
  assert (Hq : 0 <= a / b) by (apply Z.div_pos; lia).
  assert (Hlt : a / b < 2 ^ (shift a b + Fp.prec fmt)).
  { destruct (Z.eq_dec (a / b) 0) as [-> | Hne].
    - apply Z.pow_pos_nonneg; lia.
    - apply Z.lt_le_trans with (2 ^ (Z.log2 (a / b) + 1)).
      + replace (Z.log2 (a / b) + 1) with (Z.succ (Z.log2 (a / b))) by lia.
        apply Z.log2_spec. lia.
      + apply Z.pow_le_mono_r; lia. }
  rewrite Z.pow_add_r in Hlt by lia.
  pose proof (Z.div_mod a b ltac:(lia)) as E.
  pose proof (Z.mod_pos_bound a b Hb) as R.
  assert (a / b + 1 <= 2 ^ shift a b * 2 ^ Fp.prec fmt) by lia.
  nia.
Qed.

(** Where bits are rounded away the scaled ratio is at least
    [2 ^ (prec - 1)]. *)
Lemma shift_lower (a b : Z) :
  0 <= a -> 0 < b -> 0 < shift a b ->
  b * 2 ^ shift a b * 2 ^ (Fp.prec fmt - 1) <= a.
Proof.
  intros Ha Hb Hs.
  assert (Es : shift a b = Z.log2 (a / b) + 1 - Fp.prec fmt) by lia.
  assert (Hq : 0 < a / b).
  { destruct (Z.eq_dec (a / b) 0) as [E | Hne].
    - rewrite E in Hs. change (Z.log2 0) with 0 in Hs. lia.
    - pose proof (Z.div_pos a b Ha Hb). lia. }
  pose proof (proj1 (Z.log2_spec _ Hq)) as Hlow.
  replace (Z.log2 (a / b)) with (shift a b + (Fp.prec fmt - 1)) in Hlow by lia.
  rewrite Z.pow_add_r in Hlow by lia.
  pose proof (Z.mul_div_le a b Hb) as Hm.
  nia.
Qed.

Lemma nearest_nonneg (a b : Z) : 0 <= a -> 0 < b -> 0 <= Fp.nearest fmt a b.
Proof.
  intros Ha Hb. unfold Fp.nearest. cbv zeta.
  assert (Hp : 0 < 2 ^ shift a b) by (apply Z.pow_pos_nonneg; lia).
  pose proof (rne_floor a (b * 2 ^ shift a b) ltac:(nia)) as [Hf _].
  assert (0 <= a / (b * 2 ^ shift a b)) by (apply Z.div_pos; nia).
  nia.
Qed.

(** Rounding into the format keeps the order of the ratios: within a
    binade because rounding to the nearest integer does, and across
    binades because a rounded significand lies between
    [2 ^ (prec - 1)] and [2 ^ prec]. *)
Lemma nearest_mono (a1 b1 a2 b2 : Z) :
  0 <= a1 -> 0 < b1 -> 0 < b2 -> a1 * b2 <= a2 * b1 ->
  Fp.nearest fmt a1 b1 <= Fp.nearest fmt a2 b2.
Proof.
  intros Ha1 H1 H2 H.
  assert (Ha2 : 0 <= a2) by nia.
  pose proof (shift_mono a1 b1 a2 b2 H1 H2 H) as He.
  unfold Fp.nearest. cbv zeta.
  set (e1 := shift a1 b1) in *. set (e2 := shift a2 b2) in *.
  assert (P1 : 0 < 2 ^ e1) by (apply Z.pow_pos_nonneg; lia).
  assert (P2 : 0 < 2 ^ e2) by (apply Z.pow_pos_nonneg; lia).
  destruct (Z.eq_dec e1 e2) as [E | Hne].
  - rewrite <- E.
    apply Z.mul_le_mono_nonneg_r; [lia |].
    apply rne_mono; nia.
  - assert (Hlt : e1 + 1 <= e2) by lia.
    assert (M1 : Fp.rne a1 (b1 * 2 ^ e1) <= 2 ^ Fp.prec fmt).
    { pose proof (rne_floor a1 (b1 * 2 ^ e1) ltac:(nia)) as [_ Hu].
      pose proof (shift_upper a1 b1 Ha1 H1) as U. fold e1 in U.
      assert (a1 / (b1 * 2 ^ e1) < 2 ^ Fp.prec fmt).
      { apply Z.div_lt_upper_bound; nia. }
      lia. }
    assert (M2 : 2 ^ (Fp.prec fmt - 1) <= Fp.rne a2 (b2 * 2 ^ e2)).
    { pose proof (rne_floor a2 (b2 * 2 ^ e2) ltac:(nia)) as [Hl _].
      pose proof (shift_lower a2 b2 Ha2 H2 ltac:(unfold e1, e2 in *; lia)) as L.
      fold e2 in L.
      assert (2 ^ (Fp.prec fmt - 1) <= a2 / (b2 * 2 ^ e2)).
      { apply Z.div_le_lower_bound; nia. }
      lia. }
    assert (E0 : 0 <= e1) by (unfold e1; lia).
    assert (Hpow : 2 ^ Fp.prec fmt * 2 ^ e1 <= 2 ^ (Fp.prec fmt - 1) * 2 ^ e2).
    { rewrite <- !Z.pow_add_r by lia. apply Z.pow_le_mono_r; lia. }
    assert (0 < 2 ^ (Fp.prec fmt - 1)) by (apply Z.pow_pos_nonneg; lia).
    nia.
Qed.

End Nearest.

Section Score.
Local Open Scope Z_scope.
Variable fmt : Fp.format.
Hypothesis prec_pos : 0 < Fp.prec fmt.
Hypothesis emax_big : 1 < Fp.emax fmt.

Local Abbreviation ones := (Fp.ones fmt).
Local Abbreviation top := (Fp.top fmt).
Local Abbreviation nearest := (Fp.nearest fmt).

Lemma ones_pos : 0 < ones.
Proof. unfold Fp.ones, Fp.emin. apply Z.pow_pos_nonneg; lia. Qed.

Lemma ones_below_top : ones < top.
Proof. unfold Fp.ones, Fp.top, Fp.emin. apply Z.pow_lt_mono_r; lia. Qed.

(** The number one is a number of the format. *)
Lemma nearest_one : nearest ones 1 = ones.
Proof.
  unfold Fp.nearest. cbv zeta. rewrite Z.div_1_r.
  assert (Hl : Z.log2 ones = - Fp.emin fmt).
  { unfold Fp.ones. apply Z.log2_pow2. unfold Fp.emin. lia. }
  rewrite Hl.
  replace (Z.max 0 (- Fp.emin fmt + 1 - Fp.prec fmt)) with (Fp.emax fmt - 2)
    by (unfold Fp.emin; lia).
  assert (E : ones = 2 ^ (Fp.prec fmt - 1) * (1 * 2 ^ (Fp.emax fmt - 2))).
  { unfold Fp.ones, Fp.emin. rewrite Z.mul_1_l, <- Z.pow_add_r by lia.
    f_equal. lia. }
  rewrite E at 1. rewrite rne_exact.
  - rewrite E. ring.
  - rewrite Z.mul_1_l. apply Z.pow_pos_nonneg; lia.
Qed.

Lemma sum_at_least_one (v : Z) : 0 <= v -> ones <= nearest (ones + v) 1.
Proof.
  intros Hv. pose proof ones_pos. rewrite <- nearest_one at 1.
  apply nearest_mono; lia.
Qed.

Lemma quotient_at_most_one (y : Z) : ones <= y -> nearest (ones * ones) y <= ones.
Proof.
  intros Hy. pose proof ones_pos.
  rewrite <- nearest_one at 3. apply nearest_mono; nia.
Qed.

Lemma units_score_range (v : Z) : 0 <= v -> 0 <= units_score fmt v <= ones.
Proof.
  intros Hv. pose proof ones_pos. pose proof (sum_at_least_one v Hv).
  unfold units_score. cbv zeta.
  destruct (top <=? nearest (ones + v) 1); [lia |]. split.
  - apply nearest_nonneg; nia.
  - now apply quotient_at_most_one.
Qed.

Lemma units_score_antitone (v1 v2 : Z) :
  0 <= v1 -> v1 <= v2 -> units_score fmt v2 <= units_score fmt v1.
Proof.
  intros H1 H12. pose proof ones_pos.
  pose proof (sum_at_least_one v1 H1) as S1.
  assert (M : nearest (ones + v1) 1 <= nearest (ones + v2) 1)
    by (apply nearest_mono; lia).
  unfold units_score. cbv zeta.
  destruct (Z.leb_spec top (nearest (ones + v1) 1)) as [T1|T1];
    destruct (Z.leb_spec top (nearest (ones + v2) 1)) as [T2|T2]; try lia.
  - apply nearest_nonneg; nia.
  - apply nearest_mono; nia.
Qed.

(** The score of a finite distance that is not negative. *)
Lemma score_finite (s : bool) (n : Z) :
  0 <= Fp.signed s n ->
  Fp.score fmt (Fp.Fin s n) = Fp.Fin false (units_score fmt (Fp.signed s n)).
Proof.
  intros Hv. pose proof ones_pos. pose proof ones_below_top.
  pose proof (sum_at_least_one _ Hv) as S.
  unfold Fp.score, Fp.one, Fp.add. cbv zeta.
  change (Fp.signed false ones) with ones.
  rewrite (proj2 (Z.eqb_neq _ _)) by lia.
  rewrite (proj2 (Z.ltb_ge _ _)) by lia.
  rewrite Z.abs_eq by lia.
  unfold Fp.round, units_score. cbv zeta.
  destruct (Z.leb_spec top (nearest (ones + Fp.signed s n) 1)) as [T|T].
  - reflexivity.
  - unfold Fp.div. rewrite (proj2 (Z.eqb_neq _ _)) by lia.
    unfold Fp.round. cbv zeta.
    pose proof (quotient_at_most_one _ S).
    rewrite (proj2 (Z.leb_gt _ _)) by lia. reflexivity.
Qed.

Lemma score_infinite : Fp.score fmt (Fp.Inf false) = Fp.Fin false 0.
Proof. reflexivity. Qed.

(** For a distance that is not negative the score lies between zero and
    one. *)
Lemma score_range (d : Fp.float) :
  Fp.leb Fp.zero d = true ->
  Fp.leb Fp.zero (Fp.score fmt d) = true
  /\ Fp.leb (Fp.score fmt d) (Fp.one fmt) = true.
Proof.
  destruct d as [| [] | s n]; try discriminate.
  - intros _. rewrite score_infinite. pose proof ones_pos.
    split; apply Z.leb_le; simpl; lia.
  - intros H. apply Z.leb_le in H. simpl in H.
    rewrite (score_finite s n H).
    pose proof (units_score_range _ H).
    split; apply Z.leb_le; simpl; lia.
Qed.

(** Of two distances that are not negative the larger has the score
    that is not larger. *)
Lemma score_antitone (d1 d2 : Fp.float) :
  Fp.leb Fp.zero d1 = true -> Fp.leb d1 d2 = true ->
  Fp.leb (Fp.score fmt d2) (Fp.score fmt d1) = true.
Proof.
  destruct d1 as [| [] | s1 n1]; try discriminate.
  - intros _. destruct d2 as [| [] | s2 n2]; try discriminate.
    intros _. reflexivity.
  - intros H1. apply Z.leb_le in H1. simpl in H1.
    destruct d2 as [| [] | s2 n2]; try discriminate.
    + intros _. rewrite score_infinite, (score_finite s1 n1 H1).
      pose proof (units_score_range _ H1). apply Z.leb_le. simpl. lia.
    + intros H12. apply Z.leb_le in H12.
      rewrite (score_finite s1 n1 H1), (score_finite s2 n2) by lia.
      apply Z.leb_le. simpl. apply units_score_antitone; lia.
Qed.

End Score.

Section ScoredResults.
Variable fmt : Fp.format.
Hypothesis prec_pos : (0 < Fp.prec fmt)%Z.
Hypothesis emax_big : (1 < Fp.emax fmt)%Z.
Variable cocktail_data : list VectorDB.Cocktail.

Local Abbreviation nonnegative := (fun hit : Fp.float * Z => Fp.leb Fp.zero (fst hit) = true).
Local Abbreviation ascending :=
  (fun a b : Fp.float * Z => Fp.leb (fst a) (fst b) = true).
Local Abbreviation descending :=
  (fun a b : VectorDB.Scored Fp.float =>
     Fp.leb (VectorDB.score b) (VectorDB.score a) = true).
Local Abbreviation scored :=
  (fun (hit : Fp.float * Z) (result : VectorDB.Scored Fp.float) =>
     VectorDB.py_index cocktail_data (snd hit) = Some (VectorDB.cocktail result)
     /\ VectorDB.score result = Fp.score fmt (fst hit)).

Lemma filter_Forall {A} (P : A -> Prop) (f : A -> bool) (l : list A) :
  Forall P l -> Forall P (List.filter f l).
Proof.
  induction 1 as [|x l Hx Hl IH]; simpl; [constructor |].
  destruct (f x); [constructor; assumption | exact IH].
Qed.

Lemma filter_StronglySorted {A} (R : A -> A -> Prop) (f : A -> bool) (l : list A) :
  StronglySorted R l -> StronglySorted R (List.filter f l).
Proof.
  induction 1 as [|x l Hl IH Hx]; simpl; [constructor |].
  destruct (f x); [constructor; [exact IH | now apply filter_Forall] | exact IH].
Qed.

(** Results computed from hits that are not negative, one by one. *)
Lemma scored_range (hits : list (Fp.float * Z))
      (results : list (VectorDB.Scored Fp.float)) :
  Forall2 scored hits results ->
  Forall nonnegative hits ->
  Forall (fun result =>
            Fp.leb Fp.zero (VectorDB.score result) = true
            /\ Fp.leb (VectorDB.score result) (Fp.one fmt) = true)
         results.
Proof.
  induction 1 as [|hit result hits results [_ Hs] _ IH]; intros Hn; [constructor |].
  inversion Hn as [|? ? Hhit Hrest]; subst.
  constructor; [| now apply IH].
  rewrite Hs. now apply score_range.
Qed.

Lemma scored_below (hit : Fp.float * Z) (result : VectorDB.Scored Fp.float)
      (hits : list (Fp.float * Z)) (results : list (VectorDB.Scored Fp.float)) :
  scored hit result -> nonnegative hit ->
  Forall2 scored hits results ->
  Forall (ascending hit) hits ->
  Forall (descending result) results.
Proof.
  intros [_ Hs] Hn. induction 1 as [|h r hits results [_ Hr] _ IH]; intros Ha;
    [constructor |].
  inversion Ha as [|? ? Hh Hrest]; subst.
  constructor; [| now apply IH].
  rewrite Hs, Hr. now apply score_antitone.
Qed.

Lemma scored_descending (hits : list (Fp.float * Z))
      (results : list (VectorDB.Scored Fp.float)) :
  Forall2 scored hits results ->
  Forall nonnegative hits ->
  StronglySorted ascending hits ->
  StronglySorted descending results.
Proof.
  induction 1 as [|hit result hits results Hhit Hall IH]; intros Hn Hs;
    [constructor |].
  inversion Hn as [|? ? Hh Hrest]; subst.
  inversion Hs as [|? ? Hsorted Hbelow]; subst.
  constructor; [now apply IH |].
  now apply (scored_below hit result hits results).
Qed.

End ScoredResults.

(** The score of the model is the score that the Standard Library's
    specification of IEEE 754 computes, on every sample of both
    formats. *)
Example score_agrees_with_library :
  forallb (agree Fp.binary64) binary64_samples = true
  /\ forallb (agree Fp.binary32) binary32_samples = true.
Proof. split; vm_compute; reflexivity. Qed.

(** C8, as stated, fails. The score is not the number [1/(1+d)] but the
    result of a rounded sum and a rounded quotient: the distances 0 and
    [2 ^ -60] differ and have the same score, one, in binary64 and in
    binary32, in the arithmetic of the model and in that of the Standard
    Library; so two results of one search have different distances and
    equal scores. And the score of an infinite distance is zero, which
    is not in (0,1]. *)
Lemma C8_rounding_counterexample :
  Fp.ltb Fp.zero (tiny Fp.binary64) = true
  /\ Fp.score Fp.binary64 Fp.zero = Fp.one Fp.binary64
  /\ Fp.score Fp.binary64 (tiny Fp.binary64) = Fp.one Fp.binary64
  /\ Fp.score Fp.binary32 (tiny Fp.binary32) = Fp.score Fp.binary32 Fp.zero
  /\ library_score Fp.binary64 (SpecFloat.S754_finite false 4503599627370496 (-112))
     = library_score Fp.binary64 (SpecFloat.S754_zero false)
  /\ option_map (map VectorDB.score)
       (match VectorDB.search_cocktails
                Fp.float (Fp.score Fp.binary64) (near_hits Fp.binary64)
                (VectorDB.get_cocktails_for_embedding [lemonade; mojito]) "mint" 2
        with Ret results => Some results | Raise => None end)
     = Some [Fp.one Fp.binary64; Fp.one Fp.binary64]
  /\ Fp.score Fp.binary64 (Fp.Inf false) = Fp.zero
  /\ Fp.ltb Fp.zero (Fp.score Fp.binary64 (Fp.Inf false)) = false.
Proof. repeat split; vm_compute; reflexivity. Qed.

(** C8 (amended). In every binary format, for every search that returns:
    the results are, in the order of the index, the entries at the
    positions below the length of the metadata list, positions at or
    beyond it being skipped, each with the score computed from its
    distance by a rounded sum and a rounded quotient; and when the
    distances the index returns are not negative and ascend, every
    score lies between zero and one, both included, and the scores do
    not increase from one result to the next. *)
Theorem C8_scores_follow_distances
        (fmt : Fp.format)
        (index_search : string -> nat -> res (list (Fp.float * Z)))
        (cocktail_data : list VectorDB.Cocktail)
        (query : string) (top_k : nat)
        (hits : list (Fp.float * Z))
        (results : list (VectorDB.Scored Fp.float)) :
  (0 < Fp.prec fmt)%Z -> (1 < Fp.emax fmt)%Z ->
  index_search query top_k = Ret hits ->
  Forall (fun hit => Fp.leb Fp.zero (fst hit) = true) hits ->
  StronglySorted (fun a b => Fp.leb (fst a) (fst b) = true) hits ->
  VectorDB.search_cocktails Fp.float (Fp.score fmt) index_search cocktail_data
                            query top_k
  = Ret results ->
  Forall2 (fun hit result =>
             VectorDB.py_index cocktail_data (snd hit)
             = Some (VectorDB.cocktail result)
             /\ VectorDB.score result = Fp.score fmt (fst hit))
          (in_range cocktail_data hits) results
  /\ Forall (fun result =>
               Fp.leb Fp.zero (VectorDB.score result) = true
               /\ Fp.leb (VectorDB.score result) (Fp.one fmt) = true)
            results
  /\ StronglySorted
       (fun a b => Fp.leb (VectorDB.score b) (VectorDB.score a) = true)
       results.
Proof.
  intros Hprec Hemax Hindex Hn Hs Hsearch.
  destruct (search_cocktails_in_range _ _ _ _ _ _ _ Hsearch) as [hits' [E Hall]].
  rewrite Hindex in E. injection E as <-.
  split; [exact Hall |]. split.
  - apply (scored_range fmt Hprec Hemax cocktail_data _ _ Hall).
    now apply filter_Forall.
  - apply (scored_descending fmt Hprec Hemax cocktail_data _ _ Hall).
    + now apply filter_Forall.
    + now apply filter_StronglySorted.
Qed.

Lemma C8_scores_witness :
  exists results,
    VectorDB.search_cocktails
      Fp.float (Fp.score Fp.binary64) (far_hits Fp.binary64)
      (VectorDB.get_cocktails_for_embedding [lemonade; mojito]) "mint" 3
    = Ret results
    /\ map VectorDB.score results
       = [Fp.one Fp.binary64;
          Fp.of_spec Fp.binary64 (SpecFloat.S754_finite false 1 (-1));
          Fp.zero]
    /\ StronglySorted
         (fun a b => Fp.leb (VectorDB.score b) (VectorDB.score a) = true)
         results.
Proof.
  destruct (VectorDB.search_cocktails
              Fp.float (Fp.score Fp.binary64) (far_hits Fp.binary64)
              (VectorDB.get_cocktails_for_embedding [lemonade; mojito]) "mint" 3)
    as [results|] eqn:E; [| vm_compute in E; discriminate].
  exists results. split; [reflexivity |].
  assert (Hscores : option_map (map VectorDB.score)
                      (match VectorDB.search_cocktails
                               Fp.float (Fp.score Fp.binary64) (far_hits Fp.binary64)
                               (VectorDB.get_cocktails_for_embedding [lemonade; mojito])
                               "mint" 3
                       with Ret r => Some r | Raise => None end)
                    = Some [Fp.one Fp.binary64;
                            Fp.of_spec Fp.binary64
                                       (SpecFloat.S754_finite false 1 (-1));
                            Fp.zero])
    by (vm_compute; reflexivity).
  rewrite E in Hscores. simpl in Hscores. injection Hscores as Hscores.
  split; [exact Hscores |].
  refine (proj2 (proj2 (C8_scores_follow_distances
                          Fp.binary64 (far_hits Fp.binary64)
                          (VectorDB.get_cocktails_for_embedding [lemonade; mojito])
                          "mint" 3
                          [ (Fp.zero, 1%Z); (Fp.one Fp.binary64, 0%Z);
                            (Fp.Inf false, 1%Z) ]
                          results _ _ eq_refl _ _ E))).
  - reflexivity.
  - reflexivity.
  - repeat constructor.
  - repeat constructor.
Defined.
